(** * HyperPlatform VMM: the VM-exit dispatcher and its emulation handlers

    A shallow embedding of [HyperPlatform/vmm.cpp] for the _AMD64_ build
    ([ULONG_PTR] is 64 bits wide and [IsX64()] is true), followed by the
    properties of the handlers.

    Machine integers are [Z] with the wrap-around written out.  The
    handlers mutate the per-exit [GuestContext] and the processor through
    intrinsics; here they are functions in a state monad over
    [VmmState] whose outcome is either a normal return or a bug check.
    Every interaction with the processor is also appended to a log, so that
    "which hardware accesses did this handler perform" can be stated. *)

From Stdlib Require Import ZArith List Bool Lia String Ascii.
Import ListNotations.
Local Open Scope Z_scope.

(** ** Machine words and bit-fields *)

Definition wrap64 (x : Z) : Z := x mod 2 ^ 64.
Definition wrap32 (x : Z) : Z := x mod 2 ^ 32.
Definition wrap16 (x : Z) : Z := x mod 2 ^ 16.
Definition wrap8 (x : Z) : Z := x mod 2 ^ 8.

(** [x.fields.f] for a field of [n] bits starting at bit [lo]. *)
Definition bits (lo n x : Z) : Z := Z.land (Z.shiftr x lo) (Z.ones n).

(** [x.fields.f = v] for the same field: the other bits of [x] stay. *)
Definition set_bits (lo n v x : Z) : Z :=
  Z.lor (Z.ldiff x (Z.shiftl (Z.ones n) lo)) (Z.shiftl (Z.land v (Z.ones n)) lo).

Definition bit (i x : Z) : bool := Z.testbit x i.
Definition set_bit (i : Z) (b : bool) (x : Z) : Z := set_bits i 1 (Z.b2z b) x.

(** Modelled from the spec: [UtilIsInBounds] of util.h is missing; a value
    is in bounds when it lies in the range, both ends included (the spec's
    "outside the declared valid range"). *)
Definition UtilIsInBounds (value min max : Z) : bool :=
  (min <=? value) && (value <=? max).

(** ** Architectural constants

    [ia32_type.h] is not part of the sources.  The enumerations of that
    header name architectural quantities, and the numbers below are their
    encodings in the Intel SDM; the bit positions the handlers use further
    down are those of the SDM's tables as well. *)

(** Modelled from the spec: [enum class VmcsField] of ia32_type.h is
    missing; the fields of the virtualization control structure, "addressed
    by a symbolic field identifier", with their SDM encodings. *)
Module VmcsField.
Definition kIoBitmapA := 0x2000.
Definition kGuestPhysicalAddress := 0x2400.
Definition kGuestIa32Debugctl := 0x2802.
Definition kHostIa32PerfGlobalCtrlHigh := 0x2c05.
Definition kVmEntryIntrInfoField := 0x4016.
Definition kVmEntryExceptionErrorCode := 0x4018.
Definition kVmEntryInstructionLen := 0x401a.
Definition kVmInstructionError := 0x4400.
Definition kVmExitReason := 0x4402.
Definition kVmExitIntrInfo := 0x4404.
Definition kVmExitIntrErrorCode := 0x4406.
Definition kVmExitInstructionLen := 0x440c.
Definition kVmxInstructionInfo := 0x440e.
Definition kGuestCsSelector := 0x0802.
Definition kGuestLdtrSelector := 0x080c.
Definition kGuestTrSelector := 0x080e.
Definition kGuestGdtrLimit := 0x4810.
Definition kGuestIdtrLimit := 0x4812.
Definition kGuestSsArBytes := 0x4818.
Definition kGuestSysenterCs := 0x482a.
Definition kCr0ReadShadow := 0x6004.
Definition kCr4ReadShadow := 0x6006.
Definition kExitQualification := 0x6400.
Definition kGuestCr0 := 0x6800.
Definition kGuestCr3 := 0x6802.
Definition kGuestCr4 := 0x6804.
Definition kGuestEsBase := 0x6806.
Definition kGuestCsBase := 0x6808.
Definition kGuestSsBase := 0x680a.
Definition kGuestDsBase := 0x680c.
Definition kGuestFsBase := 0x680e.
Definition kGuestGsBase := 0x6810.
Definition kGuestGdtrBase := 0x6816.
Definition kGuestIdtrBase := 0x6818.
Definition kGuestDr7 := 0x681a.
Definition kGuestRsp := 0x681c.
Definition kGuestRip := 0x681e.
Definition kGuestRflags := 0x6820.
Definition kGuestSysenterEsp := 0x6824.
Definition kGuestSysenterEip := 0x6826.
End VmcsField.

(** Modelled from the spec: [enum class Msr] of ia32_type.h is missing;
    the SYSENTER CS/ESP/EIP, debug-control and FS/GS base MSRs and the
    fixed-bit MSRs of CR0 and CR4. *)
Module Msr.
Definition kIa32SysenterCs := 0x174.
Definition kIa32SysenterEsp := 0x175.
Definition kIa32SysenterEip := 0x176.
Definition kIa32Debugctl := 0x1d9.
Definition kIa32VmxCr0Fixed0 := 0x486.
Definition kIa32VmxCr0Fixed1 := 0x487.
Definition kIa32VmxCr4Fixed0 := 0x488.
Definition kIa32VmxCr4Fixed1 := 0x489.
Definition kIa32FsBase := 0xc0000100.
Definition kIa32GsBase := 0xc0000101.
End Msr.

(** Modelled from the spec: [enum class VmxExitReason] of ia32_type.h is
    missing; the basic exit reasons the dispatcher switches on. *)
Module VmxExitReason.
Definition kExceptionOrNmi := 0.
Definition kTripleFault := 2.
Definition kCpuid := 10.
Definition kInvd := 13.
Definition kInvlpg := 14.
Definition kRdtsc := 16.
Definition kVmcall := 18.
Definition kVmclear := 19.
Definition kVmlaunch := 20.
Definition kVmptrld := 21.
Definition kVmptrst := 22.
Definition kVmread := 23.
Definition kVmresume := 24.
Definition kVmwrite := 25.
Definition kVmoff := 26.
Definition kVmon := 27.
Definition kCrAccess := 28.
Definition kDrAccess := 29.
Definition kIoInstruction := 30.
Definition kMsrRead := 31.
Definition kMsrWrite := 32.
Definition kMonitorTrapFlag := 37.
Definition kGdtrOrIdtrAccess := 46.
Definition kLdtrOrTrAccess := 47.
Definition kEptViolation := 48.
Definition kEptMisconfig := 49.
Definition kInvept := 50.
Definition kRdtscp := 51.
Definition kInvvpid := 53.
Definition kXsetbv := 55.
End VmxExitReason.

(** Modelled from the spec: [enum class InterruptionType] and
    [enum class InterruptionVector] of ia32_type.h are missing; the
    interruption types and the vectors of #DB, #BP, #UD, #GP and #PF. *)
Module InterruptionType.
Definition kHardwareException := 3.
Definition kSoftwareException := 6.
End InterruptionType.

Module InterruptionVector.
Definition kDebugException := 1.
Definition kBreakpointException := 3.
Definition kInvalidOpcodeException := 6.
Definition kGeneralProtectionException := 13.
Definition kPageFaultException := 14.
End InterruptionVector.

(** Modelled from the spec: [enum class HyperPlatformBugCheck] of common.h
    is missing; the stop codes of the fatal path. *)
Inductive HyperPlatformBugCheck : Set :=
| kUnspecified
| kUnexpectedVmExit
| kTripleFaultVmExit
| kCriticalVmxInstructionFailure
| kEptMisconfigVmExit.

Definition DISPATCH_LEVEL := 2.
Definition MAXULONG := 0xffffffff.

(** Modelled from the spec: [union FlagRegister] of ia32_type.h is missing;
    the bit positions of the flags the handlers name. *)
Module Flag.
Definition cf := 0.
Definition pf := 2.
Definition af := 4.
Definition zf := 6.
Definition sf := 7.
Definition tf := 8.
Definition df := 10.
Definition of_ := 11.
End Flag.

(** ** The register file *)

Inductive Reg : Set :=
| ax | cx | dx | bx | sp | bp | si | di
| r8 | r9 | r10 | r11 | r12 | r13 | r14 | r15.

Definition Reg_eqb (a b : Reg) : bool :=
  match a, b with
  | ax, ax | cx, cx | dx, dx | bx, bx | sp, sp | bp, bp | si, si | di, di
  | r8, r8 | r9, r9 | r10, r10 | r11, r11 | r12, r12 | r13, r13
  | r14, r14 | r15, r15 => true
  | _, _ => false
  end.

Definition GpRegisters := Reg -> Z.

Definition set_reg (r : Reg) (v : Z) (regs : GpRegisters) : GpRegisters :=
  fun r' => if Reg_eqb r r' then v else regs r'.

(** [struct ProcessorData], as far as the handlers look into it: two
    pointers. *)
Record ProcessorData := {
  shared_data : Z;
  ept_data : Z
}.

(** [struct GuestContext] together with the [VmmInitialStack] it points to
    ([gp_regs], the two trap-frame fields the dispatcher fills, and
    [processor_data]). *)
Record GuestContext := {
  gp_regs : GpRegisters;
  trap_frame_sp : Z;
  trap_frame_ip : Z;
  processor_data : Z;
  flag_reg : Z;
  ip : Z;
  cr8 : Z;
  irql : Z;
  vm_continue : bool
}.

(** ** The processor as the handlers see it *)

Inductive Event : Type :=
| EvVmRead (field : Z)
| EvVmWrite (field value : Z)
| EvReadMsr (msr : Z)
| EvWriteMsr (msr value : Z)
| EvReadCr3
| EvWriteCr3 (value : Z)
| EvWriteCr2 (value : Z)
| EvReadCr8
| EvWriteCr8 (value : Z)
| EvReadDr (n : Z)
| EvWriteDr (n value : Z)
| EvMemRead (root address size : Z)
| EvMemWrite (root address size value : Z)
| EvPortIn (port size value : Z)
| EvPortOut (port size value : Z)
| EvCpuid (function_id sub_function_id : Z)
| EvRdtsc
| EvRdtscp
| EvXsetbv (index value : Z)
| EvInvd
| EvInveptGlobal
| EvInvvpidAllContext
| EvInvvpidSingleContextExceptGlobal (vpid : Z)
| EvInvvpidIndividualAddress (vpid address : Z)
| EvLoadPdptes (cr3_value : Z)
| EvLgdt (limit base : Z)
| EvLidt (limit base : Z)
| EvGetCurrentIrql
| EvRaiseIrqlToDpcLevel
| EvLowerIrql (new_irql : Z)
| EvGetCurrentProcess
| EvEptHandleEptViolation (ept : Z)
| EvEptGetEptPtEntry (ept address : Z)
| EvDumpGuestState
| EvDbgBreak.

(** The processor state.  [mem root va] is the byte that virtual address
    [va] holds while [root] is the active address-space root (CR3).
    [hw_cr8] is CR8, the task-priority register; on this build the
    interrupt request level is the value of that register, see [hw_irql]
    below.  [current_process] is the address of the [_KPROCESS] that
    [PsGetCurrentProcess] returns, [proc_data] maps the address of a
    [ProcessorData] to its contents. *)
Record Machine := {
  vmcs : Z -> Z;
  msrs : Z -> Z;
  hw_cr2 : Z;
  hw_cr3 : Z;
  hw_cr8 : Z;
  hw_dr : Z -> Z;
  mem : Z -> Z -> Z;
  current_process : Z;
  processor_number : Z;
  proc_data : Z -> ProcessorData;
  port_reads : nat;
  log : list Event
}.

(** What the handlers cannot influence: the host's CPUID, the time stamp
    counter, the values the I/O ports deliver, and the declarations of
    headers that are not part of the sources ([HypercallNumber] of
    [util.h], [UtilIsX86Pae] of [util.cpp]). *)
Record Env := {
  cpuidex : Z -> Z -> Z * Z * Z * Z;
  rdtsc : Z;
  rdtscp : Z * Z;
  port_in : Z -> Z -> nat -> Z;
  UtilIsX86Pae : bool;
  kMinimumHypercallNumber : Z;
  kMaximumHypercallNumber : Z;
  kTerminateVmm : Z;
  kPingVmm : Z;
  kGetSharedProcessorData : Z
}.

Record VmmState := {
  guest : GuestContext;
  hw : Machine
}.

(** ** Field updates *)

Definition set_gp_regs (v : GpRegisters) (g : GuestContext) : GuestContext :=
  {| gp_regs := v; trap_frame_sp := trap_frame_sp g;
     trap_frame_ip := trap_frame_ip g; processor_data := processor_data g;
     flag_reg := flag_reg g; ip := ip g; cr8 := cr8 g; irql := irql g;
     vm_continue := vm_continue g |}.

Definition set_trap_frame (new_sp new_ip : Z) (g : GuestContext) : GuestContext :=
  {| gp_regs := gp_regs g; trap_frame_sp := new_sp; trap_frame_ip := new_ip;
     processor_data := processor_data g; flag_reg := flag_reg g; ip := ip g;
     cr8 := cr8 g; irql := irql g; vm_continue := vm_continue g |}.

Definition set_flag_reg (v : Z) (g : GuestContext) : GuestContext :=
  {| gp_regs := gp_regs g; trap_frame_sp := trap_frame_sp g;
     trap_frame_ip := trap_frame_ip g; processor_data := processor_data g;
     flag_reg := v; ip := ip g; cr8 := cr8 g; irql := irql g;
     vm_continue := vm_continue g |}.

Definition set_cr8 (v : Z) (g : GuestContext) : GuestContext :=
  {| gp_regs := gp_regs g; trap_frame_sp := trap_frame_sp g;
     trap_frame_ip := trap_frame_ip g; processor_data := processor_data g;
     flag_reg := flag_reg g; ip := ip g; cr8 := v; irql := irql g;
     vm_continue := vm_continue g |}.

Definition set_vm_continue (v : bool) (g : GuestContext) : GuestContext :=
  {| gp_regs := gp_regs g; trap_frame_sp := trap_frame_sp g;
     trap_frame_ip := trap_frame_ip g; processor_data := processor_data g;
     flag_reg := flag_reg g; ip := ip g; cr8 := cr8 g; irql := irql g;
     vm_continue := v |}.

Definition upd (k v : Z) (f : Z -> Z) : Z -> Z :=
  fun k' => if k' =? k then v else f k'.

Definition add_log (e : Event) (m : Machine) : Machine :=
  {| vmcs := vmcs m; msrs := msrs m; hw_cr2 := hw_cr2 m; hw_cr3 := hw_cr3 m;
     hw_cr8 := hw_cr8 m; hw_dr := hw_dr m; mem := mem m;
     current_process := current_process m;
     processor_number := processor_number m; proc_data := proc_data m;
     port_reads := port_reads m;
     log := e :: log m |}.

Definition set_vmcs (v : Z -> Z) (m : Machine) : Machine :=
  {| vmcs := v; msrs := msrs m; hw_cr2 := hw_cr2 m; hw_cr3 := hw_cr3 m;
     hw_cr8 := hw_cr8 m; hw_dr := hw_dr m; mem := mem m;
     current_process := current_process m;
     processor_number := processor_number m; proc_data := proc_data m;
     port_reads := port_reads m; log := log m |}.

Definition set_msrs (v : Z -> Z) (m : Machine) : Machine :=
  {| vmcs := vmcs m; msrs := v; hw_cr2 := hw_cr2 m; hw_cr3 := hw_cr3 m;
     hw_cr8 := hw_cr8 m; hw_dr := hw_dr m; mem := mem m;
     current_process := current_process m;
     processor_number := processor_number m; proc_data := proc_data m;
     port_reads := port_reads m; log := log m |}.

Definition set_hw_cr2 (v : Z) (m : Machine) : Machine :=
  {| vmcs := vmcs m; msrs := msrs m; hw_cr2 := v; hw_cr3 := hw_cr3 m;
     hw_cr8 := hw_cr8 m; hw_dr := hw_dr m; mem := mem m;
     current_process := current_process m;
     processor_number := processor_number m; proc_data := proc_data m;
     port_reads := port_reads m; log := log m |}.

Definition set_hw_cr3 (v : Z) (m : Machine) : Machine :=
  {| vmcs := vmcs m; msrs := msrs m; hw_cr2 := hw_cr2 m; hw_cr3 := v;
     hw_cr8 := hw_cr8 m; hw_dr := hw_dr m; mem := mem m;
     current_process := current_process m;
     processor_number := processor_number m; proc_data := proc_data m;
     port_reads := port_reads m; log := log m |}.

Definition set_hw_cr8 (v : Z) (m : Machine) : Machine :=
  {| vmcs := vmcs m; msrs := msrs m; hw_cr2 := hw_cr2 m; hw_cr3 := hw_cr3 m;
     hw_cr8 := v; hw_dr := hw_dr m; mem := mem m;
     current_process := current_process m;
     processor_number := processor_number m; proc_data := proc_data m;
     port_reads := port_reads m; log := log m |}.

(** The interrupt request level of the processor.  On this build it is
    the value of CR8 (the dispatcher's comment in vmm.cpp: CR8 is neither in
    the host nor in the guest state, so the level and CR8 read at entry are
    the same): [KeGetCurrentIrql], [KeRaiseIrqlToDpcLevel] and
    [KeLowerIrql] read and write the register [__readcr8] and [__writecr8]
    do. *)
Definition hw_irql (m : Machine) : Z := hw_cr8 m.
Definition set_hw_irql (v : Z) (m : Machine) : Machine := set_hw_cr8 v m.

Definition set_hw_dr (v : Z -> Z) (m : Machine) : Machine :=
  {| vmcs := vmcs m; msrs := msrs m; hw_cr2 := hw_cr2 m; hw_cr3 := hw_cr3 m;
     hw_cr8 := hw_cr8 m; hw_dr := v; mem := mem m;
     current_process := current_process m;
     processor_number := processor_number m; proc_data := proc_data m;
     port_reads := port_reads m; log := log m |}.

Definition set_mem (v : Z -> Z -> Z) (m : Machine) : Machine :=
  {| vmcs := vmcs m; msrs := msrs m; hw_cr2 := hw_cr2 m; hw_cr3 := hw_cr3 m;
     hw_cr8 := hw_cr8 m; hw_dr := hw_dr m; mem := v;
     current_process := current_process m;
     processor_number := processor_number m; proc_data := proc_data m;
     port_reads := port_reads m; log := log m |}.

Definition set_port_reads (v : nat) (m : Machine) : Machine :=
  {| vmcs := vmcs m; msrs := msrs m; hw_cr2 := hw_cr2 m; hw_cr3 := hw_cr3 m;
     hw_cr8 := hw_cr8 m; hw_dr := hw_dr m; mem := mem m;
     current_process := current_process m;
     processor_number := processor_number m; proc_data := proc_data m;
     port_reads := v; log := log m |}.

(** ** The monad of the handlers

    A handler either returns to its caller or ends in
    [HYPERPLATFORM_COMMON_BUG_CHECK], which stops the system.  Dereferencing
    the [nullptr] that [VmmpSelectRegister] returns for an index it does not
    know, or running a string operation over a register slot, faults in the
    host: the third outcome. *)

Inductive Outcome (A : Type) : Type :=
| Returned (a : A) (s : VmmState)
| BugCheck (code : HyperPlatformBugCheck) (p1 p2 p3 : Z) (s : VmmState)
| HostFault (s : VmmState).
Arguments Returned {A} a s.
Arguments BugCheck {A} code p1 p2 p3 s.
Arguments HostFault {A} s.

Definition M (A : Type) : Type := VmmState -> Outcome A.

Definition ret {A} (a : A) : M A := fun s => Returned a s.

Definition bind {A B} (a : M A) (f : A -> M B) : M B :=
  fun s =>
    match a s with
    | Returned x s' => f x s'
    | BugCheck c p1 p2 p3 s' => BugCheck c p1 p2 p3 s'
    | HostFault s' => HostFault s'
    end.

Declare Scope vmm_scope.
Delimit Scope vmm_scope with vmm.
Notation "x <- a ;; b" := (bind a (fun x => b))
  (at level 61, a at next level, right associativity) : vmm_scope.
Notation "a ;; b" := (bind a (fun _ => b))
  (at level 61, right associativity) : vmm_scope.
Local Open Scope vmm_scope.

(** The state an outcome leaves behind, whichever way the handler ended. *)
Definition final {A} (o : Outcome A) : VmmState :=
  match o with
  | Returned _ s => s
  | BugCheck _ _ _ _ s => s
  | HostFault s => s
  end.

Definition returns {A} (o : Outcome A) : bool :=
  match o with Returned _ _ => true | _ => false end.

Definition on_hw (f : Machine -> Machine) : M unit :=
  fun s => Returned tt {| guest := guest s; hw := f (hw s) |}.

Definition on_guest (f : GuestContext -> GuestContext) : M unit :=
  fun s => Returned tt {| guest := f (guest s); hw := hw s |}.

Definition read_hw {A} (f : Machine -> A) : M A :=
  fun s => Returned (f (hw s)) s.

Definition read_guest {A} (f : GuestContext -> A) : M A :=
  fun s => Returned (f (guest s)) s.

Definition emit (e : Event) : M unit := on_hw (add_log e).

Definition HYPERPLATFORM_COMMON_BUG_CHECK {A} (code : HyperPlatformBugCheck)
    (p1 p2 p3 : Z) : M A :=
  fun s => BugCheck code p1 p2 p3 s.

(** Breaks into a debugger when one is attached and continues. *)
Definition HYPERPLATFORM_COMMON_DBG_BREAK : M unit := emit EvDbgBreak.

Definition when (c : bool) (a : M unit) : M unit := if c then a else ret tt.

(** ** Intrinsics and the helpers of util.cpp *)

(** Modelled from the spec: [UtilVmRead], [UtilVmWrite] and their 64-bit
    variants (util.cpp) are missing; the control structure is "a flat
    key-value store" with "typed field read/write (32-bit and 64-bit
    variants)": a write replaces the value of the field and a read returns
    it.  On _AMD64_ the 64-bit variants are the same VMREAD and VMWRITE. *)
Definition UtilVmRead (field : Z) : M Z :=
  emit (EvVmRead field) ;; read_hw (fun m => vmcs m field).

Definition UtilVmWrite (field value : Z) : M unit :=
  emit (EvVmWrite field value) ;;
  on_hw (fun m => set_vmcs (upd field value (vmcs m)) m).

Definition UtilVmRead64 (field : Z) : M Z := UtilVmRead field.
Definition UtilVmWrite64 (field value : Z) : M unit := UtilVmWrite field value.

(** Modelled from the spec: [UtilReadMsr], [UtilReadMsr64] and
    [UtilWriteMsr64] (util.cpp) are missing; "the model-specific-register
    read/write primitives" on the hardware MSRs. *)
Definition UtilReadMsr (msr : Z) : M Z :=
  emit (EvReadMsr msr) ;; read_hw (fun m => msrs m msr).

Definition UtilReadMsr64 (msr : Z) : M Z := UtilReadMsr msr.

Definition UtilWriteMsr64 (msr value : Z) : M unit :=
  emit (EvWriteMsr msr value) ;;
  on_hw (fun m => set_msrs (upd msr value (msrs m)) m).

Definition __readcr3 : M Z := emit EvReadCr3 ;; read_hw hw_cr3.
Definition __writecr3 (v : Z) : M unit :=
  emit (EvWriteCr3 v) ;; on_hw (set_hw_cr3 v).
Definition __readcr8 : M Z := emit EvReadCr8 ;; read_hw hw_cr8.
Definition __writecr8 (v : Z) : M unit :=
  emit (EvWriteCr8 v) ;; on_hw (set_hw_cr8 v).
Definition AsmWriteCR2 (v : Z) : M unit :=
  emit (EvWriteCr2 v) ;; on_hw (set_hw_cr2 v).
Definition __readdr (n : Z) : M Z :=
  emit (EvReadDr n) ;; read_hw (fun m => hw_dr m n).
Definition __writedr (n v : Z) : M unit :=
  emit (EvWriteDr n v) ;; on_hw (fun m => set_hw_dr (upd n v (hw_dr m)) m).

(** The interrupt request level is CR8: these three act on [hw_cr8], the
    register of [__readcr8] and [__writecr8]. *)
Definition KeGetCurrentIrql : M Z := emit EvGetCurrentIrql ;; read_hw hw_irql.
Definition KeRaiseIrqlToDpcLevel : M unit :=
  emit EvRaiseIrqlToDpcLevel ;; on_hw (set_hw_irql DISPATCH_LEVEL).
Definition KeLowerIrql (new_irql : Z) : M unit :=
  emit (EvLowerIrql new_irql) ;; on_hw (set_hw_irql new_irql).
Definition KeGetCurrentProcessorNumberEx : M Z := read_hw processor_number.
(** The address of the [_KPROCESS] of the current process. *)
Definition PsGetCurrentProcess : M Z :=
  emit EvGetCurrentProcess ;; read_hw current_process.

(** Modelled from the spec: the invalidation helpers (util.cpp) and
    [AsmInvalidateInternalCaches] (asm.h) are missing; "the
    address-space-tag TLB invalidation primitives (single-context,
    single-address, all-context, global)" act on caches that are not part of
    this state, so a call is its log entry. *)
Definition UtilInveptGlobal : M unit := emit EvInveptGlobal.
Definition UtilInvvpidAllContext : M unit := emit EvInvvpidAllContext.
Definition UtilInvvpidSingleContextExceptGlobal (vpid : Z) : M unit :=
  emit (EvInvvpidSingleContextExceptGlobal vpid).
Definition UtilInvvpidIndividualAddress (vpid address : Z) : M unit :=
  emit (EvInvvpidIndividualAddress vpid address).

(** Modelled from the spec: [UtilLoadPdptes] (util.cpp) is missing; in
    "physical-address-extension mode" it "reloads the
    page-directory-pointer-table entries from the relevant CR3".  What it
    reads and writes on the way is behind this call; here a call is its log
    entry. *)
Definition UtilLoadPdptes (cr3_value : Z) : M unit :=
  emit (EvLoadPdptes cr3_value).

Definition AsmInvalidateInternalCaches : M unit := emit EvInvd.
Definition __lgdt (limit base : Z) : M unit := emit (EvLgdt limit base).
Definition __lidt (limit base : Z) : M unit := emit (EvLidt limit base).

(** Modelled from the spec: [EptHandleEptViolation] and [EptGetEptPtEntry]
    (ept.cpp) are missing; "ResolveViolation(eptState) (handles a violation,
    may modify mappings, does not return a value consumed here)" and
    "LookupEntry(eptState, guestPhysicalAddress) -> entry (read-only)".  The
    EPT structures are not part of this state, so a call is its log entry
    (and the entry looked up is not known here). *)
Definition EptHandleEptViolation (ept : Z) : M unit :=
  emit (EvEptHandleEptViolation ept).
Definition EptGetEptPtEntry (ept address : Z) : M Z :=
  emit (EvEptGetEptPtEntry ept address) ;; ret 0.

(** *** Memory behind a pointer

    A dereference goes through the address-space root that is active when
    it happens, and the log entry of the access carries that root. *)

Fixpoint load_bytes (f : Z -> Z) (address : Z) (n : nat) : Z :=
  match n with
  | O => 0
  | S k => wrap8 (f address) + 256 * load_bytes f (address + 1) k
  end.

Definition store_bytes (address size value : Z) (f : Z -> Z) : Z -> Z :=
  fun a =>
    if (address <=? a) && (a <? address + size)
    then bits (8 * (a - address)) 8 value
    else f a.

Definition load (size address : Z) : M Z :=
  fun s =>
    let root := hw_cr3 (hw s) in
    Returned (load_bytes (mem (hw s) root) address (Z.to_nat size))
      {| guest := guest s;
         hw := add_log (EvMemRead root address size) (hw s) |}.

Definition store (size address value : Z) : M unit :=
  fun s =>
    let root := hw_cr3 (hw s) in
    let mem' := fun r => if r =? root
                         then store_bytes address size value (mem (hw s) r)
                         else mem (hw s) r in
    Returned tt
      {| guest := guest s;
         hw := add_log (EvMemWrite root address size value)
                 (set_mem mem' (hw s)) |}.

(** The offset of [DirectoryTableBase] in [_KPROCESS] on x64. *)
Definition kDirectoryTableBaseOffset : Z := 0x28.

(** *** Registers behind a pointer *)

Definition get_reg (r : Reg) : M Z := read_guest (fun g => gp_regs g r).
Definition put_reg (r : Reg) (v : Z) : M unit :=
  on_guest (fun g => set_gp_regs (set_reg r v (gp_regs g)) g).

(** [*register_used], where [register_used] may be [nullptr]. *)
Definition deref (register_used : option Reg) : M Z :=
  match register_used with
  | Some r => get_reg r
  | None => fun s => HostFault s
  end.

Definition assign (register_used : option Reg) (v : Z) : M unit :=
  match register_used with
  | Some r => put_reg r v
  | None => fun s => HostFault s
  end.

Section Handlers.

Variable env : Env.

(** ** vmm.cpp *)

(** Selects a register to be used based on the index *)
Definition VmmpSelectRegister (index : Z) : M (option Reg) :=
  match index with
  | 0 => ret (Some ax)
  | 1 => ret (Some cx)
  | 2 => ret (Some dx)
  | 3 => ret (Some bx)
  | 4 => ret (Some sp)
  | 5 => ret (Some bp)
  | 6 => ret (Some si)
  | 7 => ret (Some di)
  | 8 => ret (Some r8)
  | 9 => ret (Some r9)
  | 10 => ret (Some r10)
  | 11 => ret (Some r11)
  | 12 => ret (Some r12)
  | 13 => ret (Some r13)
  | 14 => ret (Some r14)
  | 15 => ret (Some r15)
  | _ => HYPERPLATFORM_COMMON_DBG_BREAK ;; ret None
  end.

(** [VmEntryInterruptionInformationField]: vector in bits 0..7, interruption
    type in bits 8..10, deliver-error-code in bit 11, valid in bit 31. *)
Definition interruption_info (interruption_type vector : Z)
    (deliver_error_code : bool) : Z :=
  let inject := 0 in
  let inject := set_bit 31 true inject in
  let inject := set_bits 8 3 interruption_type inject in
  let inject := set_bits 0 8 vector inject in
  set_bit 11 deliver_error_code inject.

(** Injects interruption to a guest *)
Definition VmmpInjectInterruption (interruption_type vector : Z)
    (deliver_error_code : bool) (error_code : Z) : M unit :=
  UtilVmWrite VmcsField.kVmEntryIntrInfoField
    (interruption_info interruption_type vector deliver_error_code) ;;
  when deliver_error_code
    (UtilVmWrite VmcsField.kVmEntryExceptionErrorCode error_code).

(** Advances guest's IP to the next instruction *)
Definition VmmpAdjustGuestInstructionPointer : M unit :=
  exit_inst_length <- UtilVmRead VmcsField.kVmExitInstructionLen ;;
  guest_ip <- read_guest ip ;;
  UtilVmWrite VmcsField.kGuestRip (wrap64 (guest_ip + exit_inst_length)) ;;
  flags <- read_guest flag_reg ;;
  when (bit Flag.tf flags)
    (VmmpInjectInterruption InterruptionType.kHardwareException
       InterruptionVector.kDebugException false 0 ;;
     UtilVmWrite VmcsField.kVmEntryInstructionLen exit_inst_length).

(** Returns guest's CPL: the DPL field (bits 5..6) of the SS access
    rights. *)
Definition VmmpGetGuestCpl : M Z :=
  ar <- UtilVmRead VmcsField.kGuestSsArBytes ;;
  ret (bits 5 2 (wrap32 ar)).

(** Returns a kernel CR3 value of the current process.  With the lowest
    bit of the guest CR3 set it is read from [_KPROCESS::DirectoryTableBase]
    of the current process: a dereference of [process + 0x28], made through
    whatever root is loaded when the function is called. *)
Definition VmmpGetKernelCr3 : M Z :=
  guest_cr3 <- UtilVmRead VmcsField.kGuestCr3 ;;
  if Z.land guest_cr3 1 =? 0 then ret guest_cr3
  else process <- PsGetCurrentProcess ;;
       load 8 (process + kDirectoryTableBaseOffset).

(** CPUID *)
Definition VmmpHandleCpuid : M unit :=
  rax <- get_reg ax ;;
  rcx <- get_reg cx ;;
  let function_id := wrap32 rax in
  let sub_function_id := wrap32 rcx in
  emit (EvCpuid function_id sub_function_id) ;;
  let '(i0, i1, i2, i3) := cpuidex env function_id sub_function_id in
  if function_id =? 0 then
    put_reg ax 16 ;;
    put_reg bx 0x756E6547 ;;
    put_reg cx 0x6C65746E ;;
    put_reg dx 0x49656E69 ;;
    VmmpAdjustGuestInstructionPointer
  else
    (* CpuFeaturesEcx::not_used is bit 31, the HypervisorPresent bit *)
    let i2 := if function_id =? 1 then set_bit 31 false (wrap32 i2)
              else wrap32 i2 in
    put_reg ax (wrap32 i0) ;;
    put_reg bx (wrap32 i1) ;;
    put_reg cx i2 ;;
    put_reg dx (wrap32 i3) ;;
    VmmpAdjustGuestInstructionPointer.

(** RDTSC *)
Definition VmmpHandleRdtsc : M unit :=
  emit EvRdtsc ;;
  let tsc := wrap64 (rdtsc env) in
  put_reg dx (bits 32 32 tsc) ;;
  put_reg ax (bits 0 32 tsc) ;;
  VmmpAdjustGuestInstructionPointer.

(** RDTSCP *)
Definition VmmpHandleRdtscp : M unit :=
  emit EvRdtscp ;;
  let tsc := wrap64 (fst (rdtscp env)) in
  let tsc_aux := wrap32 (snd (rdtscp env)) in
  put_reg dx (bits 32 32 tsc) ;;
  put_reg ax (bits 0 32 tsc) ;;
  put_reg cx tsc_aux ;;
  VmmpAdjustGuestInstructionPointer.

(** XSETBV *)
Definition VmmpHandleXsetbv : M unit :=
  rax <- get_reg ax ;;
  rdx <- get_reg dx ;;
  rcx <- get_reg cx ;;
  let value := Z.lor (wrap32 rax) (Z.shiftl (wrap32 rdx) 32) in
  emit (EvXsetbv (wrap32 rcx) value) ;;
  VmmpAdjustGuestInstructionPointer.

(** The [HighPart] of a [LARGE_INTEGER] is a [LONG]: assigned to a
    [ULONG_PTR] it is sign-extended. *)
Definition sext32 (x : Z) : Z :=
  let w := wrap32 x in
  if w <? 2 ^ 31 then w else wrap64 (w - 2 ^ 32).

(** RDMSR and WRMSR *)
Definition VmmpHandleMsrAccess (read_access : bool) : M unit :=
  rcx <- get_reg cx ;;
  let msr := wrap32 rcx in
  let is_vaild_msr :=
    if rcx <=? 0x1FFF then true
    else if (0xC0000000 <=? rcx) && (rcx <=? 0xC0001FFF) then true
    else false in
  if negb is_vaild_msr && negb (rcx =? 0x400000f0) then
    VmmpInjectInterruption InterruptionType.kHardwareException
      InterruptionVector.kGeneralProtectionException true 0x6A ;;
    VmmpAdjustGuestInstructionPointer
  else
    let '(vmcs_field, transfer_to_vmcs) :=
      if msr =? Msr.kIa32SysenterCs then (VmcsField.kGuestSysenterCs, true)
      else if msr =? Msr.kIa32SysenterEsp then (VmcsField.kGuestSysenterEsp, true)
      else if msr =? Msr.kIa32SysenterEip then (VmcsField.kGuestSysenterEip, true)
      else if msr =? Msr.kIa32Debugctl then (VmcsField.kGuestIa32Debugctl, true)
      else if msr =? Msr.kIa32GsBase then (VmcsField.kGuestGsBase, true)
      else if msr =? Msr.kIa32FsBase then (VmcsField.kGuestFsBase, true)
      else (0, false) in
    let is_64bit_vmcs :=
      UtilIsInBounds vmcs_field VmcsField.kIoBitmapA
        VmcsField.kHostIa32PerfGlobalCtrlHigh in
    (if read_access then
       msr_value <- (if transfer_to_vmcs then
                       if is_64bit_vmcs then UtilVmRead64 vmcs_field
                       else UtilVmRead vmcs_field
                     else UtilReadMsr64 msr) ;;
       put_reg ax (bits 0 32 msr_value) ;;
       put_reg dx (sext32 (bits 32 32 msr_value))
     else
       rax <- get_reg ax ;;
       rdx <- get_reg dx ;;
       let msr_value := Z.lor (wrap32 rax) (Z.shiftl (wrap32 rdx) 32) in
       if transfer_to_vmcs then
         if is_64bit_vmcs then UtilVmWrite64 vmcs_field msr_value
         else UtilVmWrite vmcs_field msr_value
       else UtilWriteMsr64 msr msr_value) ;;
    VmmpAdjustGuestInstructionPointer.

Definition VmmpHandleMsrReadAccess : M unit := VmmpHandleMsrAccess true.
Definition VmmpHandleMsrWriteAccess : M unit := VmmpHandleMsrAccess false.

(** The operand-address arithmetic that both descriptor-table handlers
    spell out.  In the instruction-information field the scaling is in bits
    0..1, the address size in bits 7..9, the segment register in bits
    15..17, the index register in bits 18..21 (invalid: bit 22), the base
    register in bits 23..26 (invalid: bit 27) and the instruction identity
    in bits 28..29. *)
Definition base_value_of (instruction_info : Z) : M Z :=
  if bits 27 1 instruction_info =? 0 then
    register_used <- VmmpSelectRegister (bits 23 4 instruction_info) ;;
    deref register_used
  else ret 0.

Definition index_value_of (instruction_info : Z) : M Z :=
  if bits 22 1 instruction_info =? 0 then
    register_used <- VmmpSelectRegister (bits 18 4 instruction_info) ;;
    index_value <- deref register_used ;;
    ret (match bits 0 2 instruction_info with
         | 1 => wrap64 (index_value * 2)
         | 2 => wrap64 (index_value * 4)
         | 3 => wrap64 (index_value * 8)
         | _ => index_value
         end)
  else ret 0.

Definition segment_base_of (instruction_info : Z) : M Z :=
  match bits 15 3 instruction_info with
  | 0 => UtilVmRead VmcsField.kGuestEsBase
  | 1 => UtilVmRead VmcsField.kGuestCsBase
  | 2 => UtilVmRead VmcsField.kGuestSsBase
  | 3 => UtilVmRead VmcsField.kGuestDsBase
  | 4 => UtilVmRead VmcsField.kGuestFsBase
  | 5 => UtilVmRead VmcsField.kGuestGsBase
  | _ => HYPERPLATFORM_COMMON_DBG_BREAK ;; ret 0
  end.

Definition effective_address (instruction_info displacement : Z) : M Z :=
  base_value <- base_value_of instruction_info ;;
  index_value <- index_value_of instruction_info ;;
  segment_base <- segment_base_of instruction_info ;;
  let operation_address :=
    wrap64 (segment_base + base_value + index_value + displacement) in
  ret (if bits 7 3 instruction_info =? 1
       then Z.land operation_address MAXULONG
       else operation_address).

(** [segment_descriptor->fields.l] of the descriptor the guest's CS selects:
    descriptors are 8 bytes, the selector's index is in bits 3..15 and the
    L bit is bit 53 of the descriptor. *)
Definition code_segment_is_long (gdt_base : Z) : M bool :=
  ss <- UtilVmRead VmcsField.kGuestCsSelector ;;
  descriptor <- load 8 (wrap64 (gdt_base + bits 3 13 (wrap16 ss) * 8)) ;;
  ret (bit 53 descriptor).

(** Stores through [descriptor_table_reg]: [Idtr] is a packed
    [{ limit : 16; base : 64 }], [Idtr32] a packed [{ limit : 16; base : 32 }]. *)
Definition store_descriptor_table_reg (is_long : bool)
    (operation_address base limit : Z) : M unit :=
  if is_long then
    store 8 (operation_address + 2) base ;;
    store 2 operation_address limit
  else
    store 4 (operation_address + 2) (wrap32 base) ;;
    store 2 operation_address limit.

(** LIDT, SIDT, LGDT and SGDT *)
Definition VmmpHandleGdtrOrIdtrAccess : M unit :=
  info <- UtilVmRead VmcsField.kVmxInstructionInfo ;;
  let instruction_info := wrap32 info in
  displacement <- UtilVmRead VmcsField.kExitQualification ;;
  operation_address <- effective_address instruction_info displacement ;;
  guest_cr3 <- VmmpGetKernelCr3 ;;
  vmm_cr3 <- __readcr3 ;;
  __writecr3 guest_cr3 ;;
  match bits 28 2 instruction_info with
  | 0 => (* kSgdt *)
      gdt_base <- UtilVmRead VmcsField.kGuestGdtrBase ;;
      gdt_limit <- UtilVmRead VmcsField.kGuestGdtrLimit ;;
      is_long <- code_segment_is_long gdt_base ;;
      store_descriptor_table_reg is_long operation_address gdt_base
        (wrap16 gdt_limit)
  | 1 => (* kSidt *)
      idt_base <- UtilVmRead VmcsField.kGuestIdtrBase ;;
      idt_limit <- UtilVmRead VmcsField.kGuestIdtrLimit ;;
      gdt_base <- UtilVmRead VmcsField.kGuestGdtrBase ;;
      is_long <- code_segment_is_long gdt_base ;;
      store_descriptor_table_reg is_long operation_address idt_base
        (wrap16 idt_limit)
  | 2 => (* kLgdt *)
      base <- load 8 (operation_address + 2) ;;
      UtilVmWrite VmcsField.kGuestGdtrBase base ;;
      limit <- load 2 operation_address ;;
      UtilVmWrite VmcsField.kGuestGdtrLimit limit
  | _ => (* kLidt *)
      base <- load 8 (operation_address + 2) ;;
      UtilVmWrite VmcsField.kGuestIdtrBase base ;;
      limit <- load 2 operation_address ;;
      UtilVmWrite VmcsField.kGuestIdtrLimit limit
  end ;;
  __writecr3 vmm_cr3 ;;
  VmmpAdjustGuestInstructionPointer.

(** What a [void *] or [USHORT *] of the handlers points at: the slot of a
    guest register on the host stack, or a guest virtual address. *)
Inductive Pointer : Type :=
| PtrRegister (register_used : option Reg)
| PtrMemory (address : Z).

(** Reads and writes of [size] bytes through such a pointer; the bytes of
    the register above [size] stay. *)
Definition read_through (size : Z) (p : Pointer) : M Z :=
  match p with
  | PtrRegister r => v <- deref r ;; ret (bits 0 (8 * size) v)
  | PtrMemory a => load size a
  end.

Definition write_through (size : Z) (p : Pointer) (v : Z) : M unit :=
  match p with
  | PtrRegister r => old <- deref r ;; assign r (set_bits 0 (8 * size) v old)
  | PtrMemory a => store size a v
  end.

(** LLDT, LTR, SLDT, and STR.  Here the instruction information has the
    register in bits 3..6 and the register-access flag in bit 10. *)
Definition VmmpHandleLdtrOrTrAccess : M unit :=
  info <- UtilVmRead VmcsField.kVmxInstructionInfo ;;
  let instruction_info := wrap32 info in
  displacement <- UtilVmRead VmcsField.kExitQualification ;;
  selector <- (if bits 10 1 instruction_info =? 1 then
                 register_used <- VmmpSelectRegister (bits 3 4 instruction_info) ;;
                 ret (PtrRegister register_used)
               else
                 operation_address <- effective_address instruction_info displacement ;;
                 ret (PtrMemory operation_address)) ;;
  guest_cr3 <- VmmpGetKernelCr3 ;;
  vmm_cr3 <- __readcr3 ;;
  __writecr3 guest_cr3 ;;
  match bits 28 2 instruction_info with
  | 0 => (* kSldt *)
      v <- UtilVmRead VmcsField.kGuestLdtrSelector ;;
      write_through 2 selector (wrap16 v)
  | 1 => (* kStr *)
      v <- UtilVmRead VmcsField.kGuestTrSelector ;;
      write_through 2 selector (wrap16 v)
  | 2 => (* kLldt *)
      v <- read_through 2 selector ;;
      UtilVmWrite VmcsField.kGuestLdtrSelector v
  | _ => (* kLtr *)
      v <- read_through 2 selector ;;
      UtilVmWrite VmcsField.kGuestTrSelector v ;;
      ss <- read_through 2 selector ;;
      gdt_base <- UtilVmRead VmcsField.kGuestGdtrBase ;;
      let sd := wrap64 (gdt_base + bits 3 13 ss * 8) in
      descriptor <- load 8 sd ;;
      (* the type field is bits 40..43 of the descriptor *)
      store 8 sd (set_bits 40 4 (Z.lor (bits 40 4 descriptor) 2) descriptor)
  end ;;
  __writecr3 vmm_cr3 ;;
  VmmpAdjustGuestInstructionPointer.

(** MOV to / from DRx.  In the exit qualification the debug register is in
    bits 0..2, the direction in bit 4 (0: to DR) and the general-purpose
    register in bits 8..11; [Cr4::de] is bit 3 and [Dr7::gd] bit 13. *)
Definition VmmpHandleDrAccess : M unit :=
  cpl <- VmmpGetGuestCpl ;;
  if negb (cpl =? 0) then
    VmmpInjectInterruption InterruptionType.kHardwareException
      InterruptionVector.kGeneralProtectionException true 0
  else
    exit_qualification <- UtilVmRead VmcsField.kExitQualification ;;
    let debugl_register := bits 0 3 exit_qualification in
    let continue_with (debugl_register : Z) : M unit :=
      guest_dr7 <- UtilVmRead VmcsField.kGuestDr7 ;;
      if bit 13 guest_dr7 then
        guest_dr6 <- __readdr 6 ;;
        let guest_dr6 := set_bit 0 false guest_dr6 in
        let guest_dr6 := set_bit 1 false guest_dr6 in
        let guest_dr6 := set_bit 2 false guest_dr6 in
        let guest_dr6 := set_bit 3 false guest_dr6 in
        let guest_dr6 := set_bit 13 true guest_dr6 in
        __writedr 6 guest_dr6 ;;
        VmmpInjectInterruption InterruptionType.kHardwareException
          InterruptionVector.kDebugException false 0 ;;
        UtilVmWrite VmcsField.kGuestDr7 (set_bit 13 false guest_dr7)
      else
        register_used <- VmmpSelectRegister (bits 8 4 exit_qualification) ;;
        let direction := bits 4 1 exit_qualification in
        value64 <- (if direction =? 0 then deref register_used else ret 0) ;;
        if (direction =? 0)
           && ((debugl_register =? 6) || (debugl_register =? 7))
           && negb (Z.shiftr value64 32 =? 0) then
          VmmpInjectInterruption InterruptionType.kHardwareException
            InterruptionVector.kGeneralProtectionException true 0
        else
          (if direction =? 0 then
             match debugl_register with
             | 0 => v <- deref register_used ;; __writedr 0 v
             | 1 => v <- deref register_used ;; __writedr 1 v
             | 2 => v <- deref register_used ;; __writedr 2 v
             | 3 => v <- deref register_used ;; __writedr 3 v
             | 6 =>
                 v <- deref register_used ;;
                 (* Dr6: reserved1 is bits 4..11, reserved2 bit 12,
                    reserved3 bits 17..31 *)
                 let write_value := set_bits 4 8 (Z.ones 8) v in
                 let write_value := set_bits 12 1 0 write_value in
                 let write_value := set_bits 17 15 (Z.ones 15) write_value in
                 __writedr 6 write_value
             | 7 =>
                 v <- deref register_used ;;
                 (* Dr7: reserved1 is bit 10, reserved2 bit 12,
                    reserved3 bits 14..15 *)
                 let write_value := set_bits 10 1 1 v in
                 let write_value := set_bits 12 1 0 write_value in
                 let write_value := set_bits 14 2 0 write_value in
                 UtilVmWrite VmcsField.kGuestDr7 write_value
             | _ => ret tt
             end
           else
             match debugl_register with
             | 0 => v <- __readdr 0 ;; assign register_used v
             | 1 => v <- __readdr 1 ;; assign register_used v
             | 2 => v <- __readdr 2 ;; assign register_used v
             | 3 => v <- __readdr 3 ;; assign register_used v
             | 6 => v <- __readdr 6 ;; assign register_used v
             | 7 => v <- UtilVmRead VmcsField.kGuestDr7 ;; assign register_used v
             | _ => ret tt
             end) ;;
          VmmpAdjustGuestInstructionPointer in
    if (debugl_register =? 4) || (debugl_register =? 5) then
      guest_cr4 <- UtilVmRead VmcsField.kGuestCr4 ;;
      if bit 3 guest_cr4 then
        VmmpInjectInterruption InterruptionType.kHardwareException
          InterruptionVector.kInvalidOpcodeException false 0
      else if debugl_register =? 4 then continue_with 6
      else continue_with 7
    else continue_with debugl_register.

(** One element read from an I/O port: the next value the port delivers. *)
Definition port_read (size port : Z) : M Z :=
  fun s =>
    let v := bits 0 (8 * size) (port_in env port size (port_reads (hw s))) in
    Returned v
      {| guest := guest s;
         hw := add_log (EvPortIn port size v)
                 (set_port_reads (S (port_reads (hw s))) (hw s)) |}.

Definition port_write (size port v : Z) : M unit :=
  emit (EvPortOut port size v).

(** [__inbytestring] and its siblings: [count] elements, one after the
    other, to ascending addresses. *)
Fixpoint in_string (size port address : Z) (count : nat) : M unit :=
  match count with
  | O => ret tt
  | S k =>
      v <- port_read size port ;;
      store size address v ;;
      in_string size port (address + size) k
  end.

Fixpoint out_string (size port address : Z) (count : nat) : M unit :=
  match count with
  | O => ret tt
  | S k =>
      v <- load size address ;;
      port_write size port v ;;
      out_string size port (address + size) k
  end.

(** A string operation needs memory behind its pointer. *)
Definition string_address_of (p : Pointer) : M Z :=
  match p with
  | PtrMemory a => ret a
  | PtrRegister _ => fun s => HostFault s
  end.

(** Perform IO instruction according with parameters.  Each of the four
    switches over [size_of_access] has the cases 1, 2 and 4 and the same
    bug check as its default; the test is written once here. *)
Definition VmmpIoWrapper (to_memory is_string : bool)
    (size_of_access port : Z) (address : Pointer) (count : Z) : M unit :=
  guest_cr3 <- VmmpGetKernelCr3 ;;
  vmm_cr3 <- __readcr3 ;;
  __writecr3 guest_cr3 ;;
  (if (size_of_access =? 1) || (size_of_access =? 2) || (size_of_access =? 4)
   then
     if to_memory then
       if is_string then
         a <- string_address_of address ;;
         in_string size_of_access port a (Z.to_nat count)
       else
         v <- port_read size_of_access port ;;
         write_through size_of_access address v
     else
       if is_string then
         a <- string_address_of address ;;
         out_string size_of_access port a (Z.to_nat count)
       else
         v <- read_through size_of_access address ;;
         port_write size_of_access port v
   else HYPERPLATFORM_COMMON_BUG_CHECK kUnspecified 0 0 0) ;;
  __writecr3 vmm_cr3.

(** IN, INS, OUT, OUTS.  In the exit qualification the size of access is in
    bits 0..2 (0: one byte, 1: two, 3: four), the direction in bit 3, the
    string flag in bit 4, the REP flag in bit 5 and the port number in bits
    16..31. *)
Definition VmmpHandleIoPort : M unit :=
  exit_qualification <- UtilVmRead VmcsField.kExitQualification ;;
  let is_in := bits 3 1 exit_qualification =? 1 in
  let is_string := bits 4 1 exit_qualification =? 1 in
  let is_rep := bits 5 1 exit_qualification =? 1 in
  let port := wrap16 (bits 16 16 exit_qualification) in
  rdi <- get_reg di ;;
  rsi <- get_reg si ;;
  rcx <- get_reg cx ;;
  let string_address := if is_in then rdi else rsi in
  let count := wrap32 (if is_rep then rcx else 1) in
  let address :=
    if is_string then PtrMemory string_address else PtrRegister (Some ax) in
  let size_of_access :=
    match bits 0 3 exit_qualification with
    | 0 => 1
    | 1 => 2
    | 3 => 4
    | _ => 0
    end in
  VmmpIoWrapper is_in is_string size_of_access port address count ;;
  when is_string
    (rcx <- get_reg cx ;;
     let update_count := if is_rep then rcx else 1 in
     let update_size := wrap64 (update_count * size_of_access) in
     let update_register := if is_in then di else si in
     flags <- read_guest flag_reg ;;
     old <- get_reg update_register ;;
     (if bit Flag.df flags
      then put_reg update_register (wrap64 (old - update_size))
      else put_reg update_register (wrap64 (old + update_size))) ;;
     when is_rep (put_reg cx 0)) ;;
  VmmpAdjustGuestInstructionPointer.

(** MOV to / from CRx.  In the exit qualification the control register is
    in bits 0..3, the access type in bits 4..5 (0: to CR, 1: from CR, 2:
    CLTS, 3: LMSW) and the general-purpose register in bits 8..11. *)
Definition VmmpHandleCrAccess : M unit :=
  exit_qualification <- UtilVmRead VmcsField.kExitQualification ;;
  register_used <- VmmpSelectRegister (bits 8 4 exit_qualification) ;;
  match bits 4 2 exit_qualification with
  | 0 => (* kMoveToCr *)
      match bits 0 4 exit_qualification with
      | 0 =>
          (if UtilIsX86Pae env
           then guest_cr3 <- UtilVmRead VmcsField.kGuestCr3 ;;
                UtilLoadPdptes guest_cr3
           else ret tt) ;;
          cr0_fixed0 <- UtilReadMsr Msr.kIa32VmxCr0Fixed0 ;;
          cr0_fixed1 <- UtilReadMsr Msr.kIa32VmxCr0Fixed1 ;;
          cr0 <- deref register_used ;;
          let cr0 := Z.land cr0 cr0_fixed1 in
          let cr0 := Z.lor cr0 cr0_fixed0 in
          UtilVmWrite VmcsField.kGuestCr0 cr0 ;;
          UtilVmWrite VmcsField.kCr0ReadShadow cr0
      | 3 =>
          (if UtilIsX86Pae env
           then kernel_cr3 <- VmmpGetKernelCr3 ;; UtilLoadPdptes kernel_cr3
           else ret tt) ;;
          processor <- KeGetCurrentProcessorNumberEx ;;
          UtilInvvpidSingleContextExceptGlobal (wrap16 (processor + 1)) ;;
          v <- deref register_used ;;
          UtilVmWrite VmcsField.kGuestCr3
            (Z.land v (wrap64 (Z.lnot (Z.shiftl 1 63))))
      | 4 =>
          (if UtilIsX86Pae env
           then guest_cr3 <- UtilVmRead VmcsField.kGuestCr3 ;;
                UtilLoadPdptes guest_cr3
           else ret tt) ;;
          UtilInvvpidAllContext ;;
          cr4_fixed0 <- UtilReadMsr Msr.kIa32VmxCr4Fixed0 ;;
          cr4_fixed1 <- UtilReadMsr Msr.kIa32VmxCr4Fixed1 ;;
          cr4 <- deref register_used ;;
          let cr4 := Z.land cr4 cr4_fixed1 in
          let cr4 := Z.lor cr4 cr4_fixed0 in
          UtilVmWrite VmcsField.kGuestCr4 cr4 ;;
          UtilVmWrite VmcsField.kCr4ReadShadow cr4
      | 8 =>
          v <- deref register_used ;;
          on_guest (set_cr8 v)
      | _ => HYPERPLATFORM_COMMON_BUG_CHECK kUnspecified 0 0 0
      end
  | 1 => (* kMoveFromCr *)
      match bits 0 4 exit_qualification with
      | 3 =>
          v <- UtilVmRead VmcsField.kGuestCr3 ;;
          assign register_used v
      | 8 =>
          v <- read_guest cr8 ;;
          assign register_used v
      | _ => HYPERPLATFORM_COMMON_BUG_CHECK kUnspecified 0 0 0
      end
  | _ => (* kClts, kLmsw: unimplemented *)
      HYPERPLATFORM_COMMON_DBG_BREAK
  end ;;
  VmmpAdjustGuestInstructionPointer.

(** The six status flags cleared, as the VMX conventions ask for. *)
Definition clear_status_flags (flags : Z) : Z :=
  let flags := set_bit Flag.cf false flags in
  let flags := set_bit Flag.pf false flags in
  let flags := set_bit Flag.af false flags in
  let flags := set_bit Flag.zf false flags in
  let flags := set_bit Flag.sf false flags in
  let flags := set_bit Flag.of_ false flags in
  let flags := set_bit Flag.cf false flags in
  set_bit Flag.zf false flags.

(** VMX instructions except for VMCALL *)
Definition VmmpHandleVmx : M unit :=
  on_guest (fun g =>
    let flags := flag_reg g in
    let flags := set_bit Flag.cf true flags in
    let flags := set_bit Flag.pf false flags in
    let flags := set_bit Flag.af false flags in
    let flags := set_bit Flag.zf false flags in
    let flags := set_bit Flag.sf false flags in
    let flags := set_bit Flag.of_ false flags in
    set_flag_reg flags g) ;;
  flags <- read_guest flag_reg ;;
  UtilVmWrite VmcsField.kGuestRflags flags ;;
  VmmpAdjustGuestInstructionPointer.

(** Indicates successful VMCALL *)
Definition VmmpIndicateSuccessfulVmcall : M unit :=
  on_guest (fun g => set_flag_reg (clear_status_flags (flag_reg g)) g) ;;
  flags <- read_guest flag_reg ;;
  UtilVmWrite VmcsField.kGuestRflags flags ;;
  VmmpAdjustGuestInstructionPointer.

(** Indicates unsuccessful VMCALL *)
Definition VmmpIndicateUnsuccessfulVmcall : M unit :=
  VmmpInjectInterruption InterruptionType.kHardwareException
    InterruptionVector.kInvalidOpcodeException false 0 ;;
  exit_inst_length <- UtilVmRead VmcsField.kVmExitInstructionLen ;;
  UtilVmWrite VmcsField.kVmEntryInstructionLen exit_inst_length.

(** Handles an unloading request *)
Definition VmmpHandleVmCallTermination (context : Z) : M unit :=
  gdt_limit <- UtilVmRead VmcsField.kGuestGdtrLimit ;;
  gdt_base <- UtilVmRead VmcsField.kGuestGdtrBase ;;
  idt_limit <- UtilVmRead VmcsField.kGuestIdtrLimit ;;
  idt_base <- UtilVmRead VmcsField.kGuestIdtrBase ;;
  __lgdt (wrap16 gdt_limit) gdt_base ;;
  __lidt (wrap16 idt_limit) idt_base ;;
  data <- read_guest processor_data ;;
  store 8 context data ;;
  exit_instruction_length <- UtilVmRead VmcsField.kVmExitInstructionLen ;;
  guest_ip <- read_guest ip ;;
  let return_address := wrap64 (guest_ip + exit_instruction_length) in
  on_guest (fun g => set_flag_reg (clear_status_flags (flag_reg g)) g) ;;
  put_reg cx return_address ;;
  rsp <- get_reg sp ;;
  put_reg dx rsp ;;
  flags <- read_guest flag_reg ;;
  put_reg ax flags ;;
  on_guest (set_vm_continue false).

(** VMCALL: ecx is the hypercall number (always 32 bits), edx the context
    parameter. *)
Definition VmmpHandleVmCall : M unit :=
  rcx <- get_reg cx ;;
  context <- get_reg dx ;;
  let hypercall_number := wrap32 rcx in
  when (negb (UtilIsInBounds hypercall_number (kMinimumHypercallNumber env)
                (kMaximumHypercallNumber env)))
    VmmpIndicateUnsuccessfulVmcall ;;
  if hypercall_number =? kTerminateVmm env then
    cpl <- VmmpGetGuestCpl ;;
    if cpl =? 0 then VmmpHandleVmCallTermination context
    else VmmpIndicateUnsuccessfulVmcall
  else if hypercall_number =? kPingVmm env then
    VmmpIndicateSuccessfulVmcall
  else if hypercall_number =? kGetSharedProcessorData env then
    data <- read_guest processor_data ;;
    shared <- read_hw (fun m => shared_data (proc_data m data)) ;;
    store 8 context shared ;;
    VmmpIndicateSuccessfulVmcall
  else ret tt.

(** INVD *)
Definition VmmpHandleInvalidateInternalCaches : M unit :=
  AsmInvalidateInternalCaches ;;
  VmmpAdjustGuestInstructionPointer.

(** INVLPG *)
Definition VmmpHandleInvalidateTlbEntry : M unit :=
  invalidate_address <- UtilVmRead VmcsField.kExitQualification ;;
  processor <- KeGetCurrentProcessorNumberEx ;;
  UtilInvvpidIndividualAddress (wrap16 (processor + 1)) invalidate_address ;;
  VmmpAdjustGuestInstructionPointer.

(** EXIT_REASON_EPT_VIOLATION *)
Definition VmmpHandleEptViolation : M unit :=
  data <- read_guest processor_data ;;
  ept <- read_hw (fun m => ept_data (proc_data m data)) ;;
  EptHandleEptViolation ept.

(** Dumps guest state VMCS fields: log output only. *)
Definition VmmpDumpGuestState : M unit := emit EvDumpGuestState.

(** EXIT_REASON_EPT_MISCONFIG *)
Definition VmmpHandleEptMisconfig : M unit :=
  fault_address <- UtilVmRead VmcsField.kGuestPhysicalAddress ;;
  data <- read_guest processor_data ;;
  ept <- read_hw (fun m => ept_data (proc_data m data)) ;;
  ept_pt_entry <- EptGetEptPtEntry ept fault_address ;;
  HYPERPLATFORM_COMMON_BUG_CHECK kEptMisconfigVmExit fault_address
    ept_pt_entry 0.

(** Triple fault VM-exit. Fatal error.  The first parameter of the bug
    check is the address of the guest context, which has no counterpart
    here. *)
Definition VmmpHandleTripleFault : M unit :=
  VmmpDumpGuestState ;;
  guest_ip <- read_guest ip ;;
  HYPERPLATFORM_COMMON_BUG_CHECK kTripleFaultVmExit 0 guest_ip 0.

(** Unexpected VM-exit. Fatal error. *)
Definition VmmpHandleUnexpectedExit : M unit :=
  VmmpDumpGuestState ;;
  qualification <- UtilVmRead VmcsField.kExitQualification ;;
  guest_ip <- read_guest ip ;;
  HYPERPLATFORM_COMMON_BUG_CHECK kUnexpectedVmExit 0 guest_ip qualification.

(** MTF VM-exit *)
Definition VmmpHandleMonitorTrap : M unit :=
  VmmpDumpGuestState ;;
  guest_ip <- read_guest ip ;;
  HYPERPLATFORM_COMMON_BUG_CHECK kUnexpectedVmExit 0 guest_ip 0.

(** Interrupt.  [VmExitInterruptionInformationField] has the vector in bits
    0..7 and the interruption type in bits 8..10. *)
Definition VmmpHandleException : M unit :=
  info <- UtilVmRead VmcsField.kVmExitIntrInfo ;;
  let exception := wrap32 info in
  let interruption_type := bits 8 3 exception in
  let vector := bits 0 8 exception in
  if interruption_type =? InterruptionType.kHardwareException then
    if vector =? InterruptionVector.kPageFaultException then
      fault_code <- UtilVmRead VmcsField.kVmExitIntrErrorCode ;;
      fault_address <- UtilVmRead VmcsField.kExitQualification ;;
      VmmpInjectInterruption interruption_type vector true (wrap32 fault_code) ;;
      AsmWriteCR2 fault_address
    else if vector =? InterruptionVector.kGeneralProtectionException then
      error_code <- UtilVmRead VmcsField.kVmExitIntrErrorCode ;;
      VmmpInjectInterruption interruption_type vector true (wrap32 error_code)
    else HYPERPLATFORM_COMMON_BUG_CHECK kUnspecified 0 0 0
  else if interruption_type =? InterruptionType.kSoftwareException then
    if vector =? InterruptionVector.kBreakpointException then
      VmmpInjectInterruption interruption_type vector false 0 ;;
      exit_inst_length <- UtilVmRead VmcsField.kVmExitInstructionLen ;;
      UtilVmWrite VmcsField.kVmEntryInstructionLen exit_inst_length
    else HYPERPLATFORM_COMMON_BUG_CHECK kUnspecified 0 0 0
  else HYPERPLATFORM_COMMON_BUG_CHECK kUnspecified 0 0 0.

(** Dispatches VM-exit to a corresponding handler.  The reason is the low 16
    bits of the exit-reason field.  [kVmmpEnableRecordVmExit] is [false], so
    the history is never written. *)
Definition VmmpHandleVmExit : M unit :=
  r <- UtilVmRead VmcsField.kVmExitReason ;;
  let reason := bits 0 16 (wrap32 r) in
  if reason =? VmxExitReason.kExceptionOrNmi then VmmpHandleException
  else if reason =? VmxExitReason.kTripleFault then VmmpHandleTripleFault
  else if reason =? VmxExitReason.kCpuid then VmmpHandleCpuid
  else if reason =? VmxExitReason.kInvd then VmmpHandleInvalidateInternalCaches
  else if reason =? VmxExitReason.kInvlpg then VmmpHandleInvalidateTlbEntry
  else if reason =? VmxExitReason.kRdtsc then VmmpHandleRdtsc
  else if reason =? VmxExitReason.kCrAccess then VmmpHandleCrAccess
  else if reason =? VmxExitReason.kDrAccess then VmmpHandleDrAccess
  else if reason =? VmxExitReason.kIoInstruction then VmmpHandleIoPort
  else if reason =? VmxExitReason.kMsrRead then VmmpHandleMsrReadAccess
  else if reason =? VmxExitReason.kMsrWrite then VmmpHandleMsrWriteAccess
  else if reason =? VmxExitReason.kMonitorTrapFlag then VmmpHandleMonitorTrap
  else if reason =? VmxExitReason.kGdtrOrIdtrAccess then VmmpHandleGdtrOrIdtrAccess
  else if reason =? VmxExitReason.kLdtrOrTrAccess then VmmpHandleLdtrOrTrAccess
  else if reason =? VmxExitReason.kEptViolation then VmmpHandleEptViolation
  else if reason =? VmxExitReason.kEptMisconfig then VmmpHandleEptMisconfig
  else if reason =? VmxExitReason.kVmcall then VmmpHandleVmCall
  else if (reason =? VmxExitReason.kVmclear)
          || (reason =? VmxExitReason.kVmlaunch)
          || (reason =? VmxExitReason.kVmptrld)
          || (reason =? VmxExitReason.kVmptrst)
          || (reason =? VmxExitReason.kVmread)
          || (reason =? VmxExitReason.kVmresume)
          || (reason =? VmxExitReason.kVmwrite)
          || (reason =? VmxExitReason.kVmoff)
          || (reason =? VmxExitReason.kVmon)
          || (reason =? VmxExitReason.kInvept)
          || (reason =? VmxExitReason.kInvvpid) then VmmpHandleVmx
  else if reason =? VmxExitReason.kRdtscp then VmmpHandleRdtscp
  else if reason =? VmxExitReason.kXsetbv then VmmpHandleXsetbv
  else VmmpHandleUnexpectedExit.

(** A high level VMX handler called from AsmVmExitHandler().  Returns true
    for vmresume, false for vmxoff.  The state it starts from carries the
    [VmmInitialStack] in its [guest] component; the remaining fields of the
    guest context are filled here. *)
Definition VmmVmExitHandler : M bool :=
  guest_irql <- KeGetCurrentIrql ;;
  guest_cr8 <- __readcr8 ;;
  when (guest_irql <? DISPATCH_LEVEL) KeRaiseIrqlToDpcLevel ;;
  rflags <- UtilVmRead VmcsField.kGuestRflags ;;
  rip <- UtilVmRead VmcsField.kGuestRip ;;
  on_guest (fun g =>
    {| gp_regs := gp_regs g; trap_frame_sp := trap_frame_sp g;
       trap_frame_ip := trap_frame_ip g; processor_data := processor_data g;
       flag_reg := rflags; ip := rip; cr8 := guest_cr8; irql := guest_irql;
       vm_continue := true |}) ;;
  rsp <- UtilVmRead VmcsField.kGuestRsp ;;
  put_reg sp rsp ;;
  on_guest (fun g => set_trap_frame (gp_regs g sp) (ip g) g) ;;
  VmmpHandleVmExit ;;
  continue <- read_guest vm_continue ;;
  when (negb continue) (UtilInveptGlobal ;; UtilInvvpidAllContext) ;;
  saved_irql <- read_guest irql ;;
  when (saved_irql <? DISPATCH_LEVEL) (KeLowerIrql saved_irql) ;;
  saved_cr8 <- read_guest cr8 ;;
  __writecr8 saved_cr8 ;;
  read_guest vm_continue.

End Handlers.

Arguments wrap64 : simpl never.
Arguments wrap32 : simpl never.
Arguments wrap16 : simpl never.
Arguments wrap8 : simpl never.
Arguments bits : simpl never.
Arguments set_bits : simpl never.
Arguments set_bit : simpl never.
Arguments bit : simpl never.
Arguments upd : simpl never.
Arguments interruption_info : simpl never.

(** ** Vocabulary of the properties *)

(** [keeps I a]: whichever way [a] ends, it leaves a state in which [I]
    still holds. *)
Definition keeps {A} (I : VmmState -> Prop) (a : M A) : Prop :=
  forall s, I s -> I (final (a s)).

(** [wp a Q s]: run from [s], [a] returns, and its result and final state
    satisfy [Q]. *)
Definition wp {A} (a : M A) (Q : A -> VmmState -> Prop) (s : VmmState) : Prop :=
  match a s with
  | Returned x s' => Q x s'
  | _ => False
  end.

(** [wlp a Q s]: if [a] returns from [s], its result and final state
    satisfy [Q]. *)
Definition wlp {A} (a : M A) (Q : A -> VmmState -> Prop) (s : VmmState)
    : Prop :=
  match a s with
  | Returned x s' => Q x s'
  | _ => True
  end.

(** [sat a s R F]: the outcome of [a] from [s] satisfies [R] when [a]
    returns and its final state satisfies [F] when it does not. *)
Definition sat {A} (a : M A) (s : VmmState) (R : A -> VmmState -> Prop)
    (F : VmmState -> Prop) : Prop :=
  match a s with
  | Returned x s' => R x s'
  | BugCheck _ _ _ _ s' => F s'
  | HostFault s' => F s'
  end.

(** [total a V]: [a] returns from every state, with a result in [V]. *)
Definition total {A} (a : M A) (V : A -> Prop) : Prop :=
  forall s, wp a (fun x _ => V x) s.

(** The events [a] added to the log, newest first. *)
Definition logged (new : list Event) (s s' : VmmState) : Prop :=
  log (hw s') = new ++ log (hw s).

(** *** Control registers *)


(** [~(1ULL << 63)] as a 64-bit value. *)
Definition not_bit63 : Z := wrap64 (Z.lnot (Z.shiftl 1 63)).



(** *** Injection, advance and the accesses of a handler *)

(** The log entries of [VmmpInjectInterruption], newest first. *)
Definition injected (interruption_type vector : Z) (deliver_error_code : bool)
    (error_code : Z) : list Event :=
  (if deliver_error_code
   then [EvVmWrite VmcsField.kVmEntryExceptionErrorCode error_code]
   else []) ++
  [EvVmWrite VmcsField.kVmEntryIntrInfoField
     (interruption_info interruption_type vector deliver_error_code)].

(** The log entries of [VmmpAdjustGuestInstructionPointer], newest first. *)
Definition advance_events (guest_ip exit_inst_length : Z) (tf : bool)
    : list Event :=
  (if tf
   then EvVmWrite VmcsField.kVmEntryInstructionLen exit_inst_length ::
        injected InterruptionType.kHardwareException
          InterruptionVector.kDebugException false 0
   else []) ++
  [EvVmWrite VmcsField.kGuestRip (wrap64 (guest_ip + exit_inst_length));
   EvVmRead VmcsField.kVmExitInstructionLen].

(** The instruction pointer after the exiting instruction. *)
Definition next_ip (s : VmmState) : Z :=
  wrap64 (ip (guest s) + vmcs (hw s) VmcsField.kVmExitInstructionLen).

Definition trap_flag (s : VmmState) : bool :=
  bit Flag.tf (flag_reg (guest s)).

Definition is_msr_access (e : Event) : bool :=
  match e with
  | EvReadMsr _ | EvWriteMsr _ _ => true
  | _ => false
  end.

(** The control-structure field an event touches. *)
Definition vmcs_field_of (e : Event) : option Z :=
  match e with
  | EvVmRead f | EvVmWrite f _ => Some f
  | _ => None
  end.

Definition is_mem_write (e : Event) : bool :=
  match e with
  | EvMemWrite _ _ _ _ => true
  | _ => false
  end.

(** The MSR index is in neither permitted range and is not the tolerated
    diagnostic MSR. *)
Definition msr_disallowed (index : Z) : Prop :=
  ~ (index <= 0x1FFF) /\
  ~ (0xC0000000 <= index <= 0xC0001FFF) /\
  index <> 0x400000F0.

(** *** Instruction-pointer accounting *)

(** The values written to the guest instruction pointer, newest first. *)
Definition rip_writes (l : list Event) : list Z :=
  flat_map (fun e => match e with
                     | EvVmWrite f v =>
                         if f =? VmcsField.kGuestRip then [v] else []
                     | _ => []
                     end) l.

(** What instruction-pointer accounting looks at: the instruction pointer
    and instruction length of the exit, the guest instruction pointer in
    the control structure, and the writes to it so far. *)
Record RipView := {
  view_ip : Z;
  view_len : Z;
  view_rip : Z;
  view_writes : list Z
}.

Definition rip_view (s : VmmState) : RipView :=
  {| view_ip := ip (guest s);
     view_len := vmcs (hw s) VmcsField.kVmExitInstructionLen;
     view_rip := vmcs (hw s) VmcsField.kGuestRip;
     view_writes := rip_writes (log (hw s)) |}.

(** One more write, of exit instruction pointer plus instruction length. *)
Definition advanced (v : RipView) : RipView :=
  {| view_ip := view_ip v;
     view_len := view_len v;
     view_rip := wrap64 (view_ip v + view_len v);
     view_writes := wrap64 (view_ip v + view_len v) :: view_writes v |}.

Definition rip_neutral {A} (a : M A) : Prop :=
  forall v, keeps (fun s => rip_view s = v) a.

Definition advances_at_most_once {A} (a : M A) : Prop :=
  forall s, rip_view (final (a s)) = rip_view s \/
            rip_view (final (a s)) = advanced (rip_view s).

(** *** CPUID and I/O *)

(** The twelve characters that EBX, EDX and ECX of CPUID leaf 0 spell. *)
Definition le_bytes4 (x : Z) : list Z :=
  [bits 0 8 x; bits 8 8 x; bits 16 8 x; bits 24 8 x].

Definition vendor_identifier (regs : GpRegisters) : string :=
  string_of_list_ascii
    (map (fun b => ascii_of_N (Z.to_N b))
       (le_bytes4 (regs bx) ++ le_bytes4 (regs dx) ++ le_bytes4 (regs cx))).

(** The size of access an I/O exit qualification encodes, if any. *)
Definition decoded_size_of_access (exit_qualification : Z) : option Z :=
  match bits 0 3 exit_qualification with
  | 0 => Some 1
  | 1 => Some 2
  | 3 => Some 4
  | _ => None
  end.

(** *** Hypercalls *)

(** The three recognized hypercall numbers lie in the declared range. *)
Definition HypercallNumber_well_formed (env : Env) : Prop :=
  UtilIsInBounds (kTerminateVmm env) (kMinimumHypercallNumber env)
    (kMaximumHypercallNumber env) = true /\
  UtilIsInBounds (kPingVmm env) (kMinimumHypercallNumber env)
    (kMaximumHypercallNumber env) = true /\
  UtilIsInBounds (kGetSharedProcessorData env) (kMinimumHypercallNumber env)
    (kMaximumHypercallNumber env) = true.

Definition hypercall_number_of (s : VmmState) : Z :=
  wrap32 (gp_regs (guest s) cx).

Definition hypercall_out_of_range (env : Env) (s : VmmState) : Prop :=
  UtilIsInBounds (hypercall_number_of s) (kMinimumHypercallNumber env)
    (kMaximumHypercallNumber env) = false.

Definition guest_cpl (s : VmmState) : Z :=
  bits 5 2 (wrap32 (vmcs (hw s) VmcsField.kGuestSsArBytes)).

(** A hypercall the handler answers with "unsuccessful". *)
Definition unsuccessful_vmcall (env : Env) (s : VmmState) : Prop :=
  hypercall_out_of_range env s \/
  (hypercall_number_of s = kTerminateVmm env /\ guest_cpl s <> 0).

(** What [VmmpIndicateUnsuccessfulVmcall] does. *)
Definition unsuccessful_events (s : VmmState) : list Event :=
  [EvVmWrite VmcsField.kVmEntryInstructionLen
     (vmcs (hw s) VmcsField.kVmExitInstructionLen);
   EvVmRead VmcsField.kVmExitInstructionLen] ++
  injected InterruptionType.kHardwareException
    InterruptionVector.kInvalidOpcodeException false 0.

(** *** The frame of the dispatcher *)

Definition exit_reason_of (s : VmmState) : Z :=
  bits 0 16 (wrap32 (vmcs (hw s) VmcsField.kVmExitReason)).




(** *** The guest-memory window *)

(** The address-space root [VmmpGetKernelCr3] selects in state [s]: the
    guest CR3 field or, with its lowest bit set, the eight bytes that the
    loaded root maps at [DirectoryTableBase] of the current process. *)
Definition kernel_cr3 (s : VmmState) : Z :=
  let guest_cr3 := vmcs (hw s) VmcsField.kGuestCr3 in
  if Z.land guest_cr3 1 =? 0 then guest_cr3
  else load_bytes (mem (hw s) (hw_cr3 (hw s)))
         (current_process (hw s) + kDirectoryTableBaseOffset) 8.

(** The dereference [VmmpGetKernelCr3] makes on the way, as it is logged:
    none with the lowest bit of the guest CR3 field clear, else the read of
    [DirectoryTableBase] through the root loaded in [s]. *)
Definition directory_table_lookup (s : VmmState) : list Event :=
  if Z.land (vmcs (hw s) VmcsField.kGuestCr3) 1 =? 0 then []
  else [EvMemRead (hw_cr3 (hw s))
          (current_process (hw s) + kDirectoryTableBaseOffset) 8].

(** The root a logged memory access went through. *)
Definition access_root (e : Event) : option Z :=
  match e with
  | EvMemRead root _ _ | EvMemWrite root _ _ _ => Some root
  | _ => None
  end.

(** The logged memory accesses that went through a root other than
    [guest_root]. *)
Definition foreign_accesses (guest_root : Z) (l : list Event) : list Event :=
  filter (fun e => match access_root e with
                   | Some root => negb (root =? guest_root)
                   | None => false
                   end) l.




(** Before the window opens and before its root is looked up: the host's
    root is active. *)
Definition before_window (host_root guest_root : Z)
    (lookup foreign : list Event) (s : VmmState) : Prop :=
  hw_cr3 (hw s) = host_root /\
  kernel_cr3 s = guest_root /\
  directory_table_lookup s = lookup /\
  foreign_accesses guest_root (log (hw s)) = foreign.



(** A pointer the handlers can dereference. *)
Definition valid_pointer (p : Pointer) : Prop :=
  match p with
  | PtrRegister r => exists r', r = Some r'
  | PtrMemory _ => True
  end.

(** ** A concrete processor for the examples *)

Fixpoint assoc (k : Z) (l : list (Z * Z)) : Z :=
  match l with
  | [] => 0
  | (k', v) :: t => if k =? k' then v else assoc k t
  end.

Fixpoint assoc_reg (r : Reg) (l : list (Reg * Z)) : Z :=
  match l with
  | [] => 0
  | (r', v) :: t => if Reg_eqb r r' then v else assoc_reg r t
  end.

Definition example_env : Env :=
  {| cpuidex := fun _ _ => (0x16, 0x68747541, 0xFFFAF38B, 0x69746E65);
     rdtsc := 0x123456789;
     rdtscp := (0x123456789, 1);
     port_in := fun _ _ n => Z.of_nat n + 0x41;
     UtilIsX86Pae := false;
     kMinimumHypercallNumber := 0;
     kMaximumHypercallNumber := 2;
     kTerminateVmm := 0;
     kPingVmm := 1;
     kGetSharedProcessorData := 2 |}.

(** The host's root is 0x1aa000.  The current process is at
    0xffffe00000100000 and its [DirectoryTableBase], the eight bytes from
    offset 0x28, holds 0x1ab000; all other memory is zero. *)
Definition example_machine (fields msr_values : list (Z * Z)) : Machine :=
  {| vmcs := fun f => assoc f fields;
     msrs := fun i => assoc i msr_values;
     hw_cr2 := 0;
     hw_cr3 := 0x1aa000;
     hw_cr8 := 0;
     hw_dr := fun _ => 0;
     mem := fun root a =>
              if (root =? 0x1aa000) && (a =? 0xffffe00000100029) then 0xb0
              else if (root =? 0x1aa000) && (a =? 0xffffe0000010002a)
                   then 0x1a else 0;
     current_process := 0xffffe00000100000;
     processor_number := 0;
     proc_data := fun _ => {| shared_data := 0x7000; ept_data := 0x8000 |};
     port_reads := 0;
     log := [] |}.

Definition example_guest (regs : list (Reg * Z)) (flags rip : Z)
    : GuestContext :=
  {| gp_regs := fun r => assoc_reg r regs;
     trap_frame_sp := 0;
     trap_frame_ip := 0;
     processor_data := 0x6000;
     flag_reg := flags;
     ip := rip;
     cr8 := 0;
     irql := 0;
     vm_continue := true |}.

Definition example_state (regs : list (Reg * Z)) (flags rip : Z)
    (fields msr_values : list (Z * Z)) : VmmState :=
  {| guest := example_guest regs flags rip;
     hw := example_machine fields msr_values |}.

(** ** States of the examples *)




(** RDMSR of index 0x2000, just above the first permitted range. *)
Definition c2_state : VmmState :=
  example_state [(cx, 0x2000)] 0x2 0xfffff80000001000
    [(VmcsField.kVmExitInstructionLen, 2)] [].

(** The same RDMSR while the guest single-steps: RFLAGS.TF (bit 8) is
    set. *)
Definition c2_trap_state : VmmState :=
  example_state [(cx, 0x2000)] 0x102 0xfffff80000001000
    [(VmcsField.kVmExitInstructionLen, 2)] [].

(** CPUID with EAX = 1 and with EAX = 0. *)
Definition c3_state_leaf1 : VmmState :=
  example_state [(ax, 1)] 0x2 0xfffff80000001000
    [(VmcsField.kVmExitInstructionLen, 2)] [].

Definition c3_state_leaf0 : VmmState :=
  example_state [(ax, 0)] 0x2 0xfffff80000001000
    [(VmcsField.kVmExitInstructionLen, 2)] [].


Definition c10_state_ring3 : VmmState :=
  example_state [(cx, 0); (dx, 0x5000)] 0x2 0x401000
    [(VmcsField.kVmExitInstructionLen, 3);
     (VmcsField.kGuestSsArBytes, 0xf3)] [].

(** REP OUTSW to port 0x3f8 with CX = 4, SI = 0x9000 and the direction flag
    set: the exit qualification has the size field 1, the string and the REP
    flags, and the port in bits 16..31. *)
Definition c6_state : VmmState :=
  example_state [(cx, 4); (si, 0x9000); (di, 0x7777)] 0x402
    0xfffff80000001000
    [(VmcsField.kExitQualification, 0x3f80031);
     (VmcsField.kVmExitInstructionLen, 2);
     (VmcsField.kGuestCr3, 0x1ac000)] [].







(** ** States of the further examples *)

(** An exit with nothing but an instruction length: for the helpers that do
    not look at the exit. *)
Definition plain_state : VmmState :=
  example_state [(ax, 0x1122334455667788); (cx, 0x10); (dx, 0x99aabbccddeeff00)]
    0x2 0xfffff80000001000
    [(VmcsField.kVmExitInstructionLen, 2)] [].

(** *** Exceptions *)

(** The interruption type and the vector of an exception exit. *)
Definition exit_interruption_type (s : VmmState) : Z :=
  bits 8 3 (wrap32 (vmcs (hw s) VmcsField.kVmExitIntrInfo)).

Definition exit_vector (s : VmmState) : Z :=
  bits 0 8 (wrap32 (vmcs (hw s) VmcsField.kVmExitIntrInfo)).

(** The exceptions the handler passes on to the guest: #PF and #GP as
    hardware exceptions, #BP as a software exception. *)
Definition reflected_exception (s : VmmState) : bool :=
  ((exit_interruption_type s =? InterruptionType.kHardwareException) &&
   ((exit_vector s =? InterruptionVector.kPageFaultException) ||
    (exit_vector s =? InterruptionVector.kGeneralProtectionException))) ||
  ((exit_interruption_type s =? InterruptionType.kSoftwareException) &&
   (exit_vector s =? InterruptionVector.kBreakpointException)).

(** CPUID with EAX = 7 and ECX = 0: a leaf that is passed through. *)
Definition cpuid_leaf7_state : VmmState :=
  example_state [(ax, 7); (cx, 0); (si, 0x55)] 0x2 0xfffff80000001000
    [(VmcsField.kVmExitInstructionLen, 2)] [].

(** *** Flags and hypercalls that succeed *)

(** The six status flags the VMX conventions speak about. *)
Definition status_flags : list Z :=
  [Flag.cf; Flag.pf; Flag.af; Flag.zf; Flag.sf; Flag.of_].

(** The three recognized hypercall numbers are different numbers (they
    label the cases of one [switch]). *)
Definition HypercallNumber_distinct (env : Env) : Prop :=
  kTerminateVmm env <> kPingVmm env /\
  kTerminateVmm env <> kGetSharedProcessorData env /\
  kPingVmm env <> kGetSharedProcessorData env.

(** VMCALL 1 of [example_env], the ping, with all status flags set. *)
Definition ping_state : VmmState :=
  example_state [(cx, 1); (dx, 0x1000); (bx, 0x77)] 0xcd7 0xfffff80000001000
    [(VmcsField.kVmExitReason, 18);
     (VmcsField.kGuestRip, 0xfffff80000001000);
     (VmcsField.kGuestRflags, 0xcd7);
     (VmcsField.kVmExitInstructionLen, 3)] [].

(** VMCALL 0 of [example_env], the termination request, from ring 0 with
    the context pointer 0x5000. *)
Definition terminate_state : VmmState :=
  example_state [(cx, 0); (dx, 0x5000); (sp, 0xffffd000)] 0x246
    0xfffff80000001000
    [(VmcsField.kVmExitReason, 18);
     (VmcsField.kGuestRip, 0xfffff80000001000);
     (VmcsField.kGuestRsp, 0xffffd000);
     (VmcsField.kGuestRflags, 0x246);
     (VmcsField.kGuestGdtrBase, 0x3000);
     (VmcsField.kGuestGdtrLimit, 0x7f);
     (VmcsField.kGuestIdtrBase, 0x4000);
     (VmcsField.kGuestIdtrLimit, 0xfff);
     (VmcsField.kVmExitInstructionLen, 3)] [].

(** The exit is a termination request the handler honours: VMCALL with the
    number [kTerminateVmm] from privilege level 0. *)
Definition is_termination_request (env : Env) (s : VmmState) : Prop :=
  exit_reason_of s = VmxExitReason.kVmcall /\
  hypercall_number_of s = kTerminateVmm env /\
  guest_cpl s = 0.

(** VMCALL 2 of [example_env], the query for the shared processor data,
    seen from the handler. *)
Definition shared_data_state : VmmState :=
  example_state [(cx, 2); (dx, 0x5000)] 0x2 0xfffff80000001000
    [(VmcsField.kVmExitReason, 18);
     (VmcsField.kGuestCr3, 0x1ac000);
     (VmcsField.kVmExitInstructionLen, 3)] [].

(** *** Fatal exits *)

(** [stops a P s]: run from [s], [a] ends in a bug check whose code,
    parameters and final state satisfy [P]. *)
Definition stops {A} (a : M A)
    (P : HyperPlatformBugCheck -> Z -> Z -> Z -> VmmState -> Prop)
    (s : VmmState) : Prop :=
  match a s with
  | BugCheck code p1 p2 p3 s' => P code p1 p2 p3 s'
  | _ => False
  end.

(** The exit reasons the dispatcher has a case for. *)
Definition handled_exit_reasons : list Z :=
  [VmxExitReason.kExceptionOrNmi; VmxExitReason.kTripleFault;
   VmxExitReason.kCpuid; VmxExitReason.kInvd; VmxExitReason.kInvlpg;
   VmxExitReason.kRdtsc; VmxExitReason.kCrAccess; VmxExitReason.kDrAccess;
   VmxExitReason.kIoInstruction; VmxExitReason.kMsrRead;
   VmxExitReason.kMsrWrite; VmxExitReason.kMonitorTrapFlag;
   VmxExitReason.kGdtrOrIdtrAccess; VmxExitReason.kLdtrOrTrAccess;
   VmxExitReason.kEptViolation; VmxExitReason.kEptMisconfig;
   VmxExitReason.kVmcall; VmxExitReason.kVmclear; VmxExitReason.kVmlaunch;
   VmxExitReason.kVmptrld; VmxExitReason.kVmptrst; VmxExitReason.kVmread;
   VmxExitReason.kVmresume; VmxExitReason.kVmwrite; VmxExitReason.kVmoff;
   VmxExitReason.kVmon; VmxExitReason.kInvept; VmxExitReason.kInvvpid;
   VmxExitReason.kRdtscp; VmxExitReason.kXsetbv].

(** The interrupt level the handlers run at. *)
Definition raised_irql (s : VmmState) : Z :=
  if hw_irql (hw s) <? DISPATCH_LEVEL then DISPATCH_LEVEL else hw_irql (hw s).

(** An exit with reason 1 (external interrupt), which the dispatcher has no
    case for, and a triple fault. *)
Definition unexpected_exit_state : VmmState :=
  example_state [] 0x2 0
    [(VmcsField.kVmExitReason, 1);
     (VmcsField.kExitQualification, 0x33);
     (VmcsField.kGuestRip, 0xfffff80000001000)] [].

Definition triple_fault_state : VmmState :=
  example_state [] 0x2 0
    [(VmcsField.kVmExitReason, 2);
     (VmcsField.kGuestRip, 0xfffff80000001000)] [].

(** *** Host faults *)

(** [never_faults a V]: from no state does [a] dereference a null register
    pointer; when it returns, its result is in [V]. *)
Definition never_faults {A} (a : M A) (V : A -> Prop) : Prop :=
  forall s,
    match a s with
    | Returned x _ => V x
    | BugCheck _ _ _ _ _ => True
    | HostFault _ => False
    end.

(** *** Side effects *)

Definition is_port_access (e : Event) : bool :=
  match e with
  | EvPortIn _ _ _ | EvPortOut _ _ _ => true
  | _ => false
  end.

(** The port accesses in a log, newest first. *)
Definition port_accesses (l : list Event) : list Event :=
  filter is_port_access l.

(** The control-register fields of the guest: CR0, CR3, CR4 and the two
    read shadows. *)
Definition control_register_fields (m : Machine) : list Z :=
  map (vmcs m)
    [VmcsField.kGuestCr0; VmcsField.kGuestCr3; VmcsField.kGuestCr4;
     VmcsField.kCr0ReadShadow; VmcsField.kCr4ReadShadow].

(** The descriptor-table and task-register fields of the guest. *)
Definition descriptor_table_fields (m : Machine) : list Z :=
  map (vmcs m)
    [VmcsField.kGuestGdtrBase; VmcsField.kGuestGdtrLimit;
     VmcsField.kGuestIdtrBase; VmcsField.kGuestIdtrLimit;
     VmcsField.kGuestLdtrSelector; VmcsField.kGuestTrSelector].

(** A RDMSR exit for the MSR 0x10 while hardware MSR 0x10 holds a value. *)
Definition rdmsr_state : VmmState :=
  example_state [(cx, 0x10); (ax, 0xffffffffffffffff)] 0x2 0xfffff80000001000
    [(VmcsField.kVmExitReason, 31);
     (VmcsField.kVmExitInstructionLen, 2)]
    [(0x10, 0x8877665544332211)].

(** *** MSRs that are served *)

(** The MSR index is in one of the two permitted ranges or is the tolerated
    diagnostic MSR. *)
Definition msr_allowed (index : Z) : Prop :=
  index <= 0x1FFF \/ 0xC0000000 <= index <= 0xC0001FFF \/ index = 0x400000F0.

(** The control-structure field that stands in for an MSR, if any. *)
Definition msr_vmcs_field (msr : Z) : option Z :=
  if msr =? Msr.kIa32SysenterCs then Some VmcsField.kGuestSysenterCs
  else if msr =? Msr.kIa32SysenterEsp then Some VmcsField.kGuestSysenterEsp
  else if msr =? Msr.kIa32SysenterEip then Some VmcsField.kGuestSysenterEip
  else if msr =? Msr.kIa32Debugctl then Some VmcsField.kGuestIa32Debugctl
  else if msr =? Msr.kIa32GsBase then Some VmcsField.kGuestGsBase
  else if msr =? Msr.kIa32FsBase then Some VmcsField.kGuestFsBase
  else None.

(** The value of an MSR as the handler serves it. *)
Definition msr_value_of (msr : Z) (m : Machine) : Z :=
  match msr_vmcs_field msr with
  | Some field => vmcs m field
  | None => msrs m msr
  end.

(** EDX:EAX of the guest: the low halves of RDX and RAX. *)
Definition edx_eax (s : VmmState) : Z :=
  Z.lor (wrap32 (gp_regs (guest s) ax))
    (Z.shiftl (wrap32 (gp_regs (guest s) dx)) 32).

(** The fields [VmmpAdjustGuestInstructionPointer] may write. *)
Definition advance_fields : list Z :=
  [VmcsField.kGuestRip; VmcsField.kVmEntryIntrInfoField;
   VmcsField.kVmEntryInstructionLen].

(** WRMSR of 0x11223344:0xaabbccdd to IA32_GS_BASE (0xc0000101), with
    garbage in the upper halves of RAX and RDX. *)
Definition wrmsr_state : VmmState :=
  example_state [(cx, 0xc0000101); (ax, 0x55555555aabbccdd);
                 (dx, 0x6666666611223344)] 0x2 0xfffff80000001000
    [(VmcsField.kVmExitReason, 32);
     (VmcsField.kVmExitInstructionLen, 2)] [].

(** *** Debug registers *)

(** The debug register an exit qualification names, and whether the access
    writes it. *)
Definition dr_number (s : VmmState) : Z :=
  bits 0 3 (vmcs (hw s) VmcsField.kExitQualification).


(** DR4 and DR5 are not defined while CR4.DE is set. *)
Definition dr_undefined (s : VmmState) : bool :=
  ((dr_number s =? 4) || (dr_number s =? 5)) &&
  bit 3 (vmcs (hw s) VmcsField.kGuestCr4).

(** DR7.GD, the general-detect flag. *)
Definition dr_general_detect (s : VmmState) : bool :=
  bit 13 (vmcs (hw s) VmcsField.kGuestDr7).



Definition is_dr_access (e : Event) : bool :=
  match e with
  | EvReadDr _ | EvWriteDr _ _ => true
  | _ => false
  end.

(** MOV DR6, RAX from ring 3. *)
Definition dr_ring3_state : VmmState :=
  example_state [(ax, 0x1)] 0x2 0x401000
    [(VmcsField.kExitQualification, 6);
     (VmcsField.kGuestSsArBytes, 0xf3);
     (VmcsField.kVmExitInstructionLen, 3)] [].

(** MOV RBX, DR1 from ring 0 while DR7.GD is set and DR6 holds 0xf. *)
Definition dr_detect_state : VmmState :=
  {| guest := example_guest [(bx, 0x1)] 0x2 0xfffff80000001000;
     hw := set_hw_dr (fun n => if n =? 6 then 0xffff0fff else 0)
             (example_machine
                [(VmcsField.kExitQualification, 0x311);
                 (VmcsField.kGuestDr7, 0x2400);
                 (VmcsField.kVmExitInstructionLen, 3)] []) |}.






(** *** Port I/O *)

(** The port of an I/O exit. *)
Definition io_port (s : VmmState) : Z :=
  wrap16 (bits 16 16 (vmcs (hw s) VmcsField.kExitQualification)).

(** IN EAX, DX from port 0x3f8 while RAX holds a 64-bit value: size field 3
    (four bytes) and the direction bit. *)
Definition in_state : VmmState :=
  example_state [(ax, 0x1122334455667788); (bx, 0x99)] 0x2 0xfffff80000001000
    [(VmcsField.kVmExitReason, 30);
     (VmcsField.kExitQualification, 0x3f8000b);
     (VmcsField.kGuestCr3, 0x1ac000);
     (VmcsField.kVmExitInstructionLen, 1)] [].

(** OUT DX, AX to port 0x3f8: size field 1 (two bytes). *)
Definition out_state : VmmState :=
  example_state [(ax, 0x1122334455667788)] 0x2 0xfffff80000001000
    [(VmcsField.kVmExitReason, 30);
     (VmcsField.kExitQualification, 0x3f80001);
     (VmcsField.kGuestCr3, 0x1ac000);
     (VmcsField.kVmExitInstructionLen, 1)] [].

(** An I/O exit whose size field is 2, which encodes no size. *)
Definition io_bad_size_state : VmmState :=
  example_state [(ax, 0x1)] 0x2 0xfffff80000001000
    [(VmcsField.kVmExitReason, 30);
     (VmcsField.kExitQualification, 0x3f8000a);
     (VmcsField.kGuestCr3, 0x1ac000);
     (VmcsField.kVmExitInstructionLen, 1)] [].

(** The values a port delivers to [count] reads of [size] bytes, the first
    read first; [n] reads have happened before. *)
Fixpoint port_values (env : Env) (size port : Z) (n count : nat) : list Z :=
  match count with
  | O => []
  | S k =>
      bits 0 (8 * size) (port_in env port size n)
      :: port_values env size port (S n) k
  end.

(** [count] consecutive elements of [size] bytes in memory, the lowest
    address first. *)
Fixpoint memory_values (f : Z -> Z) (size address : Z) (count : nat)
    : list Z :=
  match count with
  | O => []
  | S k =>
      load_bytes f address (Z.to_nat size)
      :: memory_values f size (address + size) k
  end.

(** The number of elements a string I/O exit transfers: the low 32 bits of
    RCX with a REP prefix, one without. *)
Definition io_count (s : VmmState) : nat :=
  Z.to_nat
    (wrap32
       (if bits 5 1 (vmcs (hw s) VmcsField.kExitQualification) =? 1
        then gp_regs (guest s) cx else 1)).

(** REP INSB from port 0x60 to 0x9000 with RCX = 3, and the same with
    RCX = 0. *)
Definition rep_ins_state : VmmState :=
  example_state [(cx, 3); (di, 0x9000)] 0x2 0xfffff80000001000
    [(VmcsField.kVmExitReason, 30);
     (VmcsField.kExitQualification, 0x600038);
     (VmcsField.kGuestCr3, 0x1ac000);
     (VmcsField.kVmExitInstructionLen, 2)] [].

Definition rep_ins_zero_state : VmmState :=
  example_state [(cx, 0); (di, 0x9000)] 0x2 0xfffff80000001000
    [(VmcsField.kVmExitReason, 30);
     (VmcsField.kExitQualification, 0x600038);
     (VmcsField.kGuestCr3, 0x1ac000);
     (VmcsField.kVmExitInstructionLen, 2)] [].

(** *** Control-register exits *)

(** The access type and the control register of a control-register exit. *)
Definition cr_access_type (s : VmmState) : Z :=
  bits 4 2 (vmcs (hw s) VmcsField.kExitQualification).

Definition cr_number (s : VmmState) : Z :=
  bits 0 4 (vmcs (hw s) VmcsField.kExitQualification).






(** CLTS, and MOV CR2, RAX. *)
Definition clts_state : VmmState :=
  example_state [(ax, 0x1)] 0x2 0xfffff80000001000
    [(VmcsField.kVmExitReason, 28);
     (VmcsField.kExitQualification, 0x20);
     (VmcsField.kGuestCr0, 0x8005003b);
     (VmcsField.kVmExitInstructionLen, 2)] [].

Definition mov_to_cr2_state : VmmState :=
  example_state [(ax, 0x1)] 0x2 0xfffff80000001000
    [(VmcsField.kVmExitReason, 28);
     (VmcsField.kExitQualification, 0x2);
     (VmcsField.kVmExitInstructionLen, 3)] [].

(** *** Descriptor-table exits *)

Definition instruction_info_of (s : VmmState) : Z :=
  wrap32 (vmcs (hw s) VmcsField.kVmxInstructionInfo).

(** The instruction identity of a descriptor-table exit. *)
Definition instruction_identity (s : VmmState) : Z :=
  bits 28 2 (instruction_info_of s).






(** Everything of a state but the log. *)
Definition unlogged (s : VmmState)
    : GuestContext * (Z -> Z) * (Z -> Z) * Z * Z * Z * (Z -> Z)
      * (Z -> Z -> Z) * Z * Z * (Z -> ProcessorData) * nat :=
  (guest s, vmcs (hw s), msrs (hw s), hw_cr2 (hw s), hw_cr3 (hw s),
   hw_cr8 (hw s), hw_dr (hw s), mem (hw s), current_process (hw s),
   processor_number (hw s), proc_data (hw s), port_reads (hw s)).








(** The state a later descriptor-table exit finds: the processor has
    stored new instruction information, everything else is what the
    earlier exit left. *)
Definition next_instruction (instruction_info : Z) (s : VmmState)
    : VmmState :=
  {| guest := guest s;
     hw := set_vmcs (upd VmcsField.kVmxInstructionInfo instruction_info
                       (vmcs (hw s))) (hw s) |}.

(** The instruction information of the load that undoes a store: the same
    operand, the instruction identity two higher. *)
Definition load_back_info (s : VmmState) : Z :=
  set_bits 28 2 (instruction_identity s + 2)
    (vmcs (hw s) VmcsField.kVmxInstructionInfo).


(** SGDT with the lowest bit of the guest CR3 set and the operand at
    [DirectoryTableBase] of the current process, which holds the host's own
    root 0x1aa000: the store goes through the root that the lookup of the
    window's root reads through, and overwrites what it reads. *)
Definition sgdt_lookup_target_state : VmmState :=
  {| guest := example_guest [(ax, 0xffffe00000100028)] 0x2
                0xfffff80000001000;
     hw := set_mem (fun root a =>
                      if (root =? 0x1aa000) && (a =? 0xffffe00000100029)
                      then 0xa0
                      else if (root =? 0x1aa000) && (a =? 0xffffe0000010002a)
                           then 0x1a else 0)
             (example_machine
                [(VmcsField.kVmExitReason, 46);
                 (VmcsField.kVmxInstructionInfo, 0x418100);
                 (VmcsField.kGuestCr3, 0x1ac001);
                 (VmcsField.kGuestGdtrBase, 0x3000);
                 (VmcsField.kGuestGdtrLimit, 0x7f);
                 (VmcsField.kGuestCsSelector, 0x10);
                 (VmcsField.kVmExitInstructionLen, 3)] []) |}.

(** *** LDTR and TR exits *)







(** *** The resume point *)

(** Where the debugger's trap frame points. *)
Definition trap_frame_view (s : VmmState) : Z * Z :=
  (trap_frame_sp (guest s), trap_frame_ip (guest s)).

(** * driver.cpp: loading and unloading

    [DriverEntry] calls the initialisation routines of the other modules in
    a fixed order and undoes them when a later one fails;
    [DriverpDriverUnload] undoes them all.  The routines themselves are not
    part of the sources: here a call is an entry of the list of calls, in
    the order in which they are made, and what a routine returns is a
    field of [System], as are the macros that the headers and the build
    define. *)
Module Driver.

Definition NTSTATUS : Type := Z.

(** [NT_SUCCESS]: an [NTSTATUS] is a [LONG], and success is a value that is
    not negative. *)
Definition NT_SUCCESS (status : NTSTATUS) : bool := 0 <=? status.

Definition STATUS_UNSUCCESSFUL : NTSTATUS := 0xC0000001 - 2 ^ 32.
Definition STATUS_CANCELLED : NTSTATUS := 0xC0000120 - 2 ^ 32.

Inductive Call : Type :=
| SetDriverUnload
| InitSystemVar
| _CRT_INIT
| HyperInitDeviceAll
| InitUserSystemCallHandler
| DoSystemCallHook
| UtilGetSystemProcAddress (name : string)
| AddServiceHook (service : string)
| WindowInit
| ExInitializeDriverRuntime
| LogInitialization
| RtlGetVersion
| LogTermination
| PerfInitialization
| PerfTermination
| _CRT_UNLOAD
| UtilInitialization
| UtilTermination
| PowerCallbackInitialization
| PowerCallbackTermination
| HotplugCallbackInitialization
| HotplugCallbackTermination
| VmInitialization
| VmTermination
| LogRegisterReinitialization
| HYPERPLATFORM_LOG_INFO (message : string)
| WPOFFx64
| RestoreKiSystemServiceStart
| WPONx64
| ExFreePool
| RemoveServiceHook
| HyperDestroyDeviceAll.

Record System := {
  HOOK_SYSCALL : bool;
  SERVICE_HOOK : bool;
  HIDE_WINDOW : bool;
  STATUS_REINITIALIZATION_NEEDED : NTSTATUS;
  InitSystemVar_status : NTSTATUS;
  HyperInitDeviceAll_status : NTSTATUS;
  LogInitialization_status : NTSTATUS;
  RtlGetVersion_status : NTSTATUS;
  dwMajorVersion : Z;
  PerfInitialization_status : NTSTATUS;
  UtilInitialization_status : NTSTATUS;
  PowerCallbackInitialization_status : NTSTATUS;
  HotplugCallbackInitialization_status : NTSTATUS;
  VmInitialization_status : NTSTATUS;
  SystemCallFake_PageContent : Z
}.

(** A computation that makes calls: its result and the calls, oldest
    first. *)
Definition D (A : Type) : Type := A * list Call.

Definition ret {A} (x : A) : D A := (x, []).

Definition bind {A B} (m : D A) (f : A -> D B) : D B :=
  let '(x, calls) := m in
  let '(y, calls') := f x in
  (y, calls ++ calls').

Definition call {A} (c : Call) (result : A) : D A := (result, [c]).

Definition when (c : bool) (m : D unit) : D unit := if c then m else ret tt.

Declare Scope driver_scope.
Delimit Scope driver_scope with driver.
Notation "x <- m ;; f" := (bind m (fun x => f))
  (at level 61, m at next level, right associativity) : driver_scope.
Notation "m ;; f" := (bind m (fun _ => f))
  (at level 61, right associativity) : driver_scope.
Local Open Scope driver_scope.

Section Entry.

Variable sys : System.

(** Test if the system is one of supported OS versions.  [IsX64()] is true
    in this build, so the test of [MmSystemRangeStart] is not made. *)
Definition DriverpIsSuppoetedOS : D bool :=
  status <- call RtlGetVersion (RtlGetVersion_status sys) ;;
  if negb (NT_SUCCESS status) then ret false
  else if negb (dwMajorVersion sys =? 6) && negb (dwMajorVersion sys =? 10)
  then ret false
  else ret true.

(** The service hooks that [SERVICE_HOOK] installs. *)
Definition service_hooks : D unit :=
  call (UtilGetSystemProcAddress "NtOpenProcess") tt ;;
  call (AddServiceHook "NtOpenProcess") tt ;;
  call (UtilGetSystemProcAddress "NtCreateFile") tt ;;
  call (AddServiceHook "NtCreateFile") tt ;;
  call (AddServiceHook "NtWriteVirtualMemory") tt ;;
  call (AddServiceHook "NtCreateThreadEx") tt ;;
  call (UtilGetSystemProcAddress "NtAllocateVirtualMemory") tt ;;
  call (AddServiceHook "NtAllocateVirtualMemory") tt ;;
  call (AddServiceHook "NtCreateThread") tt ;;
  call (AddServiceHook "NtDeviceIoControlFile") tt ;;
  when (HIDE_WINDOW sys) (call (AddServiceHook "NtUserFindWindowEx") tt).

(** A driver entry point *)
Definition DriverEntry : D NTSTATUS :=
  call SetDriverUnload tt ;;
  status <- call InitSystemVar (InitSystemVar_status sys) ;;
  if negb (NT_SUCCESS status) then ret STATUS_UNSUCCESSFUL else
  call _CRT_INIT tt ;;
  status <- call HyperInitDeviceAll (HyperInitDeviceAll_status sys) ;;
  if negb (NT_SUCCESS status) then ret STATUS_UNSUCCESSFUL else
  when (HOOK_SYSCALL sys)
    (call InitUserSystemCallHandler tt ;; call DoSystemCallHook tt) ;;
  when (SERVICE_HOOK sys) service_hooks ;;
  when (HIDE_WINDOW sys) (call WindowInit tt) ;;
  call ExInitializeDriverRuntime tt ;;
  status <- call LogInitialization (LogInitialization_status sys) ;;
  let need_reinitialization :=
    status =? STATUS_REINITIALIZATION_NEEDED sys in
  if negb need_reinitialization && negb (NT_SUCCESS status) then ret status
  else
  supported <- DriverpIsSuppoetedOS ;;
  if negb supported then
    call LogTermination tt ;;
    ret STATUS_CANCELLED
  else
  status <- call PerfInitialization (PerfInitialization_status sys) ;;
  if negb (NT_SUCCESS status) then
    call _CRT_UNLOAD tt ;;
    call LogTermination tt ;;
    ret status
  else
  status <- call UtilInitialization (UtilInitialization_status sys) ;;
  if negb (NT_SUCCESS status) then
    call PerfTermination tt ;;
    call _CRT_UNLOAD tt ;;
    call LogTermination tt ;;
    ret status
  else
  status <- call PowerCallbackInitialization
              (PowerCallbackInitialization_status sys) ;;
  if negb (NT_SUCCESS status) then
    call UtilTermination tt ;;
    call PerfTermination tt ;;
    call _CRT_UNLOAD tt ;;
    call LogTermination tt ;;
    ret status
  else
  status <- call HotplugCallbackInitialization
              (HotplugCallbackInitialization_status sys) ;;
  if negb (NT_SUCCESS status) then
    call PowerCallbackTermination tt ;;
    call UtilTermination tt ;;
    call PerfTermination tt ;;
    call _CRT_UNLOAD tt ;;
    call LogTermination tt ;;
    ret status
  else
  status <- call VmInitialization (VmInitialization_status sys) ;;
  if negb (NT_SUCCESS status) then
    call HotplugCallbackTermination tt ;;
    call PowerCallbackTermination tt ;;
    call UtilTermination tt ;;
    call PerfTermination tt ;;
    call _CRT_UNLOAD tt ;;
    call LogTermination tt ;;
    ret status
  else
  when need_reinitialization (call LogRegisterReinitialization tt) ;;
  call (HYPERPLATFORM_LOG_INFO "The VMM has been installed.") tt ;;
  ret status.

(** Unload handler *)
Definition DriverpDriverUnload : D unit :=
  call VmTermination tt ;;
  call HotplugCallbackTermination tt ;;
  call PowerCallbackTermination tt ;;
  call UtilTermination tt ;;
  call PerfTermination tt ;;
  call LogTermination tt ;;
  when (HOOK_SYSCALL sys)
    (call WPOFFx64 tt ;;
     call RestoreKiSystemServiceStart tt ;;
     call WPONx64 tt ;;
     when (negb (SystemCallFake_PageContent sys =? 0)) (call ExFreePool tt)) ;;
  when (SERVICE_HOOK sys) (call RemoveServiceHook tt) ;;
  call HyperDestroyDeviceAll tt.

End Entry.

Definition Call_eqb (a b : Call) : bool :=
  match a, b with
  | SetDriverUnload, SetDriverUnload
  | InitSystemVar, InitSystemVar
  | _CRT_INIT, _CRT_INIT
  | HyperInitDeviceAll, HyperInitDeviceAll
  | InitUserSystemCallHandler, InitUserSystemCallHandler
  | DoSystemCallHook, DoSystemCallHook
  | WindowInit, WindowInit
  | ExInitializeDriverRuntime, ExInitializeDriverRuntime
  | LogInitialization, LogInitialization
  | RtlGetVersion, RtlGetVersion
  | LogTermination, LogTermination
  | PerfInitialization, PerfInitialization
  | PerfTermination, PerfTermination
  | _CRT_UNLOAD, _CRT_UNLOAD
  | UtilInitialization, UtilInitialization
  | UtilTermination, UtilTermination
  | PowerCallbackInitialization, PowerCallbackInitialization
  | PowerCallbackTermination, PowerCallbackTermination
  | HotplugCallbackInitialization, HotplugCallbackInitialization
  | HotplugCallbackTermination, HotplugCallbackTermination
  | VmInitialization, VmInitialization
  | VmTermination, VmTermination
  | LogRegisterReinitialization, LogRegisterReinitialization
  | WPOFFx64, WPOFFx64
  | RestoreKiSystemServiceStart, RestoreKiSystemServiceStart
  | WPONx64, WPONx64
  | ExFreePool, ExFreePool
  | RemoveServiceHook, RemoveServiceHook
  | HyperDestroyDeviceAll, HyperDestroyDeviceAll => true
  | UtilGetSystemProcAddress x, UtilGetSystemProcAddress y
  | AddServiceHook x, AddServiceHook y
  | HYPERPLATFORM_LOG_INFO x, HYPERPLATFORM_LOG_INFO y => String.eqb x y
  | _, _ => false
  end.

(** The five initialisations that [DriverEntry] rolls back, with the
    routine that undoes each and the status each returns. *)
Definition rolled_back_steps (sys : System) : list (Call * Call * NTSTATUS) :=
  [(PerfInitialization, PerfTermination, PerfInitialization_status sys);
   (UtilInitialization, UtilTermination, UtilInitialization_status sys);
   (PowerCallbackInitialization, PowerCallbackTermination,
    PowerCallbackInitialization_status sys);
   (HotplugCallbackInitialization, HotplugCallbackTermination,
    HotplugCallbackInitialization_status sys);
   (VmInitialization, VmTermination, VmInitialization_status sys)].

Definition initialisation (step : Call * Call * NTSTATUS) : Call :=
  fst (fst step).
Definition termination (step : Call * Call * NTSTATUS) : Call :=
  snd (fst step).

(** The steps at the front of a list that succeed. *)
Fixpoint succeeded (steps : list (Call * Call * NTSTATUS))
    : list (Call * Call * NTSTATUS) :=
  match steps with
  | [] => []
  | step :: rest =>
      if NT_SUCCESS (snd step) then step :: succeeded rest else []
  end.

(** A call that undoes something. *)
Definition undoes (c : Call) : bool :=
  match c with
  | LogTermination | PerfTermination | _CRT_UNLOAD | UtilTermination
  | PowerCallbackTermination | HotplugCallbackTermination | VmTermination
  | RemoveServiceHook | HyperDestroyDeviceAll | ExFreePool => true
  | _ => false
  end.

(** The calls before the first call of [c], and those from it on. *)
Fixpoint before_call (c : Call) (calls : list Call) : list Call :=
  match calls with
  | [] => []
  | c' :: rest => if Call_eqb c c' then [] else c' :: before_call c rest
  end.

Fixpoint from_call (c : Call) (calls : list Call) : list Call :=
  match calls with
  | [] => []
  | c' :: rest => if Call_eqb c c' then calls else from_call c rest
  end.

(** Everything before [PerfInitialization] went well: the system
    variables, the devices, the log (or it asks to be initialised again
    later) and the test of the OS version. *)
Definition reaches_PerfInitialization (sys : System) : Prop :=
  NT_SUCCESS (InitSystemVar_status sys) = true /\
  NT_SUCCESS (HyperInitDeviceAll_status sys) = true /\
  (LogInitialization_status sys = STATUS_REINITIALIZATION_NEEDED sys \/
   NT_SUCCESS (LogInitialization_status sys) = true) /\
  NT_SUCCESS (RtlGetVersion_status sys) = true /\
  (dwMajorVersion sys = 6 \/ dwMajorVersion sys = 10).

(** Every status succeeds, all three build options are on. *)
Definition healthy_system : System :=
  {| HOOK_SYSCALL := true;
     SERVICE_HOOK := true;
     HIDE_WINDOW := true;
     STATUS_REINITIALIZATION_NEEDED := 0x40000001;
     InitSystemVar_status := 0;
     HyperInitDeviceAll_status := 0;
     LogInitialization_status := 0;
     RtlGetVersion_status := 0;
     dwMajorVersion := 10;
     PerfInitialization_status := 0;
     UtilInitialization_status := 0;
     PowerCallbackInitialization_status := 0;
     HotplugCallbackInitialization_status := 0;
     VmInitialization_status := 0;
     SystemCallFake_PageContent := 0x1000 |}.

(** The same, where registering the power callback fails. *)
Definition power_callback_fails : System :=
  {| HOOK_SYSCALL := true;
     SERVICE_HOOK := true;
     HIDE_WINDOW := true;
     STATUS_REINITIALIZATION_NEEDED := 0x40000001;
     InitSystemVar_status := 0;
     HyperInitDeviceAll_status := 0;
     LogInitialization_status := 0;
     RtlGetVersion_status := 0;
     dwMajorVersion := 10;
     PerfInitialization_status := 0;
     UtilInitialization_status := 0;
     PowerCallbackInitialization_status := STATUS_UNSUCCESSFUL;
     HotplugCallbackInitialization_status := 0;
     VmInitialization_status := 0;
     SystemCallFake_PageContent := 0x1000 |}.

End Driver.

(** * Properties *)

(** ** Bit-fields *)

Lemma bits_range lo n x : 0 <= n -> 0 <= bits lo n x < 2 ^ n.
Proof.
  intros Hn. unfold bits. rewrite Z.land_ones by assumption.
  apply Z.mod_pos_bound. apply Z.pow_pos_nonneg; lia.
Qed.

(** A four-bit register index always names a register. *)
Lemma VmmpSelectRegister_bits lo x :
  exists r, VmmpSelectRegister (bits lo 4 x) = ret (Some r).
Proof.
  pose proof (bits_range lo 4 x ltac:(lia)) as H.
  change (2 ^ 4) with 16 in H.
  assert (E : bits lo 4 x = 0 \/ bits lo 4 x = 1 \/ bits lo 4 x = 2 \/
              bits lo 4 x = 3 \/ bits lo 4 x = 4 \/ bits lo 4 x = 5 \/
              bits lo 4 x = 6 \/ bits lo 4 x = 7 \/ bits lo 4 x = 8 \/
              bits lo 4 x = 9 \/ bits lo 4 x = 10 \/ bits lo 4 x = 11 \/
              bits lo 4 x = 12 \/ bits lo 4 x = 13 \/ bits lo 4 x = 14 \/
              bits lo 4 x = 15) by lia.
  repeat (destruct E as [E | E]; [rewrite E; eexists; reflexivity | ]).
  rewrite E; eexists; reflexivity.
Qed.

Lemma testbit_set_bit_false i x :
  0 <= i -> Z.testbit (set_bit i false x) i = false.
Proof.
  intros Hi. unfold set_bit, set_bits. cbn [Z.b2z].
  rewrite Z.lor_spec, Z.ldiff_spec, Z.land_0_l, Z.shiftl_0_l, Z.bits_0.
  rewrite Z.shiftl_spec by assumption. rewrite Z.sub_diag.
  change (Z.testbit (Z.ones 1) 0) with true.
  cbn. rewrite andb_false_r. reflexivity.
Qed.


Lemma testbit63_not_bit63 x : Z.testbit (Z.land x not_bit63) 63 = false.
Proof. rewrite Z.land_spec. apply andb_false_r. Qed.

(** ** Running a handler *)

Lemma wp_returned {A} (a : M A) Q s :
  wp a Q s -> exists x s', a s = Returned x s' /\ Q x s'.
Proof.
  unfold wp. destruct (a s) as [x s'| |]; intros H; try contradiction.
  exists x, s'. split; [reflexivity | exact H].
Qed.

Lemma wp_returned_unit (a : M unit) Q s :
  wp a (fun _ => Q) s -> exists s', a s = Returned tt s' /\ Q s'.
Proof.
  intros H. apply wp_returned in H. destruct H as ([] & s' & E & H).
  exists s'. split; assumption.
Qed.

Lemma wp_bind {A B} (a : M A) (f : A -> M B) Q s :
  wp a (fun x s' => wp (f x) Q s') s -> wp (bind a f) Q s.
Proof. unfold wp, bind. destruct (a s); auto. Qed.

Lemma wp_ret {A} (x : A) (Q : A -> VmmState -> Prop) s :
  Q x s -> wp (ret x) Q s.
Proof. auto. Qed.

Lemma wp_mono {A} (a : M A) (Q Q' : A -> VmmState -> Prop) s :
  wp a Q' s -> (forall x s', Q' x s' -> Q x s') -> wp a Q s.
Proof. unfold wp. destruct (a s); auto. Qed.

Lemma wp_on_hw f Q s :
  Q tt {| guest := guest s; hw := f (hw s) |} -> wp (on_hw f) Q s.
Proof. auto. Qed.

Lemma wp_on_guest f Q s :
  Q tt {| guest := f (guest s); hw := hw s |} -> wp (on_guest f) Q s.
Proof. auto. Qed.

Lemma wp_read_hw {A} (f : Machine -> A) Q s :
  Q (f (hw s)) s -> wp (read_hw f) Q s.
Proof. auto. Qed.

Lemma wp_read_guest {A} (f : GuestContext -> A) Q s :
  Q (f (guest s)) s -> wp (read_guest f) Q s.
Proof. auto. Qed.

Lemma wp_load size address Q s :
  Q (load_bytes (mem (hw s) (hw_cr3 (hw s))) address (Z.to_nat size))
    {| guest := guest s;
       hw := add_log (EvMemRead (hw_cr3 (hw s)) address size) (hw s) |} ->
  wp (load size address) Q s.
Proof. auto. Qed.

Lemma wp_store size address value Q s :
  Q tt (final (store size address value s)) -> wp (store size address value) Q s.
Proof. auto. Qed.

Lemma wp_port_read env size port Q s :
  Q (bits 0 (8 * size) (port_in env port size (port_reads (hw s))))
    (final (port_read env size port s)) ->
  wp (port_read env size port) Q s.
Proof. auto. Qed.

Ltac head_of t := lazymatch t with ?f _ => head_of f | _ => t end.

Ltac state_simpl :=
  cbv beta;
  cbn [guest hw vmcs msrs hw_cr2 hw_cr3 hw_cr8 hw_irql hw_dr mem
       current_process processor_number proc_data port_reads log
       gp_regs trap_frame_sp trap_frame_ip processor_data flag_reg ip cr8
       irql vm_continue final store port_read
       set_vmcs add_log set_msrs set_hw_cr2 set_hw_cr3 set_hw_cr8
       set_hw_irql set_hw_dr set_mem set_port_reads
       set_gp_regs set_trap_frame set_flag_reg set_cr8 set_vm_continue].

(** One step of symbolic execution that does not branch.  It stops in front
    of [VmmpSelectRegister], whose result the proofs provide, and in front
    of the I/O wrapper and its loops, which have lemmas of their own. *)
Ltac wp_step_seq :=
  lazymatch goal with
  | |- wp (bind _ _) _ _ => apply wp_bind
  | |- wp (ret _) _ _ => apply wp_ret
  | |- wp (on_hw _) _ _ => apply wp_on_hw
  | |- wp (on_guest _) _ _ => apply wp_on_guest
  | |- wp (read_hw _) _ _ => apply wp_read_hw
  | |- wp (read_guest _) _ _ => apply wp_read_guest
  | |- wp (load _ _) _ _ => apply wp_load
  | |- wp (store _ _ _) _ _ => apply wp_store
  | |- wp (port_read _ _ _) _ _ => apply wp_port_read
  | |- wp (let _ := _ in _) _ _ => cbv zeta
  | |- wp ((fun _ => _) _) _ _ => cbv beta
  | |- wp (if _ then _ else _) _ _ => fail
  | |- wp (match _ with _ => _ end) _ _ => fail
  | |- wp (VmmpSelectRegister _) _ _ => fail
  | |- wp (VmmpIoWrapper _ _ _ _ _ _ _) _ _ => fail
  | |- wp (in_string _ _ _ _ _) _ _ => fail
  | |- wp (out_string _ _ _ _) _ _ => fail
  | |- wp ?a _ _ => let h := head_of a in progress (unfold h at 1)
  end; state_simpl.

(** A case distinction on what the handler tests next. *)
Ltac wp_branch :=
  lazymatch goal with
  | |- wp (if ?c then _ else _) _ _ => destruct c eqn:?
  | |- wp (match (if ?c then _ else _) with _ => _ end) _ _ => destruct c eqn:?
  | |- wp (match ?x with _ => _ end) _ _ => destruct x eqn:?
  end; state_simpl.

Ltac wp_seq := repeat wp_step_seq.
Ltac wp_step := first [wp_step_seq | wp_branch].
Ltac wp_run := repeat wp_step.

(** Reading the control structure after a chain of writes. *)
Ltac vmcs_simpl := unfold upd; cbn.

(** *** Outcomes that need not return *)

Lemma wlp_returned {A} (a : M A) Q s x s' :
  wlp a Q s -> a s = Returned x s' -> Q x s'.
Proof. unfold wlp. intros H E. rewrite E in H. exact H. Qed.

Lemma wlp_bind {A B} (a : M A) (f : A -> M B) Q s :
  wlp a (fun x s' => wlp (f x) Q s') s -> wlp (bind a f) Q s.
Proof. unfold wlp, bind. destruct (a s); auto. Qed.

Lemma wlp_of_wp {A} (a : M A) Q s : wp a Q s -> wlp a Q s.
Proof. unfold wp, wlp. destruct (a s); auto. Qed.

Lemma final_bind {A B} (a : M A) (f : A -> M B) s x s1 :
  a s = Returned x s1 -> final (bind a f s) = final (f x s1).
Proof. intros E. unfold bind. rewrite E. reflexivity. Qed.

Lemma sat_bind {A B} (a : M A) (f : A -> M B) s R F :
  sat a s (fun x s' => sat (f x) s' R F) F -> sat (bind a f) s R F.
Proof. unfold sat, bind. destruct (a s); auto. Qed.

Lemma sat_of_wp {A} (a : M A) s (R : A -> VmmState -> Prop) F :
  wp a R s -> sat a s R F.
Proof. unfold wp, sat. destruct (a s); intros H; try contradiction; exact H. Qed.



(** ** MOV to CR0 and CR4 (claim C5) *)





(** A field that is none of the written ones reads as before. *)
Ltac vmcs_frame f Hf :=
  cbn in Hf; unfold upd;
  repeat match goal with
         | |- context [f =? ?k] =>
             destruct (Z.eqb_spec f k);
             [subst f; exfalso; apply Hf; auto 10|]
         end;
  reflexivity.

(** ** The advance operation *)


(** ** RDMSR and WRMSR of a disallowed index (claim C2) *)

(** When guest CX is outside 0..0x1FFF and 0xC0000000..0xC0001FFF and is
    not 0x400000F0, the RDMSR/WRMSR handler returns after exactly these
    accesses: the injection of #GP with error code 0x6A and the advance of
    the instruction pointer.  The log of the handler has no MSR access and
    touches no control-structure field besides those of the injection and
    of the advance; the hardware MSRs, every other field and the guest
    registers are as before.  The interruption-information field holds the
    #GP injection only when the guest's trap flag is clear: with the flag
    set the advance has put its own #DB injection there. *)
Lemma VmmpHandleMsrAccess_disallowed read_access s :
  msr_disallowed (gp_regs (guest s) cx) ->
  let new :=
    advance_events (ip (guest s))
      (vmcs (hw s) VmcsField.kVmExitInstructionLen) (trap_flag s) ++
    injected InterruptionType.kHardwareException
      InterruptionVector.kGeneralProtectionException true 0x6A in
  exists s',
    VmmpHandleMsrAccess read_access s = Returned tt s' /\
    logged new s s' /\
    vmcs (hw s') VmcsField.kVmEntryExceptionErrorCode = 0x6A /\
    (trap_flag s = false ->
     vmcs (hw s') VmcsField.kVmEntryIntrInfoField
     = interruption_info InterruptionType.kHardwareException
         InterruptionVector.kGeneralProtectionException true) /\
    (trap_flag s = true ->
     vmcs (hw s') VmcsField.kVmEntryIntrInfoField
     = interruption_info InterruptionType.kHardwareException
         InterruptionVector.kDebugException false) /\
    vmcs (hw s') VmcsField.kGuestRip = next_ip s /\
    forallb (fun e => negb (is_msr_access e)) new = true /\
    (forall e f, In e new -> vmcs_field_of e = Some f ->
       In f [VmcsField.kVmEntryIntrInfoField;
             VmcsField.kVmEntryExceptionErrorCode;
             VmcsField.kVmExitInstructionLen;
             VmcsField.kGuestRip;
             VmcsField.kVmEntryInstructionLen]) /\
    (forall f, ~ In f [VmcsField.kVmEntryIntrInfoField;
                       VmcsField.kVmEntryExceptionErrorCode;
                       VmcsField.kGuestRip;
                       VmcsField.kVmEntryInstructionLen] ->
       vmcs (hw s') f = vmcs (hw s) f) /\
    msrs (hw s') = msrs (hw s) /\
    guest s' = guest s.
Proof.
  intros (H1 & H2 & H3) new.
  assert (C : negb (if gp_regs (guest s) cx <=? 0x1FFF then true
                    else if (0xC0000000 <=? gp_regs (guest s) cx)
                            && (gp_regs (guest s) cx <=? 0xC0001FFF)
                         then true else false)
              && negb (gp_regs (guest s) cx =? 0x400000f0) = true).
  { destruct (Z.leb_spec (gp_regs (guest s) cx) 0x1FFF); [lia|].
    destruct (Z.leb_spec 0xC0000000 (gp_regs (guest s) cx));
      destruct (Z.leb_spec (gp_regs (guest s) cx) 0xC0001FFF);
      destruct (Z.eqb_spec (gp_regs (guest s) cx) 0x400000f0);
      cbn; try reflexivity; lia. }
  apply wp_returned_unit.
  unfold VmmpHandleMsrAccess. wp_seq. rewrite C.
  unfold VmmpAdjustGuestInstructionPointer, logged, trap_flag, next_ip in *.
  subst new.
  wp_run.
  - repeat split; try reflexivity; try discriminate.
    + intros e f Hin Hf. cbn in Hin.
      repeat (destruct Hin as [<- | Hin];
              [injection Hf as <-; cbn; tauto |]).
      contradiction.
    + intros f Hf. vmcs_frame f Hf.
  - repeat split; try reflexivity; try discriminate.
    + intros e f Hin Hf. cbn in Hin.
      repeat (destruct Hin as [<- | Hin];
              [injection Hf as <-; cbn; tauto |]).
      contradiction.
    + intros f Hf. vmcs_frame f Hf.
Qed.

(** C2 at an input where the code leaves the claim: RDMSR of the disallowed
    index 0x2000 while the guest's trap flag is set.  The handler writes the
    injection of #GP with error code 0x6A and advances the instruction
    pointer, and the advance overwrites the interruption-information field
    with its own injection: what is pending for the guest when the handler
    returns is #DB without error code (0x80000301), not the
    general-protection fault (0x80000b0d). *)
Theorem C2_trap_flag_replaces_gp :
  msr_disallowed (gp_regs (guest c2_trap_state) cx) /\
  trap_flag c2_trap_state = true /\
  interruption_info InterruptionType.kHardwareException
    InterruptionVector.kGeneralProtectionException true = 0x80000b0d /\
  interruption_info InterruptionType.kHardwareException
    InterruptionVector.kDebugException false = 0x80000301 /\
  exists s',
    VmmpHandleMsrAccess true c2_trap_state = Returned tt s' /\
    log (hw s')
    = [EvVmWrite VmcsField.kVmEntryInstructionLen 2;
       EvVmWrite VmcsField.kVmEntryIntrInfoField 0x80000301;
       EvVmWrite VmcsField.kGuestRip 0xfffff80000001002;
       EvVmRead VmcsField.kVmExitInstructionLen;
       EvVmWrite VmcsField.kVmEntryExceptionErrorCode 0x6A;
       EvVmWrite VmcsField.kVmEntryIntrInfoField 0x80000b0d] /\
    vmcs (hw s') VmcsField.kVmEntryIntrInfoField = 0x80000301 /\
    vmcs (hw s') VmcsField.kVmEntryExceptionErrorCode = 0x6A /\
    vmcs (hw s') VmcsField.kGuestRip = 0xfffff80000001002.
Proof.
  split; [unfold msr_disallowed; cbn; lia|].
  split; [reflexivity|]. split; [reflexivity|]. split; [reflexivity|].
  destruct (VmmpHandleMsrAccess_disallowed true c2_trap_state)
    as (s' & E & L & V1 & _ & V2 & V3 & _).
  { unfold msr_disallowed; cbn; lia. }
  exists s'. split; [exact E|].
  split; [|split; [|split; [exact V1 | rewrite V3; reflexivity]]].
  - unfold logged in L. rewrite L. reflexivity.
  - rewrite V2 by reflexivity. reflexivity.
Qed.

(** ** CPUID (claim C3) *)

(** C3.  For leaf 1 the handler returns with bit 31 of the guest's CX, the
    hypervisor-present bit, clear.  For leaf 0 it returns with AX = 16 and
    BX, DX, CX spelling "GenuineIntel", whatever the host's CPUID answers.
    In both cases the guest instruction pointer then is the next
    instruction. *)
Theorem C3_cpuid_leaf1_and_leaf0 env s :
  (wrap32 (gp_regs (guest s) ax) = 1 ->
   exists s',
     VmmpHandleCpuid env s = Returned tt s' /\
     Z.testbit (gp_regs (guest s') cx) 31 = false /\
     vmcs (hw s') VmcsField.kGuestRip = next_ip s) /\
  (wrap32 (gp_regs (guest s) ax) = 0 ->
   exists s',
     VmmpHandleCpuid env s = Returned tt s' /\
     gp_regs (guest s') ax = 16 /\
     gp_regs (guest s') bx = 0x756E6547 /\
     gp_regs (guest s') cx = 0x6C65746E /\
     gp_regs (guest s') dx = 0x49656E69 /\
     vendor_identifier (gp_regs (guest s')) = "GenuineIntel"%string /\
     vmcs (hw s') VmcsField.kGuestRip = next_ip s).
Proof.
  split; intros H; apply wp_returned_unit; unfold VmmpHandleCpuid.
  - wp_seq. rewrite H.
    destruct (cpuidex env 1 (wrap32 (gp_regs (guest s) cx)))
      as [[[i0 i1] i2] i3].
    wp_seq. unfold VmmpAdjustGuestInstructionPointer. wp_run;
      try discriminate;
      (split; [apply testbit_set_bit_false; lia | reflexivity]).
  - wp_seq. rewrite H.
    destruct (cpuidex env 0 (wrap32 (gp_regs (guest s) cx)))
      as [[[i0 i1] i2] i3].
    wp_seq. unfold VmmpAdjustGuestInstructionPointer. wp_run;
      try discriminate; repeat split; reflexivity.
Qed.

Lemma C3_cpuid_leaf1_and_leaf0_witness :
  (wrap32 (gp_regs (guest c3_state_leaf1) ax) = 1 /\
   exists s',
     VmmpHandleCpuid example_env c3_state_leaf1 = Returned tt s' /\
     Z.testbit (gp_regs (guest s') cx) 31 = false) /\
  (wrap32 (gp_regs (guest c3_state_leaf0) ax) = 0 /\
   exists s',
     VmmpHandleCpuid example_env c3_state_leaf0 = Returned tt s' /\
     vendor_identifier (gp_regs (guest s')) = "GenuineIntel"%string).
Proof.
  split; (split; [reflexivity|]).
  - destruct (proj1 (C3_cpuid_leaf1_and_leaf0 example_env c3_state_leaf1)
                eq_refl) as (s' & E & B & _).
    exists s'. split; assumption.
  - destruct (proj2 (C3_cpuid_leaf1_and_leaf0 example_env c3_state_leaf0)
                eq_refl) as (s' & E & _ & _ & _ & _ & V & _).
    exists s'. split; assumption.
Defined.

(** ** Unsuccessful VMCALL (claims C7 and C10) *)

Lemma not_in_bounds_neq x y lo hi :
  UtilIsInBounds x lo hi = false -> UtilIsInBounds y lo hi = true ->
  (x =? y) = false.
Proof.
  intros Hx Hy. destruct (Z.eqb_spec x y); [|reflexivity].
  subst. congruence.
Qed.



(** C10.  An unsuccessful VMCALL (a number outside the declared range, or a
    termination request at a privilege level other than 0) returns with the
    guest context, and so every general-purpose register, exactly as it
    was; its log has no memory write, memory and the MSRs are as before,
    and of the control structure only the entry-interruption-information and
    entry-instruction-length fields may differ. *)
Theorem C10_unsuccessful_vmcall_is_atomic env s :
  HypercallNumber_well_formed env ->
  unsuccessful_vmcall env s ->
  let new :=
    unsuccessful_events s ++
    (if UtilIsInBounds (hypercall_number_of s) (kMinimumHypercallNumber env)
          (kMaximumHypercallNumber env)
     then [EvVmRead VmcsField.kGuestSsArBytes] else []) in
  exists s',
    VmmpHandleVmCall env s = Returned tt s' /\
    logged new s s' /\
    forallb (fun e => negb (is_mem_write e)) new = true /\
    guest s' = guest s /\
    mem (hw s') = mem (hw s) /\
    msrs (hw s') = msrs (hw s) /\
    (forall f, ~ In f [VmcsField.kVmEntryIntrInfoField;
                       VmcsField.kVmEntryInstructionLen] ->
       vmcs (hw s') f = vmcs (hw s) f) /\
    vmcs (hw s') VmcsField.kVmEntryIntrInfoField
    = interruption_info InterruptionType.kHardwareException
        InterruptionVector.kInvalidOpcodeException false /\
    vmcs (hw s') VmcsField.kVmEntryInstructionLen
    = vmcs (hw s) VmcsField.kVmExitInstructionLen.
Proof.
  intros (W1 & W2 & W3) [H | [H C]] new; subst new;
    unfold hypercall_out_of_range, hypercall_number_of, guest_cpl in *;
    apply wp_returned_unit; unfold VmmpHandleVmCall, logged.
  - wp_seq. rewrite H. cbn [negb].
    rewrite (not_in_bounds_neq _ _ _ _ H W1), (not_in_bounds_neq _ _ _ _ H W2),
      (not_in_bounds_neq _ _ _ _ H W3).
    wp_seq. repeat split; try reflexivity.
    intros f Hf. vmcs_frame f Hf.
  - wp_seq. rewrite H, W1, Z.eqb_refl. cbn [negb]. wp_seq.
    apply Z.eqb_neq in C. rewrite C. wp_seq.
    repeat split; try reflexivity.
    intros f Hf. vmcs_frame f Hf.
Qed.

Lemma C10_unsuccessful_vmcall_is_atomic_witness :
  HypercallNumber_well_formed example_env /\
  unsuccessful_vmcall example_env c10_state_ring3 /\
  exists s',
    VmmpHandleVmCall example_env c10_state_ring3 = Returned tt s' /\
    guest s' = guest c10_state_ring3 /\
    mem (hw s') = mem (hw c10_state_ring3).
Proof.
  assert (W : HypercallNumber_well_formed example_env)
    by (repeat split; reflexivity).
  assert (H : unsuccessful_vmcall example_env c10_state_ring3).
  { right. split; [reflexivity|]. vm_compute. discriminate. }
  split; [exact W|]. split; [exact H|].
  destruct (C10_unsuccessful_vmcall_is_atomic example_env c10_state_ring3 W H)
    as (s' & E & _ & _ & G & Mm & _).
  exists s'. split; [exact E|]. split; assumption.
Defined.

(** ** String I/O (claim C6) *)

Lemma in_string_guest env count : forall size port a s,
  wp (in_string env size port a count) (fun _ s' => guest s' = guest s) s.
Proof.
  induction count as [|k IH]; intros size port a s; cbn [in_string].
  - wp_seq. reflexivity.
  - wp_seq. eapply wp_mono; [apply IH|]. intros x s' H. rewrite H. reflexivity.
Qed.

Lemma out_string_guest count : forall size port a s,
  wp (out_string size port a count) (fun _ s' => guest s' = guest s) s.
Proof.
  induction count as [|k IH]; intros size port a s; cbn [out_string].
  - wp_seq. reflexivity.
  - wp_seq. eapply wp_mono; [apply IH|]. intros x s' H. rewrite H. reflexivity.
Qed.

(** The wrapper returns from a string operation of size 1, 2 or 4 and
    leaves the guest context alone. *)
Lemma VmmpIoWrapper_string_guest env to_memory size port a count s :
  size = 1 \/ size = 2 \/ size = 4 ->
  wp (VmmpIoWrapper env to_memory true size port (PtrMemory a) count)
    (fun _ s' => guest s' = guest s) s.
Proof.
  intros Hsize.
  assert (E : (size =? 1) || (size =? 2) || (size =? 4) = true)
    by (destruct Hsize as [-> | [-> | ->]]; reflexivity).
  unfold VmmpIoWrapper, VmmpGetKernelCr3. wp_seq.
  destruct (Z.land (vmcs (hw s) VmcsField.kGuestCr3) 1 =? 0); wp_seq;
    rewrite E; destruct to_memory; wp_seq;
    (eapply wp_mono; [first [apply in_string_guest | apply out_string_guest]|]);
    intros x s' H; wp_seq; rewrite H; reflexivity.
Qed.

(** C6.  For a string I/O exit whose size field decodes to 1, 2 or 4 bytes,
    the handler returns with DI (for INS) or SI (for OUTS) moved by
    [count * size] modulo 2^64, where [count] is the guest's CX with a REP
    prefix and 1 otherwise: down when the direction flag is set, up
    otherwise.  The other of the two index registers is unchanged, CX is
    cleared with a REP prefix, and every further register is as before. *)
Theorem C6_string_io_moves_index env s size :
  let q := vmcs (hw s) VmcsField.kExitQualification in
  let is_in := bits 3 1 q =? 1 in
  let is_rep := bits 5 1 q =? 1 in
  let count := if is_rep then gp_regs (guest s) cx else 1 in
  let update_register := if is_in then di else si in
  let other_register := if is_in then si else di in
  let old := gp_regs (guest s) update_register in
  bits 4 1 q = 1 ->
  decoded_size_of_access q = Some size ->
  exists s',
    VmmpHandleIoPort env s = Returned tt s' /\
    (size = 1 \/ size = 2 \/ size = 4) /\
    gp_regs (guest s') update_register =
      (if bit Flag.df (flag_reg (guest s))
       then wrap64 (old - wrap64 (count * size))
       else wrap64 (old + wrap64 (count * size))) /\
    gp_regs (guest s') other_register = gp_regs (guest s) other_register /\
    gp_regs (guest s') cx = (if is_rep then 0 else gp_regs (guest s) cx) /\
    (forall r, r <> update_register -> r <> cx ->
       gp_regs (guest s') r = gp_regs (guest s) r).
Proof.
  intros q is_in is_rep count update_register other_register old Hstr Hsize.
  assert (Hs : size = 1 \/ size = 2 \/ size = 4 /\ True).
  { unfold decoded_size_of_access in Hsize. fold q in Hsize.
    destruct (bits 0 3 q) as [|[[|[]|]|[]|]|]; inversion Hsize; auto. }
  assert (Hs' : size = 1 \/ size = 2 \/ size = 4) by tauto. clear Hs.
  assert (Hm : match bits 0 3 q with 0 => 1 | 1 => 2 | 3 => 4 | _ => 0 end
               = size).
  { unfold decoded_size_of_access in Hsize. fold q in Hsize.
    destruct (bits 0 3 q) as [|[[|[]|]|[]|]|]; inversion Hsize; reflexivity. }
  apply wp_returned_unit. unfold VmmpHandleIoPort.
  wp_seq. fold q. rewrite Hm, Hstr. change (1 =? 1) with true. cbv iota.
  fold is_in is_rep.
  eapply wp_mono; [apply VmmpIoWrapper_string_guest; exact Hs'|].
  intros x s1 G. cbv beta in G |- *. cbn [guest] in G.
  unfold VmmpAdjustGuestInstructionPointer.
  wp_seq. rewrite !G.
  subst update_register other_register old count is_in is_rep.
  destruct (bits 3 1 q =? 1), (bits 5 1 q =? 1),
    (bit Flag.df (flag_reg (guest s)));
    wp_run; rewrite ?G;
    (split; [exact Hs'|]);
    (repeat split; try reflexivity;
     intros r Hr1 Hr2; destruct r; cbn; congruence).
Qed.

Lemma C6_string_io_moves_index_witness :
  bits 4 1 (vmcs (hw c6_state) VmcsField.kExitQualification) = 1 /\
  decoded_size_of_access (vmcs (hw c6_state) VmcsField.kExitQualification)
  = Some 2 /\
  exists s',
    VmmpHandleIoPort example_env c6_state = Returned tt s' /\
    gp_regs (guest s') si = 0x9000 - 4 * 2 /\
    gp_regs (guest s') di = 0x7777 /\
    gp_regs (guest s') cx = 0.
Proof.
  split; [reflexivity|]. split; [reflexivity|].
  destruct (C6_string_io_moves_index example_env c6_state 2 eq_refl eq_refl)
    as (s' & E & _ & V1 & V2 & V3 & _).
  vm_compute in V1, V2, V3.
  exists s'. split; [exact E|]. split; [exact V1|]. split; [exact V2 | exact V3].
Defined.

(** ** Invariants of handlers

    [keeps I a] is shown by following the structure of [a]: sequencing and
    case distinctions are taken apart, and the intrinsics at the leaves
    keep [I] by a tactic that depends on [I]. *)

Lemma keeps_ret {A} I (x : A) : keeps I (ret x).
Proof. intros s H. exact H. Qed.

Lemma keeps_bind {A B} I (a : M A) (f : A -> M B) :
  keeps I a -> (forall x, keeps I (f x)) -> keeps I (bind a f).
Proof.
  intros Ha Hf s H. unfold bind. specialize (Ha s H).
  destruct (a s) as [x s'| |]; cbn in *; try assumption.
  apply Hf. assumption.
Qed.

Lemma keeps_bug_check {A} I c p1 p2 p3 :
  keeps I (@HYPERPLATFORM_COMMON_BUG_CHECK A c p1 p2 p3).
Proof. intros s H. exact H. Qed.

Lemma keeps_when I c a : keeps I a -> keeps I (when c a).
Proof. intros H. destruct c; [exact H | apply keeps_ret]. Qed.

Lemma keeps_in_string env I :
  (forall size port, keeps I (port_read env size port)) ->
  (forall size a v, keeps I (store size a v)) ->
  forall count size port a, keeps I (in_string env size port a count).
Proof.
  intros Hp Hs. induction count as [|k IH]; intros size port a; cbn [in_string].
  - apply keeps_ret.
  - apply keeps_bind; [apply Hp | intro v].
    apply keeps_bind; [apply Hs | intros _]. apply IH.
Qed.

Lemma keeps_out_string I :
  (forall size a, keeps I (load size a)) ->
  (forall size port v, keeps I (port_write size port v)) ->
  forall count size port a, keeps I (out_string size port a count).
Proof.
  intros Hl Hp. induction count as [|k IH]; intros size port a; cbn [out_string].
  - apply keeps_ret.
  - apply keeps_bind; [apply Hl | intro v].
    apply keeps_bind; [apply Hp | intros _]. apply IH.
Qed.

Ltac keeps_step prim :=
  lazymatch goal with
  | |- keeps _ (bind _ _) => apply keeps_bind; [ | intro ]
  | |- keeps _ (ret _) => apply keeps_ret
  | |- keeps _ (HYPERPLATFORM_COMMON_BUG_CHECK _ _ _ _) => apply keeps_bug_check
  | |- keeps _ (when _ _) => apply keeps_when
  | |- keeps _ (in_string _ _ _ _ _) => apply keeps_in_string; intros
  | |- keeps _ (out_string _ _ _ _) => apply keeps_out_string; intros
  | |- keeps _ (let _ := _ in _) => cbv zeta
  | |- keeps _ ((fun _ => _) _) => cbv beta
  | |- keeps _ (if ?c then _ else _) => destruct c
  | |- keeps _ (match (if ?c then _ else _) with _ => _ end) => destruct c
  | |- keeps _ (match ?x with _ => _ end) => destruct x
  | |- keeps _ ?a =>
      first [ solve [prim]
            | let h := head_of a in progress (unfold h; cbv beta zeta) ]
  end.

Ltac keeps_tac prim := repeat keeps_step prim.

(** The leaf tactic for invariants of the form [view s = v], where the
    intrinsic does not touch what [view] looks at. *)
Ltac prim_eq := let s := fresh in let H := fresh in intros s H; exact H.

Ltac neutral_tac := solve [intro; keeps_tac prim_eq].

(** ** MOV to CR3 (claim C1) *)



(** The dispatcher and every handler leave bit 63 of the guest CR3 field
    clear when they find it clear: the field is written by the MOV to CR3
    only, and with the bit cleared. *)
Lemma VmmVmExitHandler_cr3_bit63 env :
  keeps (fun s => Z.testbit (vmcs (hw s) VmcsField.kGuestCr3) 63 = false)
    (VmmVmExitHandler env).
Proof.
  keeps_tac ltac:(first [prim_eq | intros ? _; apply testbit63_not_bit63]).
Qed.



(** ** Instruction-pointer accounting (claim C4) *)

Lemma once_of_neutral {A} (a : M A) : rip_neutral a -> advances_at_most_once a.
Proof. intros H s. left. apply (H (rip_view s) s). reflexivity. Qed.

Lemma adjust_advances s :
  rip_view (final (VmmpAdjustGuestInstructionPointer s)) = advanced (rip_view s).
Proof.
  unfold VmmpAdjustGuestInstructionPointer. cbn.
  destruct (bit Flag.tf (flag_reg (guest s))); reflexivity.
Qed.

Lemma once_adjust : advances_at_most_once VmmpAdjustGuestInstructionPointer.
Proof. intros s. right. apply adjust_advances. Qed.

Lemma once_bind_prefix {A B} (a : M A) (f : A -> M B) :
  rip_neutral a -> (forall x, advances_at_most_once (f x)) ->
  advances_at_most_once (bind a f).
Proof.
  intros Ha Hf s. unfold bind.
  pose proof (Ha (rip_view s) s eq_refl) as E.
  destruct (a s) as [x s'| |]; cbn in *; auto.
  rewrite <- E. apply Hf.
Qed.

Ltac once_step :=
  lazymatch goal with
  | |- advances_at_most_once VmmpAdjustGuestInstructionPointer =>
      apply once_adjust
  | |- advances_at_most_once (bind _ _) =>
      apply once_bind_prefix; [ neutral_tac | intro ]
  | |- advances_at_most_once (let _ := _ in _) => cbv zeta
  | |- advances_at_most_once ((fun _ => _) _) => cbv beta
  | |- advances_at_most_once (if ?c then _ else _) => destruct c
  | |- advances_at_most_once (match (if ?c then _ else _) with _ => _ end) =>
      destruct c
  | |- advances_at_most_once (match ?x with _ => _ end) => destruct x
  | |- advances_at_most_once ?a =>
      first [ apply once_of_neutral; neutral_tac
            | let h := head_of a in progress (unfold h; cbv beta zeta) ]
  end.

Ltac once_tac := repeat once_step.

(** Whatever the exit reason, the dispatched handler writes the guest
    instruction pointer at most once, and then with the instruction pointer
    of the exit plus the instruction length. *)
Lemma VmmpHandleVmExit_advances_at_most_once env :
  advances_at_most_once (VmmpHandleVmExit env).
Proof. once_tac. Qed.



(** ** The frame of the dispatcher (claim C9) *)

(** Runs the intrinsics in front of the call of the dispatcher. *)
Ltac wlp_prim := apply wlp_bind; apply wlp_of_wp; wp_run.

Ltac wlp_prefix :=
  repeat lazymatch goal with
         | |- wlp (bind (VmmpHandleVmExit _) _) _ _ => fail
         | |- wlp (bind _ _) _ _ => wlp_prim
         end.








(** ** The guest-memory window (claim C8) *)


Lemma effective_address_before_window info d c g L F :
  keeps (before_window c g L F) (effective_address info d).
Proof. keeps_tac prim_eq. Qed.















(** ** The descriptor-table emulators always return *)

Lemma total_ret {A} (x : A) (V : A -> Prop) : V x -> total (ret x) V.
Proof. intros H s. exact H. Qed.

Lemma total_bind {A B} (a : M A) (f : A -> M B) (V : A -> Prop) W :
  total a V -> (forall x, V x -> total (f x) W) -> total (bind a f) W.
Proof.
  intros Ha Hf s. apply wp_bind. eapply wp_mono; [apply Ha|].
  intros x s' Hx. apply (Hf x Hx).
Qed.

Lemma total_weaken {A} (a : M A) (V W : A -> Prop) :
  total a V -> (forall x, V x -> W x) -> total a W.
Proof. intros Ha HVW s. eapply wp_mono; [apply Ha|]. intros x s'. apply HVW. Qed.

Lemma total_select lo x :
  total (VmmpSelectRegister (bits lo 4 x)) (fun r => exists r', r = Some r').
Proof.
  destruct (VmmpSelectRegister_bits lo x) as [r E]. rewrite E.
  apply total_ret. exists r. reflexivity.
Qed.

Ltac prim_total :=
  let s := fresh in
  intros s; wp_seq; lazymatch goal with |- True => exact I end.

Ltac total_step :=
  lazymatch goal with
  | |- total (bind (VmmpSelectRegister (bits _ 4 _)) _) _ =>
      eapply total_bind; [apply total_select | intros ? [? ->]]
  | |- total (bind _ _) _ =>
      apply total_bind with (V := fun _ => True); [ | intros ? _]
  | |- total (ret _) _ => apply total_ret; exact I
  | |- total (let _ := _ in _) _ => cbv zeta
  | |- total ((fun _ => _) _) _ => cbv beta
  | |- total (if ?c then _ else _) _ => destruct c
  | |- total (match (if ?c then _ else _) with _ => _ end) _ => destruct c
  | |- total (match ?x with _ => _ end) _ => destruct x
  | |- total ?a _ =>
      first [ solve [prim_total]
            | let h := head_of a in progress (unfold h; cbv beta zeta) ]
  end.

Ltac total_tac := repeat total_step.

Lemma effective_address_total info d :
  total (effective_address info d) (fun _ => True).
Proof. total_tac. Qed.

Lemma read_through_total size p :
  valid_pointer p -> total (read_through size p) (fun _ => True).
Proof. destruct p as [r|a]; [intros [r' ->]|intros _]; total_tac. Qed.

Lemma write_through_total size p v :
  valid_pointer p -> total (write_through size p v) (fun _ => True).
Proof. destruct p as [r|a]; [intros [r' ->]|intros _]; total_tac. Qed.

Lemma VmmpHandleGdtrOrIdtrAccess_total :
  total VmmpHandleGdtrOrIdtrAccess (fun _ => True).
Proof. total_tac. Qed.

Lemma VmmpHandleLdtrOrTrAccess_total :
  total VmmpHandleLdtrOrTrAccess (fun _ => True).
Proof.
  unfold VmmpHandleLdtrOrTrAccess.
  apply total_bind with (V := fun _ => True); [total_tac | intros info _].
  cbv zeta.
  apply total_bind with (V := fun _ => True); [total_tac | intros d _].
  apply total_bind with (V := valid_pointer).
  - destruct (bits 10 1 (wrap32 info) =? 1).
    + eapply total_bind; [apply total_select | intros r Hr].
      apply total_ret. exact Hr.
    + eapply total_bind; [apply effective_address_total | intros a _].
      apply total_ret. exact I.
  - intros p Hp.
    pose proof (read_through_total 2 p Hp) as Rd.
    pose proof (fun v => write_through_total 2 p v Hp) as Wr.
    apply total_bind with (V := fun _ => True); [total_tac | intros g _].
    apply total_bind with (V := fun _ => True); [total_tac | intros c _].
    apply total_bind with (V := fun _ => True); [total_tac | intros _ _].
    apply total_bind with (V := fun _ => True); [|intros ? _; total_tac].
    destruct (bits 28 2 (wrap32 info)) as [|[[]|[]|]|];
      repeat first
        [ apply Rd | apply Wr
        | apply total_bind with (V := fun _ => True); [|intros ? _]
        | total_step ].
Qed.









(** * Further properties of the handlers *)

(** ** More on bit-fields *)

Lemma testbit_bits lo n x i :
  0 <= lo -> 0 <= n -> 0 <= i ->
  Z.testbit (bits lo n x) i = Z.testbit x (i + lo) && (i <? n).
Proof.
  intros Hlo Hn Hi. unfold bits.
  rewrite Z.land_spec, Z.shiftr_spec by assumption.
  rewrite Z.testbit_ones by assumption.
  destruct (Z.leb_spec 0 i); [reflexivity | lia].
Qed.

Lemma testbit_set_bits lo n v x i :
  0 <= lo -> 0 <= n -> 0 <= i ->
  Z.testbit (set_bits lo n v x) i =
  if (lo <=? i) && (i <? lo + n) then Z.testbit v (i - lo) else Z.testbit x i.
Proof.
  intros Hlo Hn Hi. unfold set_bits.
  rewrite Z.lor_spec, Z.ldiff_spec, !Z.shiftl_spec by assumption.
  rewrite Z.land_spec, !Z.testbit_ones by assumption.
  destruct (Z.leb_spec lo i), (Z.ltb_spec i (lo + n)),
    (Z.leb_spec 0 (i - lo)), (Z.ltb_spec (i - lo) n); try lia; cbn;
    rewrite ?(Z.testbit_neg_r v) by lia;
    rewrite ?andb_false_r, ?andb_true_r, ?orb_false_r; try reflexivity.
Qed.

Lemma bits_set_bits_same lo n v x :
  0 <= lo -> 0 <= n -> bits lo n (set_bits lo n v x) = bits 0 n v.
Proof.
  intros Hlo Hn. apply Z.bits_inj'. intros i Hi.
  rewrite !testbit_bits by lia.
  destruct (Z.ltb_spec i n); [|rewrite !andb_false_r; reflexivity].
  rewrite testbit_set_bits by lia.
  destruct (Z.leb_spec lo (i + lo)), (Z.ltb_spec (i + lo) (lo + n)); try lia.
  cbn [andb]. f_equal. f_equal. lia.
Qed.

Lemma bits_set_bits_other lo n lo' n' v x :
  0 <= lo -> 0 <= n -> 0 <= lo' -> 0 <= n' ->
  lo' + n' <= lo \/ lo + n <= lo' ->
  bits lo' n' (set_bits lo n v x) = bits lo' n' x.
Proof.
  intros Hlo Hn Hlo' Hn' D. apply Z.bits_inj'. intros i Hi.
  rewrite !testbit_bits by lia.
  destruct (Z.ltb_spec i n'); [|rewrite !andb_false_r; reflexivity].
  rewrite testbit_set_bits by lia.
  destruct (Z.leb_spec lo (i + lo')), (Z.ltb_spec (i + lo') (lo + n)); try lia;
    reflexivity.
Qed.

Lemma bit_set_bit_same i b x : 0 <= i -> bit i (set_bit i b x) = b.
Proof.
  intros Hi. unfold bit, set_bit. rewrite testbit_set_bits by lia.
  destruct (Z.leb_spec i i), (Z.ltb_spec i (i + 1)); try lia. cbn [andb].
  rewrite Z.sub_diag. destruct b; reflexivity.
Qed.

Lemma bit_set_bit_other i j b x :
  0 <= i -> 0 <= j -> i <> j -> bit j (set_bit i b x) = bit j x.
Proof.
  intros Hi Hj D. unfold bit, set_bit. rewrite testbit_set_bits by lia.
  destruct (Z.leb_spec i j), (Z.ltb_spec j (i + 1)); try lia; reflexivity.
Qed.

Lemma bit_set_bits_other lo n v x j :
  0 <= lo -> 0 <= n -> 0 <= j -> j < lo \/ lo + n <= j ->
  bit j (set_bits lo n v x) = bit j x.
Proof.
  intros Hlo Hn Hj D. unfold bit. rewrite testbit_set_bits by lia.
  destruct (Z.leb_spec lo j), (Z.ltb_spec j (lo + n)); try lia; reflexivity.
Qed.

Lemma bits_small n x : 0 <= n -> 0 <= x < 2 ^ n -> bits 0 n x = x.
Proof.
  intros Hn Hx. unfold bits. rewrite Z.shiftr_0_r, Z.land_ones by assumption.
  apply Z.mod_small. assumption.
Qed.

Lemma bits_0_wrap32 x : bits 0 32 x = wrap32 x.
Proof. unfold bits, wrap32. rewrite Z.shiftr_0_r, Z.land_ones by lia. reflexivity. Qed.

(** ** Event injection *)

(** The fields of the entry-interruption information, read back. *)
Lemma interruption_info_fields interruption_type vector d :
  0 <= interruption_type < 8 ->
  0 <= vector < 256 ->
  bits 0 8 (interruption_info interruption_type vector d) = vector /\
  bits 8 3 (interruption_info interruption_type vector d) = interruption_type /\
  bit 11 (interruption_info interruption_type vector d) = d /\
  bit 31 (interruption_info interruption_type vector d) = true /\
  bits 12 19 (interruption_info interruption_type vector d) = 0.
Proof.
  intros Ht Hv. unfold interruption_info. cbv zeta. repeat split.
  - unfold set_bit.
    rewrite bits_set_bits_other, bits_set_bits_same by lia.
    apply bits_small; lia.
  - unfold set_bit.
    rewrite !bits_set_bits_other, bits_set_bits_same by lia.
    apply bits_small; lia.
  - apply bit_set_bit_same. lia.
  - rewrite bit_set_bit_other, !bit_set_bits_other by lia.
    apply bit_set_bit_same. lia.
  - unfold set_bit. rewrite !bits_set_bits_other by lia. reflexivity.
Qed.

(** X1.  [VmmpInjectInterruption] returns with an entry-interruption
    information field that decodes to what was asked for: for a type below
    8 and a vector below 256, bits 0..7 are the vector, bits 8..10 the type,
    bit 11 the deliver-error-code flag, bit 31 (valid) is set and bits
    12..30 are clear.  The error-code field is written exactly when an error
    code is delivered; no other field and nothing of the guest context
    changes. *)
Theorem X1_injection_encodes_event interruption_type vector deliver_error_code
    error_code s :
  0 <= interruption_type < 8 ->
  0 <= vector < 256 ->
  exists s',
    VmmpInjectInterruption interruption_type vector deliver_error_code
      error_code s = Returned tt s' /\
    bits 0 8 (vmcs (hw s') VmcsField.kVmEntryIntrInfoField) = vector /\
    bits 8 3 (vmcs (hw s') VmcsField.kVmEntryIntrInfoField) = interruption_type /\
    bit 11 (vmcs (hw s') VmcsField.kVmEntryIntrInfoField) = deliver_error_code /\
    bit 31 (vmcs (hw s') VmcsField.kVmEntryIntrInfoField) = true /\
    bits 12 19 (vmcs (hw s') VmcsField.kVmEntryIntrInfoField) = 0 /\
    vmcs (hw s') VmcsField.kVmEntryExceptionErrorCode
    = (if deliver_error_code then error_code
       else vmcs (hw s) VmcsField.kVmEntryExceptionErrorCode) /\
    (forall f, f <> VmcsField.kVmEntryIntrInfoField ->
               f <> VmcsField.kVmEntryExceptionErrorCode ->
               vmcs (hw s') f = vmcs (hw s) f) /\
    guest s' = guest s.
Proof.
  intros Ht Hv.
  apply wp_returned_unit. unfold VmmpInjectInterruption.
  destruct (interruption_info_fields interruption_type vector
              deliver_error_code Ht Hv) as (E1 & E2 & E3 & E4 & E5).
  destruct deliver_error_code; wp_run; unfold upd; cbn;
    (repeat split; try assumption; try reflexivity);
    intros f H1 H2;
    repeat match goal with
           | |- context [f =? ?k] => destruct (Z.eqb_spec f k); [contradiction|]
           end; reflexivity.
Qed.

Lemma X1_injection_encodes_event_witness :
  0 <= InterruptionType.kHardwareException < 8 /\
  0 <= InterruptionVector.kGeneralProtectionException < 256 /\
  exists s',
    VmmpInjectInterruption InterruptionType.kHardwareException
      InterruptionVector.kGeneralProtectionException true 0x6A plain_state
    = Returned tt s' /\
    bits 0 8 (vmcs (hw s') VmcsField.kVmEntryIntrInfoField) = 13 /\
    bits 8 3 (vmcs (hw s') VmcsField.kVmEntryIntrInfoField) = 3 /\
    vmcs (hw s') VmcsField.kVmEntryExceptionErrorCode = 0x6A.
Proof.
  assert (Ht : 0 <= InterruptionType.kHardwareException < 8)
    by (unfold InterruptionType.kHardwareException; lia).
  assert (Hv : 0 <= InterruptionVector.kGeneralProtectionException < 256)
    by (unfold InterruptionVector.kGeneralProtectionException; lia).
  split; [exact Ht|]. split; [exact Hv|].
  destruct (X1_injection_encodes_event InterruptionType.kHardwareException
              InterruptionVector.kGeneralProtectionException true 0x6A
              plain_state Ht Hv)
    as (s' & E & V & T & _ & _ & _ & C & _).
  exists s'. split; [exact E|]. split; [exact V|]. split; [exact T | exact C].
Defined.

(** ** Exceptions *)

Lemma bind_returned {A B} (a : M A) (f : A -> M B) s x s1 :
  a s = Returned x s1 -> bind a f s = f x s1.
Proof. intros E. unfold bind. rewrite E. reflexivity. Qed.

(** X2.  An exception exit is either passed on to the guest or fatal.  For
    #PF and #GP (hardware exceptions) and #BP (software exception) the
    handler returns after injecting an event of the same type and vector;
    the hardware exceptions carry the exit's error code (low 32 bits), #PF
    also copies the faulting address to CR2, and #BP copies the instruction
    length to the entry-instruction-length field.  The guest instruction
    pointer is not written and the guest context is unchanged.  Every other
    exception ends in the bug check [kUnspecified] with no field written. *)
Theorem X2_exception_reflected_or_fatal s :
  if reflected_exception s then
    exists s',
      VmmpHandleException s = Returned tt s' /\
      bits 0 8 (vmcs (hw s') VmcsField.kVmEntryIntrInfoField) = exit_vector s /\
      bits 8 3 (vmcs (hw s') VmcsField.kVmEntryIntrInfoField)
      = exit_interruption_type s /\
      bit 31 (vmcs (hw s') VmcsField.kVmEntryIntrInfoField) = true /\
      bit 11 (vmcs (hw s') VmcsField.kVmEntryIntrInfoField)
      = (exit_interruption_type s =? InterruptionType.kHardwareException) /\
      (exit_interruption_type s = InterruptionType.kHardwareException ->
       vmcs (hw s') VmcsField.kVmEntryExceptionErrorCode
       = wrap32 (vmcs (hw s) VmcsField.kVmExitIntrErrorCode)) /\
      hw_cr2 (hw s')
      = (if exit_vector s =? InterruptionVector.kPageFaultException
         then vmcs (hw s) VmcsField.kExitQualification
         else hw_cr2 (hw s)) /\
      (exit_interruption_type s = InterruptionType.kSoftwareException ->
       vmcs (hw s') VmcsField.kVmEntryInstructionLen
       = vmcs (hw s) VmcsField.kVmExitInstructionLen) /\
      rip_view s' = rip_view s /\
      guest s' = guest s
  else
    exists s',
      VmmpHandleException s = BugCheck kUnspecified 0 0 0 s' /\
      vmcs (hw s') = vmcs (hw s) /\
      guest s' = guest s.
Proof.
  unfold reflected_exception, exit_interruption_type, exit_vector.
  set (type := bits 8 3 (wrap32 (vmcs (hw s) VmcsField.kVmExitIntrInfo))).
  set (vector := bits 0 8 (wrap32 (vmcs (hw s) VmcsField.kVmExitIntrInfo))).
  assert (Ht : 0 <= type < 8) by (apply (bits_range 8 3); lia).
  assert (Hv : 0 <= vector < 256) by (apply (bits_range 0 8); lia).
  unfold VmmpHandleException.
  erewrite bind_returned by reflexivity.
  cbv zeta. cbn [hw vmcs add_log guest]. fold type vector.
  destruct (interruption_info_fields type vector true Ht Hv)
    as (T1 & T2 & T3 & T4 & _).
  destruct (interruption_info_fields type vector false Ht Hv)
    as (F1 & F2 & F3 & F4 & _).
  destruct (type =? InterruptionType.kHardwareException) eqn:Eh.
  - apply Z.eqb_eq in Eh.
    assert (Es : (type =? InterruptionType.kSoftwareException) = false)
      by (rewrite Eh; reflexivity).
    rewrite Es. cbn [andb orb].
    destruct (vector =? InterruptionVector.kPageFaultException) eqn:Ep;
      [|destruct (vector =? InterruptionVector.kGeneralProtectionException)
          eqn:Eg]; cbn [orb].
    + apply wp_returned_unit. wp_run. unfold upd; cbn.
      repeat split; try assumption; try reflexivity.
      intros C. apply Z.eqb_neq in Es. contradiction.
    + apply wp_returned_unit. wp_run. unfold upd; cbn.
      repeat split; try assumption; try reflexivity.
      intros C. apply Z.eqb_neq in Es. contradiction.
    + eexists. split; [reflexivity|]. split; reflexivity.
  - cbn [andb orb].
    destruct (type =? InterruptionType.kSoftwareException) eqn:Es; cbn [andb].
    + destruct (vector =? InterruptionVector.kBreakpointException) eqn:Eb.
      * apply wp_returned_unit. wp_run. unfold upd; cbn.
        assert (Ep : (vector =? InterruptionVector.kPageFaultException) = false).
        { apply Z.eqb_eq in Eb. rewrite Eb. reflexivity. }
        rewrite Ep.
        repeat split; try assumption; try reflexivity.
        intros C. apply Z.eqb_neq in Eh. contradiction.
      * eexists. split; [reflexivity|]. split; reflexivity.
    + eexists. split; [reflexivity|]. split; reflexivity.
Qed.

(** ** CPUID, RDTSC, RDTSCP *)

(** X3.  CPUID of a leaf other than 0 executes the host's CPUID once, for
    the guest's EAX and ECX, and returns the host's answer: RAX, RBX and
    RDX are its EAX, EBX and EDX zero-extended, and RCX is its ECX
    zero-extended, for leaf 1 with bit 31 cleared and every other bit as
    the host gave it.  No other register changes, and the guest instruction
    pointer is advanced. *)
Theorem X3_cpuid_passes_through env s :
  wrap32 (gp_regs (guest s) ax) <> 0 ->
  exists s' i0 i1 i2 i3,
    cpuidex env (wrap32 (gp_regs (guest s) ax)) (wrap32 (gp_regs (guest s) cx))
    = (i0, i1, i2, i3) /\
    VmmpHandleCpuid env s = Returned tt s' /\
    gp_regs (guest s') ax = wrap32 i0 /\
    gp_regs (guest s') bx = wrap32 i1 /\
    gp_regs (guest s') dx = wrap32 i3 /\
    gp_regs (guest s') cx
    = (if wrap32 (gp_regs (guest s) ax) =? 1
       then set_bit 31 false (wrap32 i2) else wrap32 i2) /\
    (forall j, 0 <= j -> j <> 31 ->
       bit j (gp_regs (guest s') cx) = bit j (wrap32 i2)) /\
    (forall r, r <> ax -> r <> bx -> r <> cx -> r <> dx ->
       gp_regs (guest s') r = gp_regs (guest s) r) /\
    filter (fun e => match e with EvCpuid _ _ => true | _ => false end)
      (log (hw s'))
    = EvCpuid (wrap32 (gp_regs (guest s) ax)) (wrap32 (gp_regs (guest s) cx))
      :: filter (fun e => match e with EvCpuid _ _ => true | _ => false end)
           (log (hw s)) /\
    vmcs (hw s') VmcsField.kGuestRip = next_ip s.
Proof.
  intros H.
  destruct (cpuidex env (wrap32 (gp_regs (guest s) ax))
              (wrap32 (gp_regs (guest s) cx))) as [[[i0 i1] i2] i3] eqn:Ec.
  assert (G : wp (VmmpHandleCpuid env) (fun _ s' =>
    gp_regs (guest s') ax = wrap32 i0 /\
    gp_regs (guest s') bx = wrap32 i1 /\
    gp_regs (guest s') dx = wrap32 i3 /\
    gp_regs (guest s') cx
    = (if wrap32 (gp_regs (guest s) ax) =? 1
       then set_bit 31 false (wrap32 i2) else wrap32 i2) /\
    (forall r, r <> ax -> r <> bx -> r <> cx -> r <> dx ->
       gp_regs (guest s') r = gp_regs (guest s) r) /\
    filter (fun e => match e with EvCpuid _ _ => true | _ => false end)
      (log (hw s'))
    = EvCpuid (wrap32 (gp_regs (guest s) ax)) (wrap32 (gp_regs (guest s) cx))
      :: filter (fun e => match e with EvCpuid _ _ => true | _ => false end)
           (log (hw s)) /\
    vmcs (hw s') VmcsField.kGuestRip = next_ip s) s).
  { unfold VmmpHandleCpuid. wp_seq. rewrite Ec.
    apply Z.eqb_neq in H. rewrite H.
    unfold VmmpAdjustGuestInstructionPointer, next_ip.
    wp_run; (repeat split; try reflexivity);
      intros r Ha Hb Hc Hd; destruct r; try contradiction; reflexivity. }
  apply wp_returned_unit in G.
  destruct G as (s' & E & Va & Vb & Vd & Vc & Fr & L & R).
  exists s', i0, i1, i2, i3.
  repeat (split; [assumption || reflexivity|]).
  split; [|split; [exact Fr | split; [exact L | exact R]]].
  intros j Hj Hn. rewrite Vc.
  destruct (wrap32 (gp_regs (guest s) ax) =? 1); [|reflexivity].
  apply bit_set_bit_other; lia.
Qed.

Lemma X3_cpuid_passes_through_witness :
  wrap32 (gp_regs (guest cpuid_leaf7_state) ax) <> 0 /\
  exists s',
    VmmpHandleCpuid example_env cpuid_leaf7_state = Returned tt s' /\
    gp_regs (guest s') ax = 0x16 /\
    gp_regs (guest s') cx = 0xFFFAF38B /\
    gp_regs (guest s') si = 0x55.
Proof.
  assert (H : wrap32 (gp_regs (guest cpuid_leaf7_state) ax) <> 0)
    by (vm_compute; discriminate).
  split; [exact H|].
  destruct (X3_cpuid_passes_through example_env cpuid_leaf7_state H)
    as (s' & i0 & i1 & i2 & i3 & Ec & E & Va & _ & _ & Vc & _ & Fr & _).
  injection Ec as <- <- <- <-.
  exists s'. split; [exact E|]. split; [exact Va|]. split; [exact Vc|].
  rewrite Fr by discriminate. reflexivity.
Defined.

Lemma split_halves x :
  0 <= x < 2 ^ 64 -> bits 0 32 x + 2 ^ 32 * bits 32 32 x = x.
Proof.
  intros Hx. unfold bits.
  rewrite Z.shiftr_0_r, !Z.land_ones, Z.shiftr_div_pow2 by lia.
  rewrite (Z.mod_small (x / 2 ^ 32)).
  - symmetry. rewrite Z.add_comm. apply Z.div_mod. lia.
  - split; [apply Z.div_pos; lia|].
    apply Z.div_lt_upper_bound; lia.
Qed.

Lemma wrap64_range x : 0 <= wrap64 x < 2 ^ 64.
Proof. unfold wrap64. apply Z.mod_pos_bound. lia. Qed.

(** X4.  RDTSC and RDTSCP hand the host's time-stamp counter to the guest
    split into halves: EAX and EDX are below 2^32 and recombine to the
    64-bit counter, RDTSCP also puts the 32-bit auxiliary value into RCX.
    No other register changes and the guest instruction pointer is
    advanced. *)
Theorem X4_rdtsc_splits_counter env s :
  (exists s',
     VmmpHandleRdtsc env s = Returned tt s' /\
     0 <= gp_regs (guest s') ax < 2 ^ 32 /\
     0 <= gp_regs (guest s') dx < 2 ^ 32 /\
     gp_regs (guest s') ax + 2 ^ 32 * gp_regs (guest s') dx
     = wrap64 (rdtsc env) /\
     (forall r, r <> ax -> r <> dx ->
        gp_regs (guest s') r = gp_regs (guest s) r) /\
     vmcs (hw s') VmcsField.kGuestRip = next_ip s) /\
  (exists s',
     VmmpHandleRdtscp env s = Returned tt s' /\
     0 <= gp_regs (guest s') ax < 2 ^ 32 /\
     0 <= gp_regs (guest s') dx < 2 ^ 32 /\
     gp_regs (guest s') ax + 2 ^ 32 * gp_regs (guest s') dx
     = wrap64 (fst (rdtscp env)) /\
     gp_regs (guest s') cx = wrap32 (snd (rdtscp env)) /\
     (forall r, r <> ax -> r <> dx -> r <> cx ->
        gp_regs (guest s') r = gp_regs (guest s) r) /\
     vmcs (hw s') VmcsField.kGuestRip = next_ip s).
Proof.
  split; apply wp_returned_unit.
  - unfold VmmpHandleRdtsc, VmmpAdjustGuestInstructionPointer, next_ip.
    wp_run;
      (split; [apply bits_range; lia|]);
      (split; [apply bits_range; lia|]);
      (split; [apply split_halves, wrap64_range|]);
      (split; [|reflexivity]);
      intros r Ha Hd; destruct r; try contradiction; reflexivity.
  - unfold VmmpHandleRdtscp, VmmpAdjustGuestInstructionPointer, next_ip.
    wp_run;
      (split; [apply bits_range; lia|]);
      (split; [apply bits_range; lia|]);
      (split; [apply split_halves, wrap64_range|]);
      (split; [reflexivity|]);
      (split; [|reflexivity]);
      intros r Ha Hd Hc; destruct r; try contradiction; reflexivity.
Qed.

(** ** Bytes in memory *)

Lemma bits_split lo n m x :
  0 <= lo -> 0 <= n -> 0 <= m ->
  bits lo (n + m) x = bits lo n x + 2 ^ n * bits (lo + n) m x.
Proof.
  intros Hlo Hn Hm. unfold bits.
  rewrite !Z.land_ones by lia.
  rewrite <- Z.shiftr_shiftr by lia.
  rewrite (Z.shiftr_div_pow2 (Z.shiftr x lo) n) by lia.
  rewrite Z.pow_add_r by lia.
  apply Z.rem_mul_r; [|apply Z.pow_pos_nonneg]; lia.
Qed.

(** Loading inside what has just been stored returns the stored bytes. *)
Lemma load_store_bytes_at a size v f k : forall i,
  0 <= i -> i + Z.of_nat k <= size ->
  load_bytes (store_bytes a size v f) (a + i) k
  = bits (8 * i) (8 * Z.of_nat k) v.
Proof.
  induction k as [|k IH]; intros i Hi Hk.
  - cbn [load_bytes]. unfold bits. change (Z.ones (8 * Z.of_nat 0)) with 0.
    rewrite Z.land_0_r. reflexivity.
  - cbn [load_bytes].
    replace (a + i + 1) with (a + (i + 1)) by lia.
    rewrite IH by lia.
    unfold store_bytes at 1.
    destruct (Z.leb_spec a (a + i)), (Z.ltb_spec (a + i) (a + size)); try lia.
    cbn [andb]. replace (a + i - a) with i by lia.
    unfold wrap8. rewrite Z.mod_small by (apply bits_range; lia).
    replace (8 * Z.of_nat (S k)) with (8 + 8 * Z.of_nat k) by lia.
    rewrite (bits_split (8 * i) 8) by lia.
    replace (8 * (i + 1)) with (8 * i + 8) by lia. reflexivity.
Qed.

Lemma load_store_bytes a size v f :
  0 <= size ->
  load_bytes (store_bytes a size v f) a (Z.to_nat size) = bits 0 (8 * size) v.
Proof.
  intros H. replace a with (a + 0) at 2 by lia.
  rewrite load_store_bytes_at by lia.
  rewrite Z2Nat.id by lia. reflexivity.
Qed.

Lemma store_bytes_outside a size v f x :
  x < a \/ a + size <= x -> store_bytes a size v f x = f x.
Proof.
  intros H. unfold store_bytes.
  destruct (Z.leb_spec a x), (Z.ltb_spec x (a + size)); try lia; reflexivity.
Qed.

(** Loading bytes that a store did not touch. *)
Lemma load_bytes_ext f g k : forall a,
  (forall x, a <= x < a + Z.of_nat k -> f x = g x) ->
  load_bytes f a k = load_bytes g a k.
Proof.
  induction k as [|k IH]; intros a H; cbn [load_bytes]; [reflexivity|].
  rewrite (H a) by lia. rewrite (IH (a + 1)); [reflexivity|].
  intros x Hx. apply H. lia.
Qed.

(** ** The flags of the VMX conventions *)

Lemma clear_status_flags_spec flags :
  (forall j, In j status_flags -> bit j (clear_status_flags flags) = false) /\
  (forall j, 0 <= j -> ~ In j status_flags ->
     bit j (clear_status_flags flags) = bit j flags).
Proof.
  unfold status_flags, clear_status_flags, Flag.cf, Flag.pf, Flag.af, Flag.zf,
    Flag.sf, Flag.of_. cbv zeta. split.
  - intros j Hj. cbn in Hj.
    repeat (destruct Hj as [<- | Hj];
            [repeat first [ apply bit_set_bit_same; lia
                          | rewrite bit_set_bit_other by lia ] |]).
    contradiction.
  - intros j Hj Hn. cbn in Hn.
    rewrite !bit_set_bit_other by lia. reflexivity.
Qed.

(** X5.  A VMX instruction other than VMCALL fails in the guest without an
    error status: the handler returns with CF set and PF, AF, ZF, SF and OF
    clear, every other flag as it was, the same flags in the guest RFLAGS
    field, the registers unchanged and the instruction pointer advanced. *)
Theorem X5_vmx_instruction_fails s :
  exists s',
    VmmpHandleVmx s = Returned tt s' /\
    bit Flag.cf (flag_reg (guest s')) = true /\
    bit Flag.pf (flag_reg (guest s')) = false /\
    bit Flag.af (flag_reg (guest s')) = false /\
    bit Flag.zf (flag_reg (guest s')) = false /\
    bit Flag.sf (flag_reg (guest s')) = false /\
    bit Flag.of_ (flag_reg (guest s')) = false /\
    (forall j, 0 <= j -> ~ In j status_flags ->
       bit j (flag_reg (guest s')) = bit j (flag_reg (guest s))) /\
    vmcs (hw s') VmcsField.kGuestRflags = flag_reg (guest s') /\
    gp_regs (guest s') = gp_regs (guest s) /\
    vmcs (hw s') VmcsField.kGuestRip = next_ip s.
Proof.
  apply wp_returned_unit.
  unfold VmmpHandleVmx, VmmpAdjustGuestInstructionPointer, next_ip.
  unfold status_flags, Flag.cf, Flag.pf, Flag.af, Flag.zf, Flag.sf, Flag.of_.
  wp_run;
    (repeat split; try reflexivity;
     [ rewrite !bit_set_bit_other by lia; apply bit_set_bit_same; lia
     | rewrite !bit_set_bit_other by lia; apply bit_set_bit_same; lia
     | rewrite !bit_set_bit_other by lia; apply bit_set_bit_same; lia
     | rewrite !bit_set_bit_other by lia; apply bit_set_bit_same; lia
     | rewrite !bit_set_bit_other by lia; apply bit_set_bit_same; lia
     | apply bit_set_bit_same; lia
     | intros j Hj Hn; cbn in Hn; rewrite !bit_set_bit_other by lia;
       reflexivity ]).
Qed.

(** ** Hypercalls that succeed *)

Lemma bits_0_wrap64 x : bits 0 64 x = wrap64 x.
Proof.
  unfold bits, wrap64. rewrite Z.shiftr_0_r, Z.land_ones by lia. reflexivity.
Qed.

(** X6.  The ping hypercall succeeds and does nothing else: the handler
    returns with the six status flags clear, every other flag as it was,
    the same flags in the guest RFLAGS field and the instruction pointer
    advanced; the registers, the verdict, memory and the MSRs are
    unchanged. *)
Theorem X6_vmcall_ping_succeeds env s :
  HypercallNumber_well_formed env ->
  HypercallNumber_distinct env ->
  hypercall_number_of s = kPingVmm env ->
  exists s',
    VmmpHandleVmCall env s = Returned tt s' /\
    (forall j, In j status_flags -> bit j (flag_reg (guest s')) = false) /\
    (forall j, 0 <= j -> ~ In j status_flags ->
       bit j (flag_reg (guest s')) = bit j (flag_reg (guest s))) /\
    vmcs (hw s') VmcsField.kGuestRflags = flag_reg (guest s') /\
    vmcs (hw s') VmcsField.kGuestRip = next_ip s /\
    gp_regs (guest s') = gp_regs (guest s) /\
    vm_continue (guest s') = vm_continue (guest s) /\
    mem (hw s') = mem (hw s) /\
    msrs (hw s') = msrs (hw s).
Proof.
  intros (W1 & W2 & W3) (D1 & D2 & D3) H. unfold hypercall_number_of in H.
  destruct (clear_status_flags_spec (flag_reg (guest s))) as [C1 C2].
  apply wp_returned_unit. unfold VmmpHandleVmCall.
  wp_seq. rewrite H, W2. cbn [negb].
  rewrite (proj2 (Z.eqb_neq _ _) (not_eq_sym D1)), Z.eqb_refl.
  unfold VmmpIndicateSuccessfulVmcall, VmmpAdjustGuestInstructionPointer,
    next_ip.
  wp_run; repeat split; try reflexivity; assumption.
Qed.

Lemma X6_vmcall_ping_succeeds_witness :
  HypercallNumber_well_formed example_env /\
  HypercallNumber_distinct example_env /\
  hypercall_number_of ping_state = kPingVmm example_env /\
  exists s',
    VmmpHandleVmCall example_env ping_state = Returned tt s' /\
    bit Flag.cf (flag_reg (guest s')) = false /\
    bit Flag.zf (flag_reg (guest s')) = false /\
    bit Flag.df (flag_reg (guest s')) = true /\
    vmcs (hw s') VmcsField.kGuestRip = 0xfffff80000001003 /\
    gp_regs (guest s') bx = 0x77.
Proof.
  assert (W : HypercallNumber_well_formed example_env)
    by (repeat split; reflexivity).
  assert (D : HypercallNumber_distinct example_env)
    by (repeat split; discriminate).
  assert (H : hypercall_number_of ping_state = kPingVmm example_env)
    by reflexivity.
  split; [exact W|]. split; [exact D|]. split; [exact H|].
  destruct (X6_vmcall_ping_succeeds example_env ping_state W D H)
    as (s' & E & C & K & _ & R & G & _).
  exists s'. split; [exact E|].
  split; [apply C; cbn; tauto|].
  split; [apply C; cbn; tauto|].
  split; [rewrite K; [reflexivity | discriminate | cbn; intuition discriminate]|].
  split; [rewrite R; reflexivity|]. rewrite G. reflexivity.
Defined.

(** X7.  The query for the shared processor data stores the eight bytes of
    the [shared_data] pointer at the address in the guest's RDX, through
    the address-space root that is loaded when the handler runs, and
    changes no other byte of memory; it then reports success: the status
    flags are clear, the registers unchanged and the instruction pointer
    advanced. *)
Theorem X7_vmcall_shared_data env s :
  HypercallNumber_well_formed env ->
  HypercallNumber_distinct env ->
  hypercall_number_of s = kGetSharedProcessorData env ->
  exists s',
    VmmpHandleVmCall env s = Returned tt s' /\
    load_bytes (mem (hw s') (hw_cr3 (hw s))) (gp_regs (guest s) dx) 8
    = wrap64 (shared_data (proc_data (hw s) (processor_data (guest s)))) /\
    (forall root a,
       root <> hw_cr3 (hw s) \/
       a < gp_regs (guest s) dx \/ gp_regs (guest s) dx + 8 <= a ->
       mem (hw s') root a = mem (hw s) root a) /\
    hw_cr3 (hw s') = hw_cr3 (hw s) /\
    (forall j, In j status_flags -> bit j (flag_reg (guest s')) = false) /\
    vmcs (hw s') VmcsField.kGuestRflags = flag_reg (guest s') /\
    vmcs (hw s') VmcsField.kGuestRip = next_ip s /\
    gp_regs (guest s') = gp_regs (guest s) /\
    vm_continue (guest s') = vm_continue (guest s).
Proof.
  intros (W1 & W2 & W3) (D1 & D2 & D3) H. unfold hypercall_number_of in H.
  destruct (clear_status_flags_spec (flag_reg (guest s))) as [C1 C2].
  apply wp_returned_unit. unfold VmmpHandleVmCall.
  wp_seq. rewrite H, W3. cbn [negb].
  rewrite (proj2 (Z.eqb_neq _ _) (not_eq_sym D2)),
    (proj2 (Z.eqb_neq _ _) (not_eq_sym D3)), Z.eqb_refl.
  unfold VmmpIndicateSuccessfulVmcall, VmmpAdjustGuestInstructionPointer,
    next_ip.
  wp_run; rewrite Z.eqb_refl;
    (split; [change 8%nat with (Z.to_nat 8);
             rewrite load_store_bytes by lia; apply bits_0_wrap64|]);
    (split; [intros root a [Hr | Ha];
             [ rewrite (proj2 (Z.eqb_neq _ _) Hr); reflexivity
             | destruct (root =? hw_cr3 (hw s));
               [apply store_bytes_outside; lia | reflexivity] ]|]);
    repeat split; try reflexivity; assumption.
Qed.

Lemma X7_vmcall_shared_data_witness :
  HypercallNumber_well_formed example_env /\
  HypercallNumber_distinct example_env /\
  hypercall_number_of shared_data_state = kGetSharedProcessorData example_env /\
  exists s',
    VmmpHandleVmCall example_env shared_data_state = Returned tt s' /\
    load_bytes (mem (hw s') 0x1aa000) 0x5000 8 = 0x7000 /\
    mem (hw s') 0x1ac000 0x5000 = 0.
Proof.
  assert (W : HypercallNumber_well_formed example_env)
    by (repeat split; reflexivity).
  assert (D : HypercallNumber_distinct example_env)
    by (repeat split; discriminate).
  assert (H : hypercall_number_of shared_data_state
              = kGetSharedProcessorData example_env) by reflexivity.
  split; [exact W|]. split; [exact D|]. split; [exact H|].
  destruct (X7_vmcall_shared_data example_env shared_data_state W D H)
    as (s' & E & L & F & _).
  exists s'. split; [exact E|]. split; [exact L|].
  rewrite F; [reflexivity | left; discriminate].
Defined.

(** ** Termination *)

(** X8.  A termination request from privilege level 0 returns with the
    verdict "do not continue".  RCX holds the address after the VMCALL, RDX
    the stack pointer and RAX the flags with the status flags cleared; no
    other register changes.  The handler reloads GDTR and IDTR with the
    guest's values, stores the [processor_data] pointer at the address in
    RDX (eight bytes, through the root that is loaded), and writes no field
    of the control structure: the guest instruction pointer is not
    advanced. *)
Theorem X8_vmcall_termination env s :
  HypercallNumber_well_formed env ->
  hypercall_number_of s = kTerminateVmm env ->
  guest_cpl s = 0 ->
  exists s',
    VmmpHandleVmCall env s = Returned tt s' /\
    vm_continue (guest s') = false /\
    gp_regs (guest s') cx = next_ip s /\
    gp_regs (guest s') dx = gp_regs (guest s) sp /\
    gp_regs (guest s') ax = clear_status_flags (flag_reg (guest s)) /\
    flag_reg (guest s') = clear_status_flags (flag_reg (guest s)) /\
    (forall r, r <> ax -> r <> cx -> r <> dx ->
       gp_regs (guest s') r = gp_regs (guest s) r) /\
    load_bytes (mem (hw s') (hw_cr3 (hw s))) (gp_regs (guest s) dx) 8
    = wrap64 (processor_data (guest s)) /\
    In (EvLgdt (wrap16 (vmcs (hw s) VmcsField.kGuestGdtrLimit))
          (vmcs (hw s) VmcsField.kGuestGdtrBase)) (log (hw s')) /\
    In (EvLidt (wrap16 (vmcs (hw s) VmcsField.kGuestIdtrLimit))
          (vmcs (hw s) VmcsField.kGuestIdtrBase)) (log (hw s')) /\
    vmcs (hw s') = vmcs (hw s).
Proof.
  intros (W1 & W2 & W3) H C. unfold hypercall_number_of in H.
  unfold guest_cpl in C.
  apply wp_returned_unit. unfold VmmpHandleVmCall.
  wp_seq. rewrite H, W1, Z.eqb_refl. cbn [negb]. wp_seq.
  rewrite C. change (0 =? 0) with true. cbv iota.
  unfold VmmpHandleVmCallTermination, next_ip.
  wp_seq. rewrite Z.eqb_refl.
  split; [reflexivity|]. split; [reflexivity|]. split; [reflexivity|].
  split; [reflexivity|]. split; [reflexivity|].
  split; [intros r Ha Hc Hd; destruct r; try contradiction; reflexivity|].
  split; [change 8%nat with (Z.to_nat 8);
          rewrite load_store_bytes by lia; apply bits_0_wrap64|].
  split; [cbn; tauto|]. split; [cbn; tauto | reflexivity].
Qed.

Lemma X8_vmcall_termination_witness :
  HypercallNumber_well_formed example_env /\
  hypercall_number_of terminate_state = kTerminateVmm example_env /\
  guest_cpl terminate_state = 0 /\
  exists s',
    VmmpHandleVmCall example_env terminate_state = Returned tt s' /\
    vm_continue (guest s') = false /\
    gp_regs (guest s') cx = 0xfffff80000001003 /\
    gp_regs (guest s') dx = 0xffffd000 /\
    gp_regs (guest s') ax = 0x202 /\
    load_bytes (mem (hw s') 0x1aa000) 0x5000 8 = 0x6000.
Proof.
  assert (W : HypercallNumber_well_formed example_env)
    by (repeat split; reflexivity).
  assert (H : hypercall_number_of terminate_state = kTerminateVmm example_env)
    by reflexivity.
  assert (C : guest_cpl terminate_state = 0) by reflexivity.
  split; [exact W|]. split; [exact H|]. split; [exact C|].
  destruct (X8_vmcall_termination example_env terminate_state W H C)
    as (s' & E & V & Vc & Vd & Va & _ & _ & L & _).
  exists s'. split; [exact E|]. split; [exact V|].
  split; [rewrite Vc; reflexivity|]. split; [rewrite Vd; reflexivity|].
  split; [rewrite Va; reflexivity | exact L].
Defined.

(** ** The verdict of the dispatcher *)

(** Decides the comparisons between constants. *)
Ltac has_var t := match t with context [?v] => is_var v end.

Ltac closed_eqb :=
  repeat match goal with
         | |- context [?a =? ?b] =>
             tryif has_var a then fail else
             tryif has_var b then fail else
             let v := eval vm_compute in (a =? b) in
             lazymatch v with
             | true => change (a =? b) with true
             | false => change (a =? b) with false
             end
         end;
  cbv iota.

Ltac keeps_continue :=
  lazymatch goal with
  | |- vm_continue (guest (final (?h ?s1))) = ?c =>
      apply ((ltac:(keeps_tac prim_eq)
              : keeps (fun s => vm_continue (guest s) = c) h) s1 eq_refl)
  end.

(** The VMCALL handler leaves the verdict alone unless it honours a
    termination request. *)
Lemma VmmpHandleVmCall_continue env s :
  ~ (hypercall_number_of s = kTerminateVmm env /\ guest_cpl s = 0) ->
  vm_continue (guest (final (VmmpHandleVmCall env s))) = vm_continue (guest s).
Proof.
  intros H. unfold hypercall_number_of, guest_cpl in H.
  unfold VmmpHandleVmCall.
  erewrite final_bind by reflexivity.
  erewrite final_bind by reflexivity. cbv zeta.
  cbn [guest gp_regs].
  destruct (negb (UtilIsInBounds (wrap32 (gp_regs (guest s) cx))
                    (kMinimumHypercallNumber env) (kMaximumHypercallNumber env)));
    (erewrite final_bind by reflexivity);
    (destruct (wrap32 (gp_regs (guest s) cx) =? kTerminateVmm env) eqn:Et;
     [ apply Z.eqb_eq in Et;
       erewrite final_bind by reflexivity;
       cbn [hw vmcs add_log set_vmcs guest]; unfold upd; closed_eqb;
       destruct (bits 5 2 (wrap32 (vmcs (hw s) VmcsField.kGuestSsArBytes)) =? 0)
         eqn:Ec;
       [ apply Z.eqb_eq in Ec; exfalso; apply H; split; assumption
       | keeps_continue ]
     | repeat match goal with
              | |- context [if ?c then _ else _] => destruct c
              end; keeps_continue ]).
Qed.

(** The dispatched handler leaves the verdict alone unless the exit is a
    termination request that is honoured. *)
Lemma VmmpHandleVmExit_continue env s :
  ~ is_termination_request env s ->
  vm_continue (guest (final (VmmpHandleVmExit env s))) = vm_continue (guest s).
Proof.
  intros H. unfold is_termination_request, exit_reason_of in H.
  unfold VmmpHandleVmExit.
  erewrite final_bind by reflexivity. cbn [hw vmcs add_log].
  set (reason := bits 0 16 (wrap32 (vmcs (hw s) VmcsField.kVmExitReason))) in *.
  destruct (Z.eqb_spec reason VmxExitReason.kVmcall) as [E | E].
  - rewrite E. cbn -[VmmpHandleVmCall].
    rewrite VmmpHandleVmCall_continue; [reflexivity|].
    unfold hypercall_number_of, guest_cpl. cbn [hw vmcs add_log guest]. tauto.
  - repeat match goal with
           | |- context [if ?c then _ else _] => destruct c eqn:?
           end;
      first [ keeps_continue
            | exfalso; apply E; apply Z.eqb_eq; assumption ].
Qed.
(** X9.  The dispatcher returns "do not continue" exactly for a termination
    request from privilege level 0.  Such a request always returns, with
    the verdict false, after the global invalidations of the EPT and VPID
    caches and with the interrupt level it found; for every other exit the
    verdict, when the dispatcher returns, is true. *)
Theorem X9_dispatcher_verdict env s :
  (is_termination_request env s ->
   exists s',
     VmmVmExitHandler env s = Returned false s' /\
     In EvInveptGlobal (log (hw s')) /\
     In EvInvvpidAllContext (log (hw s')) /\
     hw_irql (hw s') = hw_irql (hw s)) /\
  (~ is_termination_request env s ->
   forall continue s',
     VmmVmExitHandler env s = Returned continue s' -> continue = true).
Proof.
  split.
  - intros (Hr & Hn & Hc).
    unfold exit_reason_of in Hr. unfold hypercall_number_of in Hn.
    unfold guest_cpl in Hc.
    assert (G : wp (VmmVmExitHandler env) (fun continue s' =>
      continue = false /\ In EvInveptGlobal (log (hw s')) /\
      In EvInvvpidAllContext (log (hw s')) /\
      hw_irql (hw s') = hw_irql (hw s)) s).
    { unfold VmmVmExitHandler. wp_seq.
      destruct (hw_cr8 (hw s) <? DISPATCH_LEVEL) eqn:L; wp_seq.
      all: rewrite Hr; closed_eqb; wp_seq.
      all: cbn [set_reg Reg_eqb]; rewrite Hn, Z.eqb_refl.
      all: match goal with
           | |- wp (if ?c then _ else _) _ _ => destruct c
           end; wp_seq.
      all: unfold upd; closed_eqb; rewrite Hc; closed_eqb; wp_seq.
      all: cbn [negb]; cbv iota; wp_seq.
      all: rewrite L; wp_seq.
      all: split; [reflexivity|]; (split; [cbn; tauto|]);
        (split; [cbn; tauto|]).
      all: reflexivity. }
    apply wp_returned in G. destruct G as (c & s' & E & -> & G).
    exists s'. split; [exact E | exact G].
  - intros H continue s' E. revert E.
    apply wlp_returned with (Q := fun c _ => c = true).
    unfold VmmVmExitHandler. wlp_prefix.
    all: apply wlp_bind; unfold wlp at 1;
      match goal with
      | |- match VmmpHandleVmExit _ ?s1 with _ => _ end =>
          pose proof (VmmpHandleVmExit_continue env s1) as C;
          destruct (VmmpHandleVmExit env s1) as [x s2| |]; [|exact I|exact I]
      end;
      cbn [final] in C;
      unfold is_termination_request, exit_reason_of, hypercall_number_of,
        guest_cpl in C, H;
      cbn [guest hw vmcs add_log set_hw_irql gp_regs set_trap_frame
           set_gp_regs set_reg Reg_eqb vm_continue] in C;
      specialize (C H).
    all: wlp_prefix. all: apply wlp_of_wp; wp_run; exact C.
Qed.

Lemma X9_dispatcher_verdict_witness :
  (is_termination_request example_env terminate_state /\
   exists s',
     VmmVmExitHandler example_env terminate_state = Returned false s' /\
     In EvInveptGlobal (log (hw s'))) /\
  (~ is_termination_request example_env ping_state /\
   VmmVmExitHandler example_env ping_state
   = Returned true (final (VmmVmExitHandler example_env ping_state))).
Proof.
  split.
  - assert (H : is_termination_request example_env terminate_state)
      by (repeat split; reflexivity).
    split; [exact H|].
    destruct (proj1 (X9_dispatcher_verdict example_env terminate_state) H)
      as (s' & E & I1 & _).
    exists s'. split; [exact E | exact I1].
  - assert (H : ~ is_termination_request example_env ping_state)
      by (intros (_ & N & _); vm_compute in N; discriminate).
    split; [exact H|].
    destruct (VmmVmExitHandler example_env ping_state) as [c s1| |] eqn:E;
      try (vm_compute in E; discriminate).
    rewrite (proj2 (X9_dispatcher_verdict example_env ping_state) H c s1 E).
    reflexivity.
Defined.

(** ** Fatal exits *)

Lemma stops_bind_later {A B} (a : M A) (f : A -> M B) P s :
  wp a (fun x s1 => stops (f x) P s1) s -> stops (bind a f) P s.
Proof. unfold wp, stops, bind. destruct (a s); try contradiction; auto. Qed.

Lemma stops_bind_now {A B} (a : M A) (f : A -> M B) P s :
  stops a P s -> stops (bind a f) P s.
Proof. unfold stops, bind. destruct (a s); try contradiction; auto. Qed.

Lemma stops_bug_check {A} code p1 p2 p3
    (P : HyperPlatformBugCheck -> Z -> Z -> Z -> VmmState -> Prop) s :
  P code p1 p2 p3 s ->
  stops (@HYPERPLATFORM_COMMON_BUG_CHECK A code p1 p2 p3) P s.
Proof. auto. Qed.

Lemma stops_outcome {A} (a : M A) P s :
  stops a P s ->
  exists code p1 p2 p3 s', a s = BugCheck code p1 p2 p3 s' /\ P code p1 p2 p3 s'.
Proof.
  unfold stops. destruct (a s) as [x s'|c p1 p2 p3 s'|s'];
    intros H; try contradiction.
  exists c, p1, p2, p3, s'. split; [reflexivity | exact H].
Qed.

(** Runs the dispatcher up to the handler it selects. *)
Ltac stops_prologue :=
  unfold VmmVmExitHandler;
  repeat lazymatch goal with
         | |- stops (bind (VmmpHandleVmExit _) _) _ _ =>
             apply stops_bind_now; unfold VmmpHandleVmExit;
             apply stops_bind_later; wp_seq
         | |- stops (bind _ _) _ _ => apply stops_bind_later; wp_run
         end.

(** Runs a handler that ends in a bug check. *)
Ltac stops_run :=
  repeat lazymatch goal with
         | |- stops (bind _ _) _ _ => apply stops_bind_later; wp_seq
         | |- stops (HYPERPLATFORM_COMMON_BUG_CHECK _ _ _ _) _ _ =>
             apply stops_bug_check
         | |- stops (if _ then _ else _) _ _ => fail
         | |- stops ?a _ _ => let h := head_of a in progress (unfold h)
         end.

(** X10.  The fatal exits never return to the guest.  A triple fault ends
    in the bug check [kTripleFaultVmExit], a monitor-trap-flag exit and
    every exit reason the dispatcher has no case for in [kUnexpectedVmExit],
    an EPT misconfiguration in [kEptMisconfigVmExit]; the parameters carry
    the guest instruction pointer of the exit (for an EPT misconfiguration
    the faulting guest-physical address) and, for an unknown reason, the
    exit qualification.  No field of the control structure is written, and
    the interrupt level stays raised. *)
Theorem X10_fatal_exits_stop env s :
  let fatal code p2 p3 :=
    exists p1 s',
      VmmVmExitHandler env s = BugCheck code p1 p2 p3 s' /\
      vmcs (hw s') = vmcs (hw s) /\
      hw_irql (hw s') = raised_irql s in
  (exit_reason_of s = VmxExitReason.kTripleFault ->
   fatal kTripleFaultVmExit (vmcs (hw s) VmcsField.kGuestRip) 0) /\
  (exit_reason_of s = VmxExitReason.kMonitorTrapFlag ->
   fatal kUnexpectedVmExit (vmcs (hw s) VmcsField.kGuestRip) 0) /\
  (exit_reason_of s = VmxExitReason.kEptMisconfig ->
   exists p1 p2 s',
     VmmVmExitHandler env s = BugCheck kEptMisconfigVmExit p1 p2 0 s' /\
     p1 = vmcs (hw s) VmcsField.kGuestPhysicalAddress /\
     vmcs (hw s') = vmcs (hw s) /\
     hw_irql (hw s') = raised_irql s) /\
  (~ In (exit_reason_of s) handled_exit_reasons ->
   fatal kUnexpectedVmExit (vmcs (hw s) VmcsField.kGuestRip)
     (vmcs (hw s) VmcsField.kExitQualification)).
Proof.
  cbv zeta. unfold exit_reason_of, raised_irql.
  split; [|split; [|split]]; intros H.
  - assert (G : stops (VmmVmExitHandler env) (fun code p1 p2 p3 s' =>
      code = kTripleFaultVmExit /\ p2 = vmcs (hw s) VmcsField.kGuestRip /\
      p3 = 0 /\ vmcs (hw s') = vmcs (hw s) /\
      hw_irql (hw s')
      = if hw_irql (hw s) <? DISPATCH_LEVEL then DISPATCH_LEVEL
        else hw_irql (hw s)) s).
    { stops_prologue; rewrite H; closed_eqb; stops_run;
        unfold hw_irql; rewrite ?Heqb; repeat split; reflexivity. }
    apply stops_outcome in G.
    destruct G as (c & p1 & p2 & p3 & s' & E & -> & -> & -> & V & I1).
    exists p1, s'. split; [exact E|]. split; assumption.
  - assert (G : stops (VmmVmExitHandler env) (fun code p1 p2 p3 s' =>
      code = kUnexpectedVmExit /\ p2 = vmcs (hw s) VmcsField.kGuestRip /\
      p3 = 0 /\ vmcs (hw s') = vmcs (hw s) /\
      hw_irql (hw s')
      = if hw_irql (hw s) <? DISPATCH_LEVEL then DISPATCH_LEVEL
        else hw_irql (hw s)) s).
    { stops_prologue; rewrite H; closed_eqb; stops_run;
        unfold hw_irql; rewrite ?Heqb; repeat split; reflexivity. }
    apply stops_outcome in G.
    destruct G as (c & p1 & p2 & p3 & s' & E & -> & -> & -> & V & I1).
    exists p1, s'. split; [exact E|]. split; assumption.
  - assert (G : stops (VmmVmExitHandler env) (fun code p1 p2 p3 s' =>
      code = kEptMisconfigVmExit /\
      p1 = vmcs (hw s) VmcsField.kGuestPhysicalAddress /\
      p3 = 0 /\ vmcs (hw s') = vmcs (hw s) /\
      hw_irql (hw s')
      = if hw_irql (hw s) <? DISPATCH_LEVEL then DISPATCH_LEVEL
        else hw_irql (hw s)) s).
    { stops_prologue; rewrite H; closed_eqb; stops_run;
        unfold hw_irql; rewrite ?Heqb; repeat split; reflexivity. }
    apply stops_outcome in G.
    destruct G as (c & p1 & p2 & p3 & s' & E & -> & -> & -> & V & I1).
    exists (vmcs (hw s) VmcsField.kGuestPhysicalAddress), p2, s'.
    split; [exact E|]. split; [reflexivity|]. split; assumption.
  - assert (G : stops (VmmVmExitHandler env) (fun code p1 p2 p3 s' =>
      code = kUnexpectedVmExit /\ p2 = vmcs (hw s) VmcsField.kGuestRip /\
      p3 = vmcs (hw s) VmcsField.kExitQualification /\
      vmcs (hw s') = vmcs (hw s) /\
      hw_irql (hw s')
      = if hw_irql (hw s) <? DISPATCH_LEVEL then DISPATCH_LEVEL
        else hw_irql (hw s)) s).
    { stops_prologue;
        repeat match goal with
               | |- context [?r =? ?k] =>
                   lazymatch r with
                   | bits 0 16 _ =>
                       destruct (Z.eqb_spec r k) as [e | _];
                       [ exfalso; apply H; rewrite e;
                         unfold handled_exit_reasons;
                         repeat first [left; reflexivity | right] |]
                   end
               end;
        cbn [orb]; cbv iota; stops_run;
        unfold hw_irql; rewrite ?Heqb; repeat split; reflexivity. }
    apply stops_outcome in G.
    destruct G as (c & p1 & p2 & p3 & s' & E & -> & -> & -> & V & I1).
    exists p1, s'. split; [exact E|]. split; assumption.
Qed.

Lemma X10_fatal_exits_stop_witness :
  (exit_reason_of triple_fault_state = VmxExitReason.kTripleFault /\
   exists p1 s',
     VmmVmExitHandler example_env triple_fault_state
     = BugCheck kTripleFaultVmExit p1 0xfffff80000001000 0 s') /\
  (~ In (exit_reason_of unexpected_exit_state) handled_exit_reasons /\
   exists p1 s',
     VmmVmExitHandler example_env unexpected_exit_state
     = BugCheck kUnexpectedVmExit p1 0xfffff80000001000 0x33 s' /\
     hw_irql (hw s') = DISPATCH_LEVEL).
Proof.
  split.
  - split; [reflexivity|].
    destruct (proj1 (X10_fatal_exits_stop example_env triple_fault_state)
                eq_refl) as (p1 & s' & E & _).
    exists p1, s'. exact E.
  - assert (H : ~ In (exit_reason_of unexpected_exit_state)
                    handled_exit_reasons).
    { vm_compute. intuition discriminate. }
    split; [exact H|].
    destruct (proj2 (proj2 (proj2
                (X10_fatal_exits_stop example_env unexpected_exit_state))) H)
      as (p1 & s' & E & _ & I1).
    exists p1, s'. split; [exact E | exact I1].
Defined.

(** ** No null register pointer is dereferenced *)

Lemma nf_of_total {A} (a : M A) V : total a V -> never_faults a V.
Proof.
  intros H s. specialize (H s). unfold wp in H.
  destruct (a s); [exact H | contradiction | contradiction].
Qed.

Lemma nf_ret {A} (x : A) (V : A -> Prop) : V x -> never_faults (ret x) V.
Proof. intros H s. exact H. Qed.

Lemma nf_bind {A B} (a : M A) (f : A -> M B) (V : A -> Prop) W :
  never_faults a V -> (forall x, V x -> never_faults (f x) W) ->
  never_faults (bind a f) W.
Proof.
  intros Ha Hf s. unfold bind. specialize (Ha s).
  destruct (a s) as [x s'| |]; [apply (Hf x Ha) | exact I | contradiction].
Qed.

Lemma nf_bug_check {A} code p1 p2 p3 (V : A -> Prop) :
  never_faults (HYPERPLATFORM_COMMON_BUG_CHECK code p1 p2 p3) V.
Proof. intros s. exact I. Qed.

Lemma in_string_total env count : forall size port a,
  total (in_string env size port a count) (fun _ => True).
Proof.
  induction count as [|k IH]; intros size port a s; cbn [in_string].
  - wp_seq. exact I.
  - wp_seq. apply IH.
Qed.

Lemma out_string_total count : forall size port a,
  total (out_string size port a count) (fun _ => True).
Proof.
  induction count as [|k IH]; intros size port a s; cbn [out_string].
  - wp_seq. exact I.
  - wp_seq. apply IH.
Qed.

Ltac nf_step :=
  lazymatch goal with
  | |- never_faults VmmpHandleGdtrOrIdtrAccess _ =>
      apply nf_of_total, VmmpHandleGdtrOrIdtrAccess_total
  | |- never_faults VmmpHandleLdtrOrTrAccess _ =>
      apply nf_of_total, VmmpHandleLdtrOrTrAccess_total
  | |- never_faults (bind (VmmpSelectRegister (bits _ 4 _)) _) _ =>
      eapply nf_bind; [apply nf_of_total, total_select | intros ? [? ->]]
  | |- never_faults (bind _ _) _ =>
      apply nf_bind with (V := fun _ => True); [ | intros ? _]
  | |- never_faults (ret _) _ => apply nf_ret; exact I
  | |- never_faults (HYPERPLATFORM_COMMON_BUG_CHECK _ _ _ _) _ =>
      apply nf_bug_check
  | |- never_faults (in_string _ _ _ _ _) _ =>
      apply nf_of_total, in_string_total
  | |- never_faults (out_string _ _ _ _) _ =>
      apply nf_of_total, out_string_total
  | |- never_faults (let _ := _ in _) _ => cbv zeta
  | |- never_faults ((fun _ => _) _) _ => cbv beta
  | |- never_faults (if ?c then _ else _) _ => destruct c
  | |- never_faults (match (if ?c then _ else _) with _ => _ end) _ =>
      destruct c
  | |- never_faults (match ?x with _ => _ end) _ => destruct x
  | |- never_faults ?a _ =>
      first [ solve [apply nf_of_total; prim_total]
            | let h := head_of a in progress (unfold h; cbv beta zeta) ]
  end.

Ltac nf_tac := repeat nf_step.

Lemma VmmpHandleVmExit_never_faults env :
  never_faults (VmmpHandleVmExit env) (fun _ => True).
Proof. nf_tac. Qed.

(** X11.  Whatever the exit, the dispatcher never dereferences the null
    pointer that [VmmpSelectRegister] returns for an unknown index, and
    never runs a string operation over a register slot: every register
    index the handlers decode is a four-bit field, and a string I/O always
    gets a memory address.  The dispatcher either returns or ends in a bug
    check. *)
Theorem X11_no_null_register_dereference env s :
  match VmmVmExitHandler env s with
  | Returned _ _ => True
  | BugCheck _ _ _ _ _ => True
  | HostFault _ => False
  end.
Proof.
  assert (H : never_faults (VmmVmExitHandler env) (fun _ => True)).
  { unfold VmmVmExitHandler.
    repeat lazymatch goal with
           | |- never_faults (bind (VmmpHandleVmExit _) _) _ =>
               apply nf_bind with (V := fun _ => True);
               [apply VmmpHandleVmExit_never_faults | intros ? _]
           | |- _ => nf_step
           end. }
  exact (H s).
Qed.

(** ** Which exit can change what *)

Ltac keeps_step_iota prim :=
  first
    [ progress (lazymatch goal with
                | |- keeps _ (if true then _ else _) => cbv iota
                | |- keeps _ (if false then _ else _) => cbv iota
                end)
    | keeps_step prim ].

(** The handler [h] of the goal keeps [view]. *)
Ltac keeps_view view :=
  lazymatch goal with
  | |- context [final (?h ?s1)] =>
      lazymatch goal with
      | |- _ = ?c =>
          apply ((ltac:(repeat keeps_step_iota prim_eq)
                  : keeps (fun s => view s = c) h) s1 eq_refl)
      end
  end.

(** Takes the dispatcher's switch apart; what remains is one goal for each
    handler. *)
Ltac exit_cases :=
  unfold VmmpHandleVmExit;
  erewrite final_bind by reflexivity; cbn [hw vmcs add_log];
  repeat match goal with
         | |- context [if ?c then _ else _] => destruct c eqn:?
         end.

Ltac wrong_reason :=
  exfalso;
  match goal with
  | H : _ <> ?k, E : (_ =? ?k) = true |- _ => apply H, Z.eqb_eq, E
  end.

Lemma VmmpHandleVmExit_msrs env s :
  exit_reason_of s <> VmxExitReason.kMsrWrite ->
  msrs (hw (final (VmmpHandleVmExit env s))) = msrs (hw s).
Proof.
  unfold exit_reason_of. intros H. exit_cases;
    first [wrong_reason | keeps_view (fun s => msrs (hw s))].
Qed.

Lemma VmmpHandleVmExit_debug_registers env s :
  exit_reason_of s <> VmxExitReason.kDrAccess ->
  hw_dr (hw (final (VmmpHandleVmExit env s))) = hw_dr (hw s) /\
  vmcs (hw (final (VmmpHandleVmExit env s))) VmcsField.kGuestDr7
  = vmcs (hw s) VmcsField.kGuestDr7.
Proof.
  unfold exit_reason_of. intros H. split; exit_cases;
    first [ wrong_reason
          | keeps_view (fun s => hw_dr (hw s))
          | keeps_view (fun s => vmcs (hw s) VmcsField.kGuestDr7) ].
Qed.

Lemma VmmpHandleVmExit_cr2 env s :
  exit_reason_of s <> VmxExitReason.kExceptionOrNmi ->
  hw_cr2 (hw (final (VmmpHandleVmExit env s))) = hw_cr2 (hw s).
Proof.
  unfold exit_reason_of. intros H. exit_cases;
    first [wrong_reason | keeps_view (fun s => hw_cr2 (hw s))].
Qed.

Lemma VmmpHandleVmExit_ports env s :
  exit_reason_of s <> VmxExitReason.kIoInstruction ->
  port_accesses (log (hw (final (VmmpHandleVmExit env s))))
  = port_accesses (log (hw s)).
Proof.
  unfold exit_reason_of. intros H. exit_cases;
    first [wrong_reason | keeps_view (fun s => port_accesses (log (hw s)))].
Qed.

Lemma VmmpHandleVmExit_memory env s :
  exit_reason_of s <> VmxExitReason.kGdtrOrIdtrAccess ->
  exit_reason_of s <> VmxExitReason.kLdtrOrTrAccess ->
  exit_reason_of s <> VmxExitReason.kIoInstruction ->
  exit_reason_of s <> VmxExitReason.kVmcall ->
  mem (hw (final (VmmpHandleVmExit env s))) = mem (hw s).
Proof.
  unfold exit_reason_of. intros H1 H2 H3 H4. exit_cases;
    first [wrong_reason | keeps_view (fun s => mem (hw s))].
Qed.

Lemma VmmpHandleVmExit_control_registers env s :
  exit_reason_of s <> VmxExitReason.kCrAccess ->
  control_register_fields (hw (final (VmmpHandleVmExit env s)))
  = control_register_fields (hw s).
Proof.
  unfold exit_reason_of. intros H. exit_cases;
    first [wrong_reason | keeps_view (fun s => control_register_fields (hw s))].
Qed.

Lemma VmmpHandleVmExit_descriptor_tables env s :
  exit_reason_of s <> VmxExitReason.kGdtrOrIdtrAccess ->
  exit_reason_of s <> VmxExitReason.kLdtrOrTrAccess ->
  descriptor_table_fields (hw (final (VmmpHandleVmExit env s)))
  = descriptor_table_fields (hw s).
Proof.
  unfold exit_reason_of. intros H1 H2. exit_cases;
    first [wrong_reason | keeps_view (fun s => descriptor_table_fields (hw s))].
Qed.

Lemma VmmpHandleVmExit_rsp env s :
  vmcs (hw (final (VmmpHandleVmExit env s))) VmcsField.kGuestRsp
  = vmcs (hw s) VmcsField.kGuestRsp.
Proof.
  exit_cases; keeps_view (fun s => vmcs (hw s) VmcsField.kGuestRsp).
Qed.

(** X12.  The handler of an exit touches the hardware only as its exit
    reason allows.  Only a WRMSR exit changes a hardware MSR, only a
    debug-register exit a debug register, only an exception exit CR2; only
    an I/O exit accesses a port; and only the descriptor-table, I/O and
    VMCALL exits change memory.  This holds whichever way the handler
    ends. *)
Theorem X12_hardware_effects_by_exit_reason env s :
  (exit_reason_of s <> VmxExitReason.kMsrWrite ->
   msrs (hw (final (VmmpHandleVmExit env s))) = msrs (hw s)) /\
  (exit_reason_of s <> VmxExitReason.kDrAccess ->
   hw_dr (hw (final (VmmpHandleVmExit env s))) = hw_dr (hw s)) /\
  (exit_reason_of s <> VmxExitReason.kExceptionOrNmi ->
   hw_cr2 (hw (final (VmmpHandleVmExit env s))) = hw_cr2 (hw s)) /\
  (exit_reason_of s <> VmxExitReason.kIoInstruction ->
   port_accesses (log (hw (final (VmmpHandleVmExit env s))))
   = port_accesses (log (hw s))) /\
  (exit_reason_of s <> VmxExitReason.kGdtrOrIdtrAccess ->
   exit_reason_of s <> VmxExitReason.kLdtrOrTrAccess ->
   exit_reason_of s <> VmxExitReason.kIoInstruction ->
   exit_reason_of s <> VmxExitReason.kVmcall ->
   mem (hw (final (VmmpHandleVmExit env s))) = mem (hw s)).
Proof.
  split; [apply VmmpHandleVmExit_msrs|].
  split; [intros H; apply (VmmpHandleVmExit_debug_registers env s H)|].
  split; [apply VmmpHandleVmExit_cr2|].
  split; [apply VmmpHandleVmExit_ports | apply VmmpHandleVmExit_memory].
Qed.

Lemma X12_hardware_effects_by_exit_reason_witness :
  exit_reason_of rdmsr_state <> VmxExitReason.kMsrWrite /\
  exit_reason_of rdmsr_state <> VmxExitReason.kIoInstruction /\
  returns (VmmpHandleVmExit example_env rdmsr_state) = true /\
  msrs (hw (final (VmmpHandleVmExit example_env rdmsr_state)))
  = msrs (hw rdmsr_state) /\
  port_accesses (log (hw (final (VmmpHandleVmExit example_env rdmsr_state))))
  = [].
Proof.
  assert (H1 : exit_reason_of rdmsr_state <> VmxExitReason.kMsrWrite)
    by (vm_compute; discriminate).
  assert (H2 : exit_reason_of rdmsr_state <> VmxExitReason.kIoInstruction)
    by (vm_compute; discriminate).
  split; [exact H1|]. split; [exact H2|]. split; [reflexivity|].
  destruct (X12_hardware_effects_by_exit_reason example_env rdmsr_state)
    as (M & _ & _ & P & _).
  split; [exact (M H1) | exact (P H2)].
Defined.

(** X13.  The handler of an exit writes the guest's control-register and
    descriptor-table state only as its exit reason allows.  Only a
    control-register exit changes the CR0, CR3 and CR4 fields or the read
    shadows; only a debug-register exit changes the DR7 field; only the two
    descriptor-table exits change the GDTR and IDTR fields or the LDTR and
    TR selectors; and no exit at all writes the guest stack-pointer field:
    a value a handler puts into the saved RSP slot does not reach the
    guest. *)
Theorem X13_guest_state_by_exit_reason env s :
  (exit_reason_of s <> VmxExitReason.kCrAccess ->
   control_register_fields (hw (final (VmmpHandleVmExit env s)))
   = control_register_fields (hw s)) /\
  (exit_reason_of s <> VmxExitReason.kDrAccess ->
   vmcs (hw (final (VmmpHandleVmExit env s))) VmcsField.kGuestDr7
   = vmcs (hw s) VmcsField.kGuestDr7) /\
  (exit_reason_of s <> VmxExitReason.kGdtrOrIdtrAccess ->
   exit_reason_of s <> VmxExitReason.kLdtrOrTrAccess ->
   descriptor_table_fields (hw (final (VmmpHandleVmExit env s)))
   = descriptor_table_fields (hw s)) /\
  vmcs (hw (final (VmmpHandleVmExit env s))) VmcsField.kGuestRsp
  = vmcs (hw s) VmcsField.kGuestRsp.
Proof.
  split; [apply VmmpHandleVmExit_control_registers|].
  split; [intros H; apply (VmmpHandleVmExit_debug_registers env s H)|].
  split; [apply VmmpHandleVmExit_descriptor_tables | apply VmmpHandleVmExit_rsp].
Qed.

Lemma X13_guest_state_by_exit_reason_witness :
  exit_reason_of rdmsr_state <> VmxExitReason.kCrAccess /\
  control_register_fields
    (hw (final (VmmpHandleVmExit example_env rdmsr_state)))
  = control_register_fields (hw rdmsr_state).
Proof.
  assert (H : exit_reason_of rdmsr_state <> VmxExitReason.kCrAccess)
    by (vm_compute; discriminate).
  split; [exact H|].
  exact (proj1 (X13_guest_state_by_exit_reason example_env rdmsr_state) H).
Defined.

(** ** RDMSR and WRMSR of a served index *)

Lemma msr_allowed_check rcx :
  msr_allowed rcx ->
  negb (if rcx <=? 0x1FFF then true
        else if (0xC0000000 <=? rcx) && (rcx <=? 0xC0001FFF) then true
             else false)
  && negb (rcx =? 0x400000f0) = false.
Proof.
  unfold msr_allowed. intros H.
  destruct (Z.leb_spec rcx 0x1FFF); [reflexivity|].
  destruct (Z.leb_spec 0xC0000000 rcx), (Z.leb_spec rcx 0xC0001FFF),
    (Z.eqb_spec rcx 0x400000f0); cbn; try reflexivity; lia.
Qed.

(** X14.  WRMSR of a served index passes EDX:EAX (the low halves of RDX and
    RAX) on: for the SYSENTER, debug-control and FS/GS-base MSRs to the
    guest-state field that stands in for the MSR, leaving every hardware
    MSR alone; for every other index to the hardware MSR of that index,
    leaving every other MSR and every field but those of the advance alone.
    The guest context is unchanged and the instruction pointer advanced. *)
Theorem X14_wrmsr_writes_edx_eax s :
  msr_allowed (gp_regs (guest s) cx) ->
  exists s',
    VmmpHandleMsrAccess false s = Returned tt s' /\
    match msr_vmcs_field (wrap32 (gp_regs (guest s) cx)) with
    | Some field =>
        vmcs (hw s') field = edx_eax s /\
        msrs (hw s') = msrs (hw s) /\
        (forall f, f <> field -> ~ In f advance_fields ->
           vmcs (hw s') f = vmcs (hw s) f)
    | None =>
        msrs (hw s') (wrap32 (gp_regs (guest s) cx)) = edx_eax s /\
        (forall i, i <> wrap32 (gp_regs (guest s) cx) ->
           msrs (hw s') i = msrs (hw s) i) /\
        (forall f, ~ In f advance_fields -> vmcs (hw s') f = vmcs (hw s) f)
    end /\
    guest s' = guest s /\
    vmcs (hw s') VmcsField.kGuestRip = next_ip s.
Proof.
  intros H. apply msr_allowed_check in H.
  apply wp_returned_unit.
  unfold VmmpHandleMsrAccess, msr_vmcs_field, edx_eax, next_ip.
  wp_seq. rewrite H.
  unfold VmmpAdjustGuestInstructionPointer.
  repeat match goal with
         | |- context [wrap32 (gp_regs (guest s) cx) =? ?k] =>
             destruct (wrap32 (gp_regs (guest s) cx) =? k) eqn:?
         end;
    wp_run; unfold upd; closed_eqb;
    rewrite ?Z.eqb_refl;
    (split; [|split; reflexivity]);
    (split; [reflexivity|]).
  all: try (split; [reflexivity|]; intros f Hf Hg;
            repeat match goal with
                   | |- context [f =? ?k] =>
                       destruct (Z.eqb_spec f k);
                       [first [contradiction
                              | subst f; exfalso; apply Hg;
                                unfold advance_fields; cbn; tauto]|]
                   end; reflexivity).
  all: split;
    [ intros i Hi; apply Z.eqb_neq in Hi; rewrite Hi; reflexivity
    | intros f Hg;
      repeat match goal with
             | |- context [f =? ?k] =>
                 destruct (Z.eqb_spec f k);
                 [subst f; exfalso; apply Hg;
                  unfold advance_fields; cbn; tauto|]
             end; reflexivity ].
Qed.

Lemma X14_wrmsr_writes_edx_eax_witness :
  msr_allowed (gp_regs (guest wrmsr_state) cx) /\
  exists s',
    VmmpHandleMsrAccess false wrmsr_state = Returned tt s' /\
    vmcs (hw s') VmcsField.kGuestGsBase = 0x11223344aabbccdd /\
    msrs (hw s') = msrs (hw wrmsr_state).
Proof.
  assert (H : msr_allowed (gp_regs (guest wrmsr_state) cx))
    by (right; left; vm_compute; split; discriminate).
  split; [exact H|].
  destruct (X14_wrmsr_writes_edx_eax wrmsr_state H) as (s' & E & V & _).
  exists s'. split; [exact E|].
  change (msr_vmcs_field (wrap32 (gp_regs (guest wrmsr_state) cx)))
    with (Some VmcsField.kGuestGsBase) in V.
  destruct V as (V1 & V2 & _). split; [rewrite V1; reflexivity | exact V2].
Defined.

Lemma testbit31_lt w :
  0 <= w < 2 ^ 32 -> (w <? 2 ^ 31) = negb (Z.testbit w 31).
Proof.
  intros Hw. destruct (Z.ltb_spec w (2 ^ 31)).
  - rewrite Z.bits_above_log2; [reflexivity | lia |].
    destruct (Z.eq_dec w 0) as [-> | N]; [cbn; lia|].
    apply Z.log2_lt_pow2; lia.
  - assert (E : Z.testbit w 31 = true).
    { apply Z.testbit_true; [lia|].
      assert (D : w / 2 ^ 31 = 1).
      { symmetry. apply Z.div_unique with (r := w - 2 ^ 31); lia. }
      rewrite D. reflexivity. }
    rewrite E. reflexivity.
Qed.

(** Sign extension of a 32-bit value, spelled out. *)
Lemma sext32_spec w :
  0 <= w < 2 ^ 32 ->
  sext32 w = if Z.testbit w 31 then w + (2 ^ 64 - 2 ^ 32) else w.
Proof.
  intros Hw. unfold sext32, wrap32. rewrite (Z.mod_small w) by lia.
  rewrite testbit31_lt by assumption.
  destruct (Z.testbit w 31) eqn:E; cbn [negb]; [|reflexivity].
  assert (L : 2 ^ 31 <= w).
  { destruct (Z.ltb_spec w (2 ^ 31)) as [L|L]; [|exact L].
    pose proof (testbit31_lt w Hw) as T. rewrite E in T. cbn in T.
    apply Z.ltb_ge in T. exact T. }
  unfold wrap64.
  replace (w - 2 ^ 32) with (w + (2 ^ 64 - 2 ^ 32) + (-1) * 2 ^ 64) by lia.
  rewrite Z.mod_add by lia. apply Z.mod_small. lia.
Qed.

Lemma wrap32_sext32 w : 0 <= w < 2 ^ 32 -> wrap32 (sext32 w) = w.
Proof.
  intros Hw. rewrite sext32_spec by assumption.
  destruct (Z.testbit w 31); unfold wrap32; [|apply Z.mod_small; lia].
  replace (w + (2 ^ 64 - 2 ^ 32)) with (w + (2 ^ 32 - 1) * 2 ^ 32) by lia.
  rewrite Z.mod_add by lia. apply Z.mod_small. lia.
Qed.

(** X15.  RDMSR of a served index returns the value the handler serves for
    it (the stand-in field for the SYSENTER, debug-control and FS/GS-base
    MSRs, the hardware MSR otherwise) split into halves: RAX is the low half
    zero-extended, and RDX is the high half sign-extended, so its upper 32
    bits are all ones when bit 63 of the value is set.  No other register,
    no hardware MSR and no field but those of the advance changes. *)
Theorem X15_rdmsr_returns_halves s :
  msr_allowed (gp_regs (guest s) cx) ->
  exists s',
    VmmpHandleMsrAccess true s = Returned tt s' /\
    gp_regs (guest s') ax
    = bits 0 32 (msr_value_of (wrap32 (gp_regs (guest s) cx)) (hw s)) /\
    gp_regs (guest s') dx
    = (if Z.testbit (msr_value_of (wrap32 (gp_regs (guest s) cx)) (hw s)) 63
       then bits 32 32 (msr_value_of (wrap32 (gp_regs (guest s) cx)) (hw s))
            + (2 ^ 64 - 2 ^ 32)
       else bits 32 32 (msr_value_of (wrap32 (gp_regs (guest s) cx)) (hw s))) /\
    wrap32 (gp_regs (guest s') dx)
    = bits 32 32 (msr_value_of (wrap32 (gp_regs (guest s) cx)) (hw s)) /\
    (forall r, r <> ax -> r <> dx ->
       gp_regs (guest s') r = gp_regs (guest s) r) /\
    msrs (hw s') = msrs (hw s) /\
    (forall f, ~ In f advance_fields -> vmcs (hw s') f = vmcs (hw s) f) /\
    vmcs (hw s') VmcsField.kGuestRip = next_ip s.
Proof.
  intros H. apply msr_allowed_check in H.
  assert (S : forall v,
    sext32 (bits 32 32 v)
    = if Z.testbit v 63 then bits 32 32 v + (2 ^ 64 - 2 ^ 32)
      else bits 32 32 v).
  { intros v. rewrite sext32_spec by (apply bits_range; lia).
    rewrite testbit_bits by lia. cbn [Z.add Z.ltb Z.compare Pos.compare
      Pos.compare_cont Pos.add Pos.succ]. rewrite andb_true_r. reflexivity. }
  assert (W : forall v, wrap32 (sext32 (bits 32 32 v)) = bits 32 32 v).
  { intros v. apply wrap32_sext32, bits_range. lia. }
  apply wp_returned_unit.
  unfold VmmpHandleMsrAccess, msr_value_of, msr_vmcs_field, next_ip.
  wp_seq. rewrite H.
  unfold VmmpAdjustGuestInstructionPointer.
  repeat match goal with
         | |- context [wrap32 (gp_regs (guest s) cx) =? ?k] =>
             destruct (wrap32 (gp_regs (guest s) cx) =? k) eqn:?
         end;
    wp_run;
    (split; [reflexivity|]); (split; [apply S|]); (split; [apply W|]);
    (split; [intros r Ha Hd; destruct r; try contradiction; reflexivity|]);
    (split; [reflexivity|]); (split; [|reflexivity]);
    intros f Hg; unfold upd;
    repeat match goal with
           | |- context [f =? ?k] =>
               destruct (Z.eqb_spec f k);
               [subst f; exfalso; apply Hg;
                unfold advance_fields; cbn; tauto|]
           end; reflexivity.
Qed.

Lemma X15_rdmsr_returns_halves_witness :
  msr_allowed (gp_regs (guest rdmsr_state) cx) /\
  exists s',
    VmmpHandleMsrAccess true rdmsr_state = Returned tt s' /\
    gp_regs (guest s') ax = 0x44332211 /\
    gp_regs (guest s') dx = 0xffffffff88776655.
Proof.
  assert (H : msr_allowed (gp_regs (guest rdmsr_state) cx))
    by (left; vm_compute; discriminate).
  split; [exact H|].
  destruct (X15_rdmsr_returns_halves rdmsr_state H) as (s' & E & Va & Vd & _).
  exists s'. split; [exact E|].
  split; [rewrite Va; reflexivity | rewrite Vd; reflexivity].
Defined.
Lemma edx_eax_low a d :
  bits 0 32 (Z.lor (wrap32 a) (Z.shiftl (wrap32 d) 32)) = wrap32 a.
Proof.
  rewrite <- !bits_0_wrap32. apply Z.bits_inj'. intros i Hi.
  rewrite testbit_bits by lia. rewrite Z.add_0_r.
  rewrite Z.lor_spec, Z.shiftl_spec by lia.
  rewrite (testbit_bits 0 32 a) by lia. rewrite Z.add_0_r.
  destruct (Z.ltb_spec i 32).
  - rewrite (Z.testbit_neg_r _ (i - 32)) by lia.
    rewrite orb_false_r, !andb_true_r. reflexivity.
  - rewrite !andb_false_r. reflexivity.
Qed.

Lemma edx_eax_high a d :
  bits 32 32 (Z.lor (wrap32 a) (Z.shiftl (wrap32 d) 32)) = wrap32 d.
Proof.
  rewrite <- !bits_0_wrap32. apply Z.bits_inj'. intros i Hi.
  rewrite testbit_bits by lia. rewrite Z.lor_spec, Z.shiftl_spec by lia.
  replace (i + 32 - 32) with i by lia.
  rewrite !testbit_bits by lia.
  destruct (Z.ltb_spec i 32), (Z.ltb_spec (i + 32) 32); try lia;
    rewrite ?andb_false_r, ?andb_true_r, ?orb_false_l; reflexivity.
Qed.

(** Decides the closed condition of a conditional. *)
Ltac closed_if :=
  match goal with
  | |- context [if ?c then _ else _] =>
      tryif has_var c then fail else
      let v := eval vm_compute in c in
      lazymatch v with
      | true => change c with true
      | false => change c with false
      end
  end;
  cbv iota.

(** X16.  WRMSR followed by RDMSR of the same served index gives back what
    was written: both handlers return, and afterwards RAX is the low half
    of the RAX that was written and the low half of RDX is the low half of
    the RDX that was written.  This holds for the MSRs kept in the control
    structure and for those passed to the hardware alike. *)
Theorem X16_wrmsr_rdmsr_round_trip s :
  msr_allowed (gp_regs (guest s) cx) ->
  exists s1 s2,
    VmmpHandleMsrAccess false s = Returned tt s1 /\
    VmmpHandleMsrAccess true s1 = Returned tt s2 /\
    gp_regs (guest s2) ax = wrap32 (gp_regs (guest s) ax) /\
    wrap32 (gp_regs (guest s2) dx) = wrap32 (gp_regs (guest s) dx) /\
    gp_regs (guest s2) cx = gp_regs (guest s) cx.
Proof.
  intros H. apply msr_allowed_check in H.
  assert (G : wp (VmmpHandleMsrAccess false) (fun _ s1 =>
    wp (VmmpHandleMsrAccess true) (fun _ s2 =>
      gp_regs (guest s2) ax = wrap32 (gp_regs (guest s) ax) /\
      wrap32 (gp_regs (guest s2) dx) = wrap32 (gp_regs (guest s) dx) /\
      gp_regs (guest s2) cx = gp_regs (guest s) cx) s1) s).
  { destruct (bit Flag.tf (flag_reg (guest s))) eqn:TF.
    all: destruct (wrap32 (gp_regs (guest s) cx) =? Msr.kIa32SysenterCs) eqn:E1;
      [|destruct (wrap32 (gp_regs (guest s) cx) =? Msr.kIa32SysenterEsp) eqn:E2;
        [|destruct (wrap32 (gp_regs (guest s) cx) =? Msr.kIa32SysenterEip) eqn:E3;
          [|destruct (wrap32 (gp_regs (guest s) cx) =? Msr.kIa32Debugctl) eqn:E4;
            [|destruct (wrap32 (gp_regs (guest s) cx) =? Msr.kIa32GsBase) eqn:E5;
              [|destruct (wrap32 (gp_regs (guest s) cx) =? Msr.kIa32FsBase)
                  eqn:E6]]]]].
    all: unfold VmmpHandleMsrAccess, VmmpAdjustGuestInstructionPointer;
      repeat first
        [ wp_step_seq
        | progress (rewrite ?H, ?TF, ?E1, ?E2, ?E3, ?E4, ?E5, ?E6; cbv iota)
        | progress closed_if ].
    all: unfold upd; closed_eqb; rewrite ?Z.eqb_refl.
    all: rewrite edx_eax_low, edx_eax_high.
    all: split; [reflexivity|]; split; [|reflexivity].
    all: apply wrap32_sext32; unfold wrap32; apply Z.mod_pos_bound; lia. }
  apply wp_returned_unit in G. destruct G as (s1 & E1 & G).
  apply wp_returned_unit in G. destruct G as (s2 & E2 & G).
  exists s1, s2. split; [exact E1|]. split; [exact E2 | exact G].
Qed.

Lemma X16_wrmsr_rdmsr_round_trip_witness :
  msr_allowed (gp_regs (guest wrmsr_state) cx) /\
  exists s1 s2,
    VmmpHandleMsrAccess false wrmsr_state = Returned tt s1 /\
    VmmpHandleMsrAccess true s1 = Returned tt s2 /\
    gp_regs (guest s2) ax = 0xaabbccdd /\
    wrap32 (gp_regs (guest s2) dx) = 0x11223344.
Proof.
  assert (H : msr_allowed (gp_regs (guest wrmsr_state) cx))
    by (right; left; vm_compute; split; discriminate).
  split; [exact H|].
  destruct (X16_wrmsr_rdmsr_round_trip wrmsr_state H)
    as (s1 & s2 & E1 & E2 & Va & Vd & _).
  exists s1, s2. split; [exact E1|]. split; [exact E2|].
  split; [rewrite Va; reflexivity | rewrite Vd; reflexivity].
Defined.

(** ** Debug registers *)

(** Symbolic execution that also decides conditions that have become
    constants. *)
Ltac wp_go := repeat first [wp_step_seq | progress cbv iota].

Lemma dr6_general_detect x :
  let y := set_bit 13 true
             (set_bit 3 false
                (set_bit 2 false (set_bit 1 false (set_bit 0 false x)))) in
  bits 0 4 y = 0 /\
  bit 13 y = true /\
  (forall j, 4 <= j -> j <> 13 -> bit j y = bit j x).
Proof.
  cbv zeta. split; [|split].
  - apply Z.bits_inj'. intros i Hi.
    rewrite testbit_bits, Z.bits_0, Z.add_0_r by lia.
    destruct (Z.ltb_spec i 4); [|apply andb_false_r].
    rewrite andb_true_r.
    assert (E : i = 0 \/ i = 1 \/ i = 2 \/ i = 3) by lia.
    change (Z.testbit ?a i) with (bit i a).
    destruct E as [-> | [-> | [-> | ->]]];
      repeat first [ apply bit_set_bit_same; lia
                   | rewrite bit_set_bit_other by lia ].
  - apply bit_set_bit_same. lia.
  - intros j Hj Hn. rewrite !bit_set_bit_other by lia. reflexivity.
Qed.

(** X17.  The debug-register handler first reproduces the checks of the
    processor, and each failed check injects its fault without touching a
    debug register, writing the instruction pointer or changing a register.
    From a privilege level other than 0 it injects #GP(0); for DR4 or DR5
    with CR4.DE set it injects #UD; and with DR7.GD set it injects #DB after
    clearing B0..B3 and setting BD in DR6 and clearing GD in the DR7 field,
    every other bit of the two registers staying as it was. *)
Theorem X17_debug_register_checks s :
  (guest_cpl s <> 0 ->
   exists s',
     VmmpHandleDrAccess s = Returned tt s' /\
     vmcs (hw s') VmcsField.kVmEntryIntrInfoField
     = interruption_info InterruptionType.kHardwareException
         InterruptionVector.kGeneralProtectionException true /\
     vmcs (hw s') VmcsField.kVmEntryExceptionErrorCode = 0 /\
     hw_dr (hw s') = hw_dr (hw s) /\
     filter is_dr_access (log (hw s')) = filter is_dr_access (log (hw s)) /\
     rip_view s' = rip_view s /\
     guest s' = guest s) /\
  (guest_cpl s = 0 -> dr_undefined s = true ->
   exists s',
     VmmpHandleDrAccess s = Returned tt s' /\
     vmcs (hw s') VmcsField.kVmEntryIntrInfoField
     = interruption_info InterruptionType.kHardwareException
         InterruptionVector.kInvalidOpcodeException false /\
     hw_dr (hw s') = hw_dr (hw s) /\
     filter is_dr_access (log (hw s')) = filter is_dr_access (log (hw s)) /\
     rip_view s' = rip_view s /\
     guest s' = guest s) /\
  (guest_cpl s = 0 -> dr_undefined s = false -> dr_general_detect s = true ->
   exists s',
     VmmpHandleDrAccess s = Returned tt s' /\
     vmcs (hw s') VmcsField.kVmEntryIntrInfoField
     = interruption_info InterruptionType.kHardwareException
         InterruptionVector.kDebugException false /\
     bits 0 4 (hw_dr (hw s') 6) = 0 /\
     bit 13 (hw_dr (hw s') 6) = true /\
     (forall j, 4 <= j -> j <> 13 ->
        bit j (hw_dr (hw s') 6) = bit j (hw_dr (hw s) 6)) /\
     (forall n, n <> 6 -> hw_dr (hw s') n = hw_dr (hw s) n) /\
     bit 13 (vmcs (hw s') VmcsField.kGuestDr7) = false /\
     (forall j, 0 <= j -> j <> 13 ->
        bit j (vmcs (hw s') VmcsField.kGuestDr7)
        = bit j (vmcs (hw s) VmcsField.kGuestDr7)) /\
     rip_view s' = rip_view s /\
     guest s' = guest s).
Proof.
  unfold guest_cpl, dr_undefined, dr_general_detect, dr_number.
  split; [|split].
  - intros C. apply Z.eqb_neq in C.
    apply wp_returned_unit. unfold VmmpHandleDrAccess.
    wp_seq. rewrite C. cbn [negb]. wp_go.
    repeat split; reflexivity.
  - intros C U. apply wp_returned_unit. unfold VmmpHandleDrAccess.
    wp_seq. rewrite C. change (negb (0 =? 0)) with false. wp_go.
    apply andb_true_iff in U. destruct U as [U1 U2].
    rewrite U1. wp_go. rewrite U2. wp_go.
    repeat split; reflexivity.
  - intros C U G. apply wp_returned_unit. unfold VmmpHandleDrAccess.
    wp_seq. rewrite C. change (negb (0 =? 0)) with false. wp_go.
    destruct (dr6_general_detect (hw_dr (hw s) 6)) as (D1 & D2 & D3).
    destruct ((bits 0 3 (vmcs (hw s) VmcsField.kExitQualification) =? 4)
              || (bits 0 3 (vmcs (hw s) VmcsField.kExitQualification) =? 5))
      eqn:N; cbn [andb] in U; wp_go; rewrite ?U; wp_go;
      try (destruct (bits 0 3 (vmcs (hw s) VmcsField.kExitQualification) =? 4)
             eqn:N4; wp_go);
      rewrite G; wp_go; unfold upd; closed_eqb;
      (split; [reflexivity|]); (split; [exact D1|]); (split; [exact D2|]);
      (split; [exact D3|]);
      (split; [intros n Hn; apply Z.eqb_neq in Hn; rewrite Hn; reflexivity|]);
      (split; [apply bit_set_bit_same; lia|]);
      (split; [intros j Hj Hn; apply bit_set_bit_other; lia|]);
      split; reflexivity.
Qed.

Lemma X17_debug_register_checks_witness :
  (guest_cpl dr_ring3_state <> 0 /\
   exists s',
     VmmpHandleDrAccess dr_ring3_state = Returned tt s' /\
     bits 0 8 (vmcs (hw s') VmcsField.kVmEntryIntrInfoField) = 13 /\
     hw_dr (hw s') = hw_dr (hw dr_ring3_state)) /\
  (guest_cpl dr_detect_state = 0 /\
   dr_undefined dr_detect_state = false /\
   dr_general_detect dr_detect_state = true /\
   exists s',
     VmmpHandleDrAccess dr_detect_state = Returned tt s' /\
     hw_dr (hw s') 6 = 0xffff2ff0 /\
     vmcs (hw s') VmcsField.kGuestDr7 = 0x400 /\
     gp_regs (guest s') bx = 1).
Proof.
  split.
  - assert (C : guest_cpl dr_ring3_state <> 0) by (vm_compute; discriminate).
    split; [exact C|].
    destruct (proj1 (X17_debug_register_checks dr_ring3_state) C)
      as (s' & E & V & _ & D & _).
    exists s'. split; [exact E|]. split; [rewrite V; reflexivity | exact D].
  - split; [reflexivity|]. split; [reflexivity|]. split; [reflexivity|].
    destruct (proj2 (proj2 (X17_debug_register_checks dr_detect_state))
                eq_refl eq_refl eq_refl)
      as (s' & E & _ & _ & _ & _ & _ & _ & _ & _ & Gs).
    exists s'. split; [exact E|].
    assert (F : s' = final (VmmpHandleDrAccess dr_detect_state))
      by (rewrite E; reflexivity).
    rewrite F. repeat split; vm_compute; reflexivity.
Defined.








(** ** IN and OUT *)

Lemma decoded_size_cases q size :
  decoded_size_of_access q = Some size ->
  (size = 1 \/ size = 2 \/ size = 4) /\
  match bits 0 3 q with 0 => 1 | 1 => 2 | 3 => 4 | _ => 0 end = size.
Proof.
  unfold decoded_size_of_access.
  destruct (bits 0 3 q) as [|[[|[]|]|[]|]|]; intros H; inversion H; auto.
Qed.

(** X20.  IN and OUT without a string move one element of the decoded size
    between the port of the exit and the low bytes of RAX, with exactly one
    port access.  IN replaces the low 1, 2 or 4 bytes of RAX by the value
    the port delivers and keeps every higher bit of RAX (also for a
    four-byte IN); OUT sends the low bytes of RAX and changes no register.
    Memory is untouched, the address-space root is the one found, and the
    instruction pointer is advanced. *)
Theorem X20_in_out_move_low_bytes env s size :
  bits 4 1 (vmcs (hw s) VmcsField.kExitQualification) = 0 ->
  decoded_size_of_access (vmcs (hw s) VmcsField.kExitQualification)
  = Some size ->
  exists s',
    VmmpHandleIoPort env s = Returned tt s' /\
    (if bits 3 1 (vmcs (hw s) VmcsField.kExitQualification) =? 1 then
       let v := bits 0 (8 * size)
                  (port_in env (io_port s) size (port_reads (hw s))) in
       bits 0 (8 * size) (gp_regs (guest s') ax) = v /\
       (forall j, 8 * size <= j ->
          bit j (gp_regs (guest s') ax) = bit j (gp_regs (guest s) ax)) /\
       (forall r, r <> ax -> gp_regs (guest s') r = gp_regs (guest s) r) /\
       port_accesses (log (hw s'))
       = EvPortIn (io_port s) size v :: port_accesses (log (hw s))
     else
       gp_regs (guest s') = gp_regs (guest s) /\
       port_accesses (log (hw s'))
       = EvPortOut (io_port s) size
           (bits 0 (8 * size) (gp_regs (guest s) ax))
         :: port_accesses (log (hw s))) /\
    mem (hw s') = mem (hw s) /\
    hw_cr3 (hw s') = hw_cr3 (hw s) /\
    vmcs (hw s') VmcsField.kGuestRip = next_ip s.
Proof.
  intros Hstr Hsize.
  destruct (decoded_size_cases _ _ Hsize) as [Hs Hm].
  assert (Es : (size =? 1) || (size =? 2) || (size =? 4) = true)
    by (destruct Hs as [-> | [-> | ->]]; reflexivity).
  assert (Hpos : 0 <= 8 * size) by lia.
  apply wp_returned_unit. unfold VmmpHandleIoPort, io_port, next_ip.
  wp_seq. rewrite Hm, Hstr. change (0 =? 1) with false. cbv iota.
  unfold VmmpIoWrapper, VmmpGetKernelCr3, VmmpAdjustGuestInstructionPointer.
  wp_seq.
  destruct (Z.land (vmcs (hw s) VmcsField.kGuestCr3) 1 =? 0); wp_seq;
    rewrite Es; cbv iota;
    destruct (bits 3 1 (vmcs (hw s) VmcsField.kExitQualification) =? 1);
    wp_go; wp_run.
  all: cbn [set_reg Reg_eqb]; repeat split; try reflexivity.
  all: try (rewrite bits_set_bits_same by lia;
            apply bits_small; [lia | apply bits_range; lia]).
  all: try (intros j Hj; apply bit_set_bits_other; lia).
  all: try (intros r Hr; destruct r; try contradiction; reflexivity).
Qed.

Lemma X20_in_out_move_low_bytes_witness :
  (bits 4 1 (vmcs (hw in_state) VmcsField.kExitQualification) = 0 /\
   decoded_size_of_access (vmcs (hw in_state) VmcsField.kExitQualification)
   = Some 4 /\
   exists s',
     VmmpHandleIoPort example_env in_state = Returned tt s' /\
     bits 0 32 (gp_regs (guest s') ax) = 0x41 /\
     bit 60 (gp_regs (guest s') ax) = true /\
     gp_regs (guest s') bx = 0x99) /\
  (bits 4 1 (vmcs (hw out_state) VmcsField.kExitQualification) = 0 /\
   decoded_size_of_access (vmcs (hw out_state) VmcsField.kExitQualification)
   = Some 2 /\
   exists s',
     VmmpHandleIoPort example_env out_state = Returned tt s' /\
     port_accesses (log (hw s')) = [EvPortOut 0x3f8 2 0x7788]).
Proof.
  split; (split; [reflexivity|]); (split; [reflexivity|]).
  - destruct (X20_in_out_move_low_bytes example_env in_state 4
                eq_refl eq_refl) as (s' & E & V & _).
    change (bits 3 1 (vmcs (hw in_state) VmcsField.kExitQualification) =? 1)
      with true in V.
    cbv iota zeta in V. destruct V as (V1 & V2 & V3 & _).
    exists s'. split; [exact E|]. split; [exact V1|].
    split; [rewrite V2; [reflexivity | lia] |].
    rewrite V3; [reflexivity | discriminate].
  - destruct (X20_in_out_move_low_bytes example_env out_state 2
                eq_refl eq_refl) as (s' & E & V & _).
    change (bits 3 1 (vmcs (hw out_state) VmcsField.kExitQualification) =? 1)
      with false in V.
    cbv iota in V. destruct V as (_ & V).
    exists s'. split; [exact E|]. rewrite V. reflexivity.
Defined.
(** X21.  An I/O exit whose size field encodes none of 1, 2 and 4 bytes is
    fatal: the handler ends in the bug check [kUnspecified] before any port
    is accessed.  The guest context, memory and the guest instruction
    pointer are as before; the guest's address-space root is still loaded
    when the system stops. *)
Theorem X21_io_undecodable_size_is_fatal env s :
  decoded_size_of_access (vmcs (hw s) VmcsField.kExitQualification) = None ->
  exists s',
    VmmpHandleIoPort env s = BugCheck kUnspecified 0 0 0 s' /\
    port_accesses (log (hw s')) = port_accesses (log (hw s)) /\
    mem (hw s') = mem (hw s) /\
    guest s' = guest s /\
    hw_cr3 (hw s') = kernel_cr3 s /\
    rip_view s' = rip_view s.
Proof.
  intros H.
  assert (Hm : match bits 0 3 (vmcs (hw s) VmcsField.kExitQualification) with
               | 0 => 1 | 1 => 2 | 3 => 4 | _ => 0 end = 0).
  { unfold decoded_size_of_access in H.
    destruct (bits 0 3 (vmcs (hw s) VmcsField.kExitQualification))
      as [|[[|[]|]|[]|]|]; try discriminate; reflexivity. }
  assert (G : stops (VmmpHandleIoPort env) (fun code p1 p2 p3 s' =>
    code = kUnspecified /\ p1 = 0 /\ p2 = 0 /\ p3 = 0 /\
    port_accesses (log (hw s')) = port_accesses (log (hw s)) /\
    mem (hw s') = mem (hw s) /\
    guest s' = guest s /\
    hw_cr3 (hw s') = kernel_cr3 s /\
    rip_view s' = rip_view s) s).
  { unfold VmmpHandleIoPort, kernel_cr3.
    repeat lazymatch goal with
           | |- stops (bind (VmmpIoWrapper _ _ _ _ _ _ _) _) _ _ => fail
           | |- stops (bind _ _) _ _ => apply stops_bind_later; wp_seq
           end.
    rewrite Hm. apply stops_bind_now. unfold VmmpIoWrapper, VmmpGetKernelCr3.
    apply stops_bind_later. wp_seq.
    destruct (Z.land (vmcs (hw s) VmcsField.kGuestCr3) 1 =? 0); wp_seq;
      do 2 (apply stops_bind_later; wp_seq);
      apply stops_bind_now; cbn [Z.eqb orb]; apply stops_bug_check;
      repeat split; reflexivity. }
  apply stops_outcome in G.
  destruct G as (c & p1 & p2 & p3 & s' & E & -> & -> & -> & -> & G).
  exists s'. split; [exact E | exact G].
Qed.

Lemma X21_io_undecodable_size_is_fatal_witness :
  decoded_size_of_access
    (vmcs (hw io_bad_size_state) VmcsField.kExitQualification) = None /\
  exists s',
    VmmpHandleIoPort example_env io_bad_size_state
    = BugCheck kUnspecified 0 0 0 s' /\
    port_accesses (log (hw s')) = [] /\
    hw_cr3 (hw s') = 0x1ac000.
Proof.
  split; [reflexivity|].
  destruct (X21_io_undecodable_size_is_fatal example_env io_bad_size_state
              eq_refl) as (s' & E & P & _ & _ & C & _).
  exists s'. split; [exact E|]. split; [exact P | exact C].
Defined.

(** ** INS and OUTS *)

Lemma in_string_spec env size port :
  0 < size ->
  forall count a s,
    wp (in_string env size port a count) (fun _ s' =>
      guest s' = guest s /\
      hw_cr3 (hw s') = hw_cr3 (hw s) /\
      vmcs (hw s') = vmcs (hw s) /\
      port_accesses (log (hw s'))
      = rev (map (EvPortIn port size)
               (port_values env size port (port_reads (hw s)) count))
        ++ port_accesses (log (hw s)) /\
      (forall k, (k < count)%nat ->
         load_bytes (mem (hw s') (hw_cr3 (hw s))) (a + Z.of_nat k * size)
           (Z.to_nat size)
         = nth k (port_values env size port (port_reads (hw s)) count) 0) /\
      (forall root x,
         root <> hw_cr3 (hw s) \/ x < a \/ a + Z.of_nat count * size <= x ->
         mem (hw s') root x = mem (hw s) root x)) s.
Proof.
  intros Hsize. induction count as [|n IH]; intros a s; cbn [in_string].
  - wp_seq. repeat split; try reflexivity. intros k Hk. lia.
  - wp_seq. eapply wp_mono; [apply IH|].
    intros x s' (G & C & V & P & L & F). cbn [guest hw hw_cr3 vmcs add_log
      set_mem set_port_reads port_reads log mem] in *.
    split; [exact G|]. split; [exact C|]. split; [exact V|].
    split; [|split].
    + rewrite P. cbn [port_values map rev port_accesses filter is_port_access].
      rewrite <- app_assoc. reflexivity.
    + intros [|k] Hk; cbn [port_values nth].
      * rewrite Z.mul_0_l, Z.add_0_r.
        rewrite (load_bytes_ext _
                   (store_bytes a size
                      (bits 0 (8 * size)
                         (port_in env port size (port_reads (hw s))))
                      (mem (hw s) (hw_cr3 (hw s))))).
        -- rewrite load_store_bytes by lia.
           apply bits_small; [lia | apply bits_range; lia].
        -- intros y Hy. rewrite F by (right; left; lia).
           rewrite Z.eqb_refl. reflexivity.
      * rewrite <- L by lia. f_equal. lia.
    + intros root y H. rewrite F by lia.
      destruct (Z.eqb_spec root (hw_cr3 (hw s))) as [-> | N]; [|reflexivity].
      apply store_bytes_outside. lia.
Qed.

Lemma out_string_spec size port :
  forall count a s,
    wp (out_string size port a count) (fun _ s' =>
      guest s' = guest s /\
      hw_cr3 (hw s') = hw_cr3 (hw s) /\
      vmcs (hw s') = vmcs (hw s) /\
      mem (hw s') = mem (hw s) /\
      port_accesses (log (hw s'))
      = rev (map (EvPortOut port size)
               (memory_values (mem (hw s) (hw_cr3 (hw s))) size a count))
        ++ port_accesses (log (hw s))) s.
Proof.
  induction count as [|n IH]; intros a s; cbn [out_string].
  - wp_seq. repeat split; reflexivity.
  - wp_seq. eapply wp_mono; [apply IH|].
    intros x s' (G & C & V & Mm & P). cbn [guest hw hw_cr3 vmcs add_log
      log mem] in *.
    split; [exact G|]. split; [exact C|]. split; [exact V|].
    split; [exact Mm|].
    rewrite P. cbn [memory_values map rev port_accesses filter is_port_access].
    rewrite <- app_assoc. reflexivity.
Qed.

(** The wrapper around a string operation of size 1, 2 or 4. *)
Lemma VmmpIoWrapper_string_spec env to_memory size port a count s :
  size = 1 \/ size = 2 \/ size = 4 ->
  wp (VmmpIoWrapper env to_memory true size port (PtrMemory a) count)
    (fun _ s' =>
       guest s' = guest s /\
       hw_cr3 (hw s') = hw_cr3 (hw s) /\
       vmcs (hw s') = vmcs (hw s) /\
       if to_memory then
         port_accesses (log (hw s'))
         = rev (map (EvPortIn port size)
                  (port_values env size port (port_reads (hw s))
                     (Z.to_nat count)))
           ++ port_accesses (log (hw s)) /\
         (forall k, (k < Z.to_nat count)%nat ->
            load_bytes (mem (hw s') (kernel_cr3 s)) (a + Z.of_nat k * size)
              (Z.to_nat size)
            = nth k (port_values env size port (port_reads (hw s))
                       (Z.to_nat count)) 0) /\
         (forall root x,
            root <> kernel_cr3 s \/ x < a \/
            a + Z.of_nat (Z.to_nat count) * size <= x ->
            mem (hw s') root x = mem (hw s) root x)
       else
         mem (hw s') = mem (hw s) /\
         port_accesses (log (hw s'))
         = rev (map (EvPortOut port size)
                  (memory_values (mem (hw s) (kernel_cr3 s)) size a
                     (Z.to_nat count)))
           ++ port_accesses (log (hw s))) s.
Proof.
  intros Hsize.
  assert (E : (size =? 1) || (size =? 2) || (size =? 4) = true)
    by (destruct Hsize as [-> | [-> | ->]]; reflexivity).
  assert (Hpos : 0 < size) by lia.
  unfold VmmpIoWrapper, VmmpGetKernelCr3, kernel_cr3. wp_seq.
  destruct (Z.land (vmcs (hw s) VmcsField.kGuestCr3) 1 =? 0); wp_seq;
    rewrite E; destruct to_memory; wp_seq.
  all: (eapply wp_mono;
        [first [apply (in_string_spec env size port Hpos)
               | apply out_string_spec]|]);
    cbn [guest hw hw_cr3 vmcs add_log set_hw_cr3 log mem port_reads];
    intros x s'.
  all: cbn [port_accesses filter is_port_access].
  - intros (G & C & V & P & L & F). wp_seq.
    repeat split; assumption.
  - intros (G & C & V & Mm & P). wp_seq.
    repeat split; assumption.
  - intros (G & C & V & P & L & F). wp_seq.
    repeat split; assumption.
  - intros (G & C & V & Mm & P). wp_seq.
    repeat split; assumption.
Qed.

(** X22.  A string I/O exit transfers [io_count] elements of the decoded
    size, one port access each, through the address-space root
    [VmmpGetKernelCr3] selects: none when a REP prefix finds the low 32 bits
    of RCX zero.  INS stores the values the port delivers, in the order of
    delivery, at ascending addresses from RDI and changes no other byte of
    memory; OUTS sends the elements found at ascending addresses from RSI
    and changes no memory.  The root that was loaded is loaded again when
    the handler returns. *)
Theorem X22_string_io_transfers env s size :
  bits 4 1 (vmcs (hw s) VmcsField.kExitQualification) = 1 ->
  decoded_size_of_access (vmcs (hw s) VmcsField.kExitQualification)
  = Some size ->
  exists s',
    VmmpHandleIoPort env s = Returned tt s' /\
    hw_cr3 (hw s') = hw_cr3 (hw s) /\
    if bits 3 1 (vmcs (hw s) VmcsField.kExitQualification) =? 1 then
      port_accesses (log (hw s'))
      = rev (map (EvPortIn (io_port s) size)
               (port_values env size (io_port s) (port_reads (hw s))
                  (io_count s)))
        ++ port_accesses (log (hw s)) /\
      (forall k, (k < io_count s)%nat ->
         load_bytes (mem (hw s') (kernel_cr3 s))
           (gp_regs (guest s) di + Z.of_nat k * size) (Z.to_nat size)
         = nth k (port_values env size (io_port s) (port_reads (hw s))
                    (io_count s)) 0) /\
      (forall root x,
         root <> kernel_cr3 s \/ x < gp_regs (guest s) di \/
         gp_regs (guest s) di + Z.of_nat (io_count s) * size <= x ->
         mem (hw s') root x = mem (hw s) root x)
    else
      mem (hw s') = mem (hw s) /\
      port_accesses (log (hw s'))
      = rev (map (EvPortOut (io_port s) size)
               (memory_values (mem (hw s) (kernel_cr3 s)) size
                  (gp_regs (guest s) si) (io_count s)))
        ++ port_accesses (log (hw s)).
Proof.
  intros Hstr Hsize.
  destruct (decoded_size_cases _ _ Hsize) as [Hs Hm].
  apply wp_returned_unit. unfold VmmpHandleIoPort, io_port, io_count.
  wp_seq. rewrite Hm, Hstr. change (1 =? 1) with true. cbv iota.
  eapply wp_mono; [apply VmmpIoWrapper_string_spec; exact Hs|].
  intros x s1. cbn [guest hw hw_cr3 vmcs add_log log mem port_reads].
  unfold kernel_cr3. cbn [guest hw hw_cr3 vmcs add_log log mem port_reads current_process].
  cbn [port_accesses filter is_port_access].
  intros (G & C & V & R).
  unfold VmmpAdjustGuestInstructionPointer.
  destruct (bits 3 1 (vmcs (hw s) VmcsField.kExitQualification) =? 1);
    wp_run; cbn [port_accesses filter is_port_access];
    (split; [exact C | exact R]).
Qed.

Lemma X22_string_io_transfers_witness :
  (bits 4 1 (vmcs (hw rep_ins_state) VmcsField.kExitQualification) = 1 /\
   decoded_size_of_access (vmcs (hw rep_ins_state) VmcsField.kExitQualification)
   = Some 1 /\
   exists s',
     VmmpHandleIoPort example_env rep_ins_state = Returned tt s' /\
     port_accesses (log (hw s'))
     = [EvPortIn 0x60 1 0x43; EvPortIn 0x60 1 0x42; EvPortIn 0x60 1 0x41] /\
     mem (hw s') 0x1ac000 0x9002 = 0x43 /\
     mem (hw s') 0x1ac000 0x9003 = 0) /\
  (bits 4 1 (vmcs (hw rep_ins_zero_state) VmcsField.kExitQualification) = 1 /\
   decoded_size_of_access
     (vmcs (hw rep_ins_zero_state) VmcsField.kExitQualification) = Some 1 /\
   exists s',
     VmmpHandleIoPort example_env rep_ins_zero_state = Returned tt s' /\
     port_accesses (log (hw s')) = [] /\
     mem (hw s') = mem (hw rep_ins_zero_state)).
Proof.
  split; (split; [reflexivity|]); (split; [reflexivity|]).
  - destruct (X22_string_io_transfers example_env rep_ins_state 1
                eq_refl eq_refl) as (s' & E & _ & V).
    change (bits 3 1 (vmcs (hw rep_ins_state) VmcsField.kExitQualification)
            =? 1) with true in V.
    cbv iota in V. destruct V as (P & L & F).
    exists s'. split; [exact E|]. split; [exact P|].
    assert (Fs : s' = final (VmmpHandleIoPort example_env rep_ins_state))
      by (rewrite E; reflexivity).
    split; [rewrite Fs; vm_compute; reflexivity|].
    rewrite F; [reflexivity | right; right; vm_compute; discriminate].
  - destruct (X22_string_io_transfers example_env rep_ins_zero_state 1
                eq_refl eq_refl) as (s' & E & _ & V).
    change (bits 3 1
              (vmcs (hw rep_ins_zero_state) VmcsField.kExitQualification)
            =? 1) with true in V.
    cbv iota in V. destruct V as (P & _ & F).
    exists s'. split; [exact E|]. split; [exact P|].
    assert (Fs : s' = final (VmmpHandleIoPort example_env rep_ins_zero_state))
      by (rewrite E; reflexivity).
    rewrite Fs. vm_compute. reflexivity.
Defined.

(** ** MOV from a control register, and what is not emulated *)






Lemma control_register_cases q :
  In (bits 0 4 q) [0; 1; 2; 3; 4; 5; 6; 7; 8; 9; 10; 11; 12; 13; 14; 15].
Proof.
  pose proof (bits_range 0 4 q ltac:(lia)) as R.
  change (2 ^ 4) with 16 in R. cbn [In]. lia.
Qed.

Lemma stops_with {A} (a : M A) code q1 q2 q3 (Q : VmmState -> Prop) s :
  stops a (fun c p1 p2 p3 s' =>
             c = code /\ p1 = q1 /\ p2 = q2 /\ p3 = q3 /\ Q s') s ->
  exists s', a s = BugCheck code q1 q2 q3 s' /\ Q s'.
Proof.
  intros H. apply stops_outcome in H.
  destruct H as (c & p1 & p2 & p3 & s' & E & -> & -> & -> & -> & H).
  exists s'. split; [exact E | exact H].
Qed.

(** X24.  A MOV to a control register other than CR0, CR3, CR4 and CR8,
    and a MOV from one other than CR3 and CR8, stops the system with
    [kUnspecified] before anything is written.  CLTS and LMSW are not
    emulated: the handler breaks into the debugger, leaves the control
    registers and the general registers as they were, and still skips the
    instruction. *)
Theorem X24_control_register_not_emulated env s :
  (cr_access_type s = 0 ->
   cr_number s <> 0 -> cr_number s <> 3 -> cr_number s <> 4 ->
   cr_number s <> 8 ->
   exists s',
     VmmpHandleCrAccess env s = BugCheck kUnspecified 0 0 0 s' /\
     guest s' = guest s /\ vmcs (hw s') = vmcs (hw s)) /\
  (cr_access_type s = 1 ->
   cr_number s <> 3 -> cr_number s <> 8 ->
   exists s',
     VmmpHandleCrAccess env s = BugCheck kUnspecified 0 0 0 s' /\
     guest s' = guest s /\ vmcs (hw s') = vmcs (hw s)) /\
  (cr_access_type s = 2 \/ cr_access_type s = 3 ->
   exists s',
     VmmpHandleCrAccess env s = Returned tt s' /\
     (exists later,
        log (hw s') = later ++ [EvDbgBreak;
                                EvVmRead VmcsField.kExitQualification]
                             ++ log (hw s)) /\
     control_register_fields (hw s') = control_register_fields (hw s) /\
     cr8 (guest s') = cr8 (guest s) /\
     gp_regs (guest s') = gp_regs (guest s) /\
     vmcs (hw s') VmcsField.kGuestRip = next_ip s).
Proof.
  unfold cr_access_type, cr_number, next_ip.
  pose proof (VmmpSelectRegister_bits 8
                (vmcs (hw s) VmcsField.kExitQualification)) as [r R].
  pose proof (control_register_cases
                (vmcs (hw s) VmcsField.kExitQualification)) as C4.
  cbn [In] in C4.
  split; [|split].
  - intros T N0 N3 N4 N8.
    apply (stops_with (VmmpHandleCrAccess env) kUnspecified 0 0 0
             (fun s' => guest s' = guest s /\ vmcs (hw s') = vmcs (hw s))).
    unfold VmmpHandleCrAccess.
    apply stops_bind_later. wp_seq. rewrite R.
    apply stops_bind_later. wp_seq. apply stops_bind_now.
    rewrite T. cbv iota.
    destruct C4 as [E|[E|[E|[E|[E|[E|[E|[E|[E|[E|[E|[E|[E|[E|[E|[E|[]]]]]]]]]]]]]]]]];
      symmetry in E; try (exfalso; auto; fail); rewrite E; cbv iota;
      apply stops_bug_check; repeat split; reflexivity.
  - intros T N3 N8.
    apply (stops_with (VmmpHandleCrAccess env) kUnspecified 0 0 0
             (fun s' => guest s' = guest s /\ vmcs (hw s') = vmcs (hw s))).
    unfold VmmpHandleCrAccess.
    apply stops_bind_later. wp_seq. rewrite R.
    apply stops_bind_later. wp_seq. apply stops_bind_now.
    rewrite T. cbv iota.
    destruct C4 as [E|[E|[E|[E|[E|[E|[E|[E|[E|[E|[E|[E|[E|[E|[E|[E|[]]]]]]]]]]]]]]]]];
      symmetry in E; try (exfalso; auto; fail); rewrite E; cbv iota;
      apply stops_bug_check; repeat split; reflexivity.
  - intros T. apply wp_returned_unit.
    unfold VmmpHandleCrAccess, VmmpAdjustGuestInstructionPointer.
    wp_seq. rewrite R. wp_seq.
    destruct T as [T|T]; rewrite T; wp_go; wp_run;
      (split; [first [eexists [_; _]; reflexivity
                     | eexists [_; _; _; _]; reflexivity]|]);
      repeat split; reflexivity.
Qed.

Lemma X24_control_register_not_emulated_witness :
  (cr_access_type mov_to_cr2_state = 0 /\ cr_number mov_to_cr2_state = 2 /\
   exists s',
     VmmpHandleCrAccess example_env mov_to_cr2_state
     = BugCheck kUnspecified 0 0 0 s') /\
  (cr_access_type clts_state = 2 /\
   exists s',
     VmmpHandleCrAccess example_env clts_state = Returned tt s' /\
     vmcs (hw s') VmcsField.kGuestCr0 = 0x8005003b /\
     vmcs (hw s') VmcsField.kGuestRip = 0xfffff80000001002).
Proof.
  split.
  - split; [reflexivity|]. split; [reflexivity|].
    destruct (proj1 (X24_control_register_not_emulated example_env
                       mov_to_cr2_state) eq_refl)
      as (s' & E & _); try (vm_compute; discriminate).
    exists s'. exact E.
  - split; [reflexivity|].
    destruct (proj2 (proj2 (X24_control_register_not_emulated example_env
                              clts_state)) (or_introl eq_refl))
      as (s' & E & _ & F & _ & _ & I).
    exists s'. split; [exact E|].
    split; [|rewrite I; reflexivity].
    apply (f_equal (fun l => nth 0 l 0)) in F. exact F.
Defined.

(** ** Descriptor-table registers in memory *)

Lemma unlogged_add_log e s :
  unlogged {| guest := guest s; hw := add_log e (hw s) |} = unlogged s.
Proof. reflexivity. Qed.


























(** The root of the window need not be the same at the next exit.  Here the
    store overwrites [DirectoryTableBase], through which the root is looked
    up; the load that follows goes through the root 0x3000007f that the
    lookup now finds and reads the limit 0 there, not the stored 0x7f. *)
Lemma table_load_back_other_root :
  let s := sgdt_lookup_target_state in
  let s1 := final (VmmpHandleGdtrOrIdtrAccess s) in
  let s2 := final (VmmpHandleGdtrOrIdtrAccess
                     (next_instruction (load_back_info s) s1)) in
  instruction_identity s = 0 /\
  kernel_cr3 s = 0x1aa000 /\
  kernel_cr3 s1 = 0x3000007f /\
  vmcs (hw s) VmcsField.kGuestGdtrLimit = 0x7f /\
  vmcs (hw s2) VmcsField.kGuestGdtrLimit = 0.
Proof. vm_compute. repeat split. Qed.



(** ** LDTR and TR *)









(** ** The resume point and the trap frame *)

Lemma final_sat {A} (a : M A) (P : VmmState -> Prop) s :
  sat a s (fun _ => P) P -> P (final (a s)).
Proof. unfold sat. destruct (a s); auto. Qed.

Lemma VmmpHandleVmExit_trap_frame env v :
  keeps (fun s => trap_frame_view s = v) (VmmpHandleVmExit env).
Proof. keeps_tac prim_eq. Qed.

Ltac sat_prefix :=
  repeat lazymatch goal with
         | |- sat (bind (VmmpHandleVmExit _) _) _ _ _ => fail
         | |- sat (bind _ _) _ _ _ => apply sat_bind; apply sat_of_wp; wp_run
         end.

(** X29.  However an exit ends, the dispatcher has pointed the trap frame
    at the guest stack pointer and the guest instruction pointer that the
    control structure held at the exit (not at the next instruction), and
    the guest instruction pointer in the control structure is either that
    one still or the one of the next instruction: the old one plus the
    exit instruction length, modulo 2^64.  The values come from the control
    structure, whatever the saved context held before. *)
Theorem X29_resume_point env s :
  let s' := final (VmmVmExitHandler env s) in
  trap_frame_sp (guest s') = vmcs (hw s) VmcsField.kGuestRsp /\
  trap_frame_ip (guest s') = vmcs (hw s) VmcsField.kGuestRip /\
  (vmcs (hw s') VmcsField.kGuestRip = vmcs (hw s) VmcsField.kGuestRip \/
   vmcs (hw s') VmcsField.kGuestRip
   = wrap64 (vmcs (hw s) VmcsField.kGuestRip
             + vmcs (hw s) VmcsField.kVmExitInstructionLen)).
Proof.
  cbv zeta.
  apply (final_sat (VmmVmExitHandler env) (fun s' =>
    trap_frame_sp (guest s') = vmcs (hw s) VmcsField.kGuestRsp /\
    trap_frame_ip (guest s') = vmcs (hw s) VmcsField.kGuestRip /\
    (vmcs (hw s') VmcsField.kGuestRip = vmcs (hw s) VmcsField.kGuestRip \/
     vmcs (hw s') VmcsField.kGuestRip
     = wrap64 (vmcs (hw s) VmcsField.kGuestRip
               + vmcs (hw s) VmcsField.kVmExitInstructionLen)))).
  unfold VmmVmExitHandler. sat_prefix.
  all: apply sat_bind; unfold sat at 1;
    match goal with
    | |- match VmmpHandleVmExit _ ?s1 with _ => _ end =>
        pose proof (VmmpHandleVmExit_trap_frame env _ s1 eq_refl) as N;
        pose proof (VmmpHandleVmExit_advances_at_most_once env s1) as C;
        destruct (VmmpHandleVmExit env s1) as [x s2|? ? ? ? s2|s2]
    end;
    cbn [final] in N, C; unfold trap_frame_view in N; cbn in N;
    injection N as N1 N2;
    assert (R : vmcs (hw s2) VmcsField.kGuestRip
                = vmcs (hw s) VmcsField.kGuestRip \/
                vmcs (hw s2) VmcsField.kGuestRip
                = wrap64 (vmcs (hw s) VmcsField.kGuestRip
                          + vmcs (hw s) VmcsField.kVmExitInstructionLen))
      by (destruct C as [C|C]; apply (f_equal view_rip) in C; cbn in C;
          [left | right]; exact C);
    clear C;
    try (split; [exact N1 | split; [exact N2 | exact R]]);
    apply sat_of_wp; wp_run;
    (split; [exact N1 | split; [exact N2 | exact R]]).
Qed.

(** * Loading and unloading *)

(** X30.  Once [DriverEntry] has reached [PerfInitialization] (nothing has
    been undone up to there), it initialises performance measurement, the
    utilities, the power callback, the hot-plug callback and the
    virtualisation in this order and stops at the first that fails: it
    then undoes the ones that succeeded in reverse order, calls
    [_CRT_UNLOAD] and [LogTermination], and returns the failing status.
    When all five succeed, they were called in this order and followed
    only by the registration of the log's reinitialisation, where the log
    asked for it, and the message that the VMM is installed; the status of
    [VmInitialization] is returned and nothing is undone.
    [DriverpDriverUnload] then undoes the five in reverse order, then the
    log, the system-call hook's page and the service hooks where the build
    has them, and the devices last. *)
Theorem X30_driver_entry_rolls_back sys :
  Driver.reaches_PerfInitialization sys ->
  let done := Driver.succeeded (Driver.rolled_back_steps sys) in
  let calls := snd (Driver.DriverEntry sys) in
  let status := fst (Driver.DriverEntry sys) in
  filter Driver.undoes (Driver.before_call Driver.PerfInitialization calls)
  = [] /\
  match nth_error (Driver.rolled_back_steps sys) (List.length done) with
  | Some failed =>
      status = snd failed /\
      Driver.NT_SUCCESS status = false /\
      Driver.from_call Driver.PerfInitialization calls
      = map Driver.initialisation done ++ [Driver.initialisation failed]
        ++ rev (map Driver.termination done)
        ++ [Driver._CRT_UNLOAD; Driver.LogTermination]
  | None =>
      status = Driver.VmInitialization_status sys /\
      Driver.NT_SUCCESS status = true /\
      done = Driver.rolled_back_steps sys /\
      Driver.from_call Driver.PerfInitialization calls
      = map Driver.initialisation done
        ++ (if Driver.LogInitialization_status sys
               =? Driver.STATUS_REINITIALIZATION_NEEDED sys
            then [Driver.LogRegisterReinitialization] else [])
        ++ [Driver.HYPERPLATFORM_LOG_INFO "The VMM has been installed."] /\
      filter Driver.undoes calls = [] /\
      filter Driver.undoes (snd (Driver.DriverpDriverUnload sys))
      = rev (map Driver.termination done)
        ++ [Driver.LogTermination]
        ++ (if Driver.HOOK_SYSCALL sys
            then if Driver.SystemCallFake_PageContent sys =? 0
                 then [] else [Driver.ExFreePool]
            else [])
        ++ (if Driver.SERVICE_HOOK sys then [Driver.RemoveServiceHook] else [])
        ++ [Driver.HyperDestroyDeviceAll]
  end.
Proof.
  intros (H1 & H2 & H3 & H4 & H5). cbv zeta.
  destruct sys as [hook service window reinit s1 s2 s3 s4 major
                     p1 p2 p3 p4 p5 page].
  cbn in H1, H2, H3, H4, H5.
  unfold Driver.DriverEntry, Driver.DriverpDriverUnload,
    Driver.DriverpIsSuppoetedOS, Driver.service_hooks,
    Driver.rolled_back_steps.
  cbn [Driver.InitSystemVar_status Driver.HyperInitDeviceAll_status
       Driver.LogInitialization_status Driver.RtlGetVersion_status
       Driver.dwMajorVersion Driver.PerfInitialization_status
       Driver.UtilInitialization_status
       Driver.PowerCallbackInitialization_status
       Driver.HotplugCallbackInitialization_status
       Driver.VmInitialization_status Driver.HOOK_SYSCALL
       Driver.SERVICE_HOOK Driver.HIDE_WINDOW
       Driver.STATUS_REINITIALIZATION_NEEDED
       Driver.SystemCallFake_PageContent Driver.succeeded snd fst].
  assert (L : negb (s3 =? reinit) && negb (Driver.NT_SUCCESS s3) = false).
  { destruct H3 as [-> | ->]; [rewrite Z.eqb_refl; reflexivity|].
    apply andb_false_r. }
  assert (M : negb (major =? 6) && negb (major =? 10) = false)
    by (destruct H5 as [-> | ->]; reflexivity).
  destruct hook, service, window;
    repeat (cbv beta iota zeta
              delta [Driver.bind Driver.call Driver.ret Driver.when fst snd];
            rewrite ?H1, ?H2, ?L, ?H4, ?M; cbn [negb app]);
    (destruct (Driver.NT_SUCCESS p1) eqn:P1;
     [destruct (Driver.NT_SUCCESS p2) eqn:P2;
      [destruct (Driver.NT_SUCCESS p3) eqn:P3;
       [destruct (Driver.NT_SUCCESS p4) eqn:P4;
        [destruct (Driver.NT_SUCCESS p5) eqn:P5|]|]|]|]);
    destruct (s3 =? reinit), (page =? 0);
    cbn; repeat split; try reflexivity; assumption.
Qed.

Lemma X30_driver_entry_rolls_back_witness :
  (Driver.reaches_PerfInitialization Driver.power_callback_fails /\
   fst (Driver.DriverEntry Driver.power_callback_fails)
   = Driver.STATUS_UNSUCCESSFUL /\
   Driver.from_call Driver.PerfInitialization
     (snd (Driver.DriverEntry Driver.power_callback_fails))
   = [Driver.PerfInitialization; Driver.UtilInitialization;
      Driver.PowerCallbackInitialization; Driver.UtilTermination;
      Driver.PerfTermination; Driver._CRT_UNLOAD; Driver.LogTermination]) /\
  (Driver.reaches_PerfInitialization Driver.healthy_system /\
   fst (Driver.DriverEntry Driver.healthy_system) = 0 /\
   Driver.from_call Driver.PerfInitialization
     (snd (Driver.DriverEntry Driver.healthy_system))
   = [Driver.PerfInitialization; Driver.UtilInitialization;
      Driver.PowerCallbackInitialization;
      Driver.HotplugCallbackInitialization; Driver.VmInitialization;
      Driver.HYPERPLATFORM_LOG_INFO "The VMM has been installed."] /\
   filter Driver.undoes (snd (Driver.DriverpDriverUnload Driver.healthy_system))
   = [Driver.VmTermination; Driver.HotplugCallbackTermination;
      Driver.PowerCallbackTermination; Driver.UtilTermination;
      Driver.PerfTermination; Driver.LogTermination; Driver.ExFreePool;
      Driver.RemoveServiceHook; Driver.HyperDestroyDeviceAll]).
Proof.
  split.
  - assert (R : Driver.reaches_PerfInitialization Driver.power_callback_fails)
      by (repeat split; try reflexivity; right; reflexivity).
    split; [exact R|].
    destruct (X30_driver_entry_rolls_back Driver.power_callback_fails R)
      as (_ & S & _ & F).
    split; [exact S | exact F].
  - assert (R : Driver.reaches_PerfInitialization Driver.healthy_system)
      by (repeat split; try reflexivity; right; reflexivity).
    split; [exact R|].
    destruct (X30_driver_entry_rolls_back Driver.healthy_system R)
      as (_ & S & _ & _ & I & _ & U).
    split; [exact S|]. split; [exact I | exact U].
Defined.
